(** * verl/utils/dataset.py: record sources and the example transformer

    A shallow embedding of [process_image], [RLHFDataset] and
    [RLHFSelfDataset].  Python values are an inductive universe, a record
    of the dataset is a finite map from field names to values, exceptions
    are an explicit result type, and the body of [__getitem__], which
    mutates the dict it was handed, is written in a small state-and-error
    monad over that dict. *)

From Stdlib Require Import ZArith String Ascii List Lia Bool SpecFloat.
From Stdlib Require Import Rbase Rfunctions R_sqrt Lra.
From stdpp Require Import base option list gmap strings pretty fin_maps.

Set Warnings "-register-all".

Local Open Scope string_scope.
Local Open Scope list_scope.
Local Open Scope Z_scope.

(** ** Exceptions and results *)

Inductive exn : Type :=
  | KeyError (key : string)
  | IndexError
  | TypeError
  | AttributeError
  | ValueError
  | RuntimeError
  | NotImplementedError
  | OSError
  | ZeroDivisionError
  | OverflowError.

Inductive result (A : Type) : Type :=
  | Ok (a : A)
  | Raise (e : exn).
Arguments Ok {A} a.
Arguments Raise {A} e.

Definition is_ok {A} (r : result A) : bool :=
  match r with Ok _ => true | Raise _ => false end.

Definition rbind {A B} (r : result A) (k : A → result B) : result B :=
  match r with Ok a => k a | Raise e => Raise e end.

Fixpoint rmap_list {A B} (f : A → result B) (l : list A) : result (list B) :=
  match l with
  | [] => Ok []
  | a :: l' =>
      rbind (f a) (λ b, rbind (rmap_list f l') (λ bs, Ok (b :: bs)))
  end.

(** ** Python values *)

(** A decoded PIL image: its size, its mode, and an opaque handle on the
    pixel content. *)
Record ImageObject : Type := mk_image {
  width : Z;
  height : Z;
  mode : string;
  pixels : N
}.

(** A tensor of integers with one axis, or with two (a list of rows). *)
Inductive tensor : Type :=
  | T1 (v : list Z)
  | T2 (rows : list (list Z)).

Inductive pyval : Type :=
  | PNone
  | PBool (b : bool)
  | PInt (z : Z)
  | PFloat (bits : Z)
  | PStr (s : string)
  | PBytes (b : list Byte.byte)
  | PImage (im : ImageObject)
  | PTensor (t : tensor)
  | PList (l : list pyval)
  | PDict (kv : list (string * pyval)).

(** A record of the dataset, and any dict built from it. *)
Abbreviation dict := (gmap string pyval).

Fixpoint assoc_get (k : string) (kv : list (string * pyval)) : option pyval :=
  match kv with
  | [] => None
  | (k', v) :: kv' => if String.eqb k k' then Some v else assoc_get k kv'
  end.

(** ** Python sequence operations *)

(** [l[-n:]] *)
Definition slice_last {A} (n : Z) (l : list A) : list A :=
  let len := Z.of_nat (length l) in
  if n =? 0 then l                                   (* -0 is 0 : [l[0:]] *)
  else if 0 <? n then drop (Z.to_nat (len - n)) l    (* negative start, clamped at 0 *)
  else drop (Z.to_nat (- n)) l.                      (* [n < 0] : positive start [-n] *)

(** [l[:n]] *)
Definition slice_first {A} (n : Z) (l : list A) : list A :=
  let len := Z.of_nat (length l) in
  if 0 <=? n then take (Z.to_nat n) l
  else take (Z.to_nat (len + n)) l.

(** [self.dataset[index]] for an integer index. *)
Definition py_index_pos {A} (l : list A) (i : Z) : result nat :=
  let len := Z.of_nat (length l) in
  if (0 <=? i) && (i <? len) then Ok (Z.to_nat i)
  else if (- len <=? i) && (i <? 0) then Ok (Z.to_nat (len + i))
  else Raise IndexError.

(** [torch.clip(attention_mask.cumsum(dim=0) - 1, min=0, max=None)] *)
Fixpoint cumsum_from (acc : Z) (v : list Z) : list Z :=
  match v with
  | [] => []
  | x :: v' => (acc + x) :: cumsum_from (acc + x) v'
  end.

Definition cumsum (v : list Z) : list Z := cumsum_from 0 v.

Definition clip_min (lo : Z) (v : list Z) : list Z := map (Z.max lo) v.

Definition default_position_ids (attention_mask : list Z) : list Z :=
  clip_min 0 (map (λ x, x - 1) (cumsum attention_mask)).

(** ** [str.split] with a separator *)

(** [split_from sep skip s] scans [s] left to right.  [skip] counts the
    characters of a separator just matched that are still to be passed
    over.  The result is the segment in progress and the segments after
    it. *)
Fixpoint split_from (sep : string) (skip : nat) (s : string) : string * list string :=
  match s with
  | EmptyString => (EmptyString, [])
  | String c s' =>
      match skip with
      | S k => split_from sep k s'
      | O =>
          if String.prefix sep s then
            let '(seg, segs) := split_from sep (Nat.pred (String.length sep)) s' in
            (EmptyString, seg :: segs)
          else
            let '(seg, segs) := split_from sep O s' in
            (String c seg, segs)
      end
  end.

(** [s.split(sep)] for a non-empty [sep]. *)
Definition py_split (sep s : string) : list string :=
  let '(seg, segs) := split_from sep O s in seg :: segs.


(** The number of positions of [s] at which [sep] starts. *)
Fixpoint occurrences (sep s : string) : nat :=
  match s with
  | EmptyString => O
  | String _ s' =>
      ((if String.prefix sep s then 1 else 0) + occurrences sep s')%nat
  end.

Definition image_marker : string := "<image>".

(** ** Chat messages *)

Inductive part : Type :=
  | ImagePart                      (* {"type": "image"} *)
  | TextPart (text : string).      (* {"type": "text", "text": text} *)

Inductive content : Type :=
  | Plain (v : pyval)
  | Parts (l : list part).

Record message : Type := mk_message {
  role : string;
  msg_content : content
}.


(** ** The processing backends

    The tokenizer and the multimodal processor are collaborators of the
    module; only the calls the module makes are listed. *)

Record model_inputs : Type := mk_model_inputs {
  mi_input_ids : list Z;                       (* ["input_ids"][0] *)
  mi_attention_mask : list Z;                  (* ["attention_mask"][0] *)
  mi_image_grid_thw : option (list (Z * Z * Z))  (* .get("image_grid_thw") *)
}.

Record tokenizer : Type := mk_tokenizer {
  (* apply_chat_template(messages, add_generation_prompt=True, tokenize=False) *)
  tok_apply_chat_template : list message → string;
  (* tokenizer([prompt], add_special_tokens=False, return_tensors="pt") *)
  tok_call : string → model_inputs;
  (* tokenizer.encode(prompt, add_special_tokens=False) *)
  tok_encode : string → list Z;
  pad_token_id : Z
}.

Record processor : Type := mk_processor {
  (* apply_chat_template(messages, add_generation_prompt=True, tokenize=False) *)
  proc_apply_chat_template : list message → string;
  (* processor(images, [prompt], add_special_tokens=False, return_tensors="pt") *)
  proc_call : list ImageObject → string → model_inputs;
  (* processor.image_processor.__class__.__name__ *)
  image_processor_class : string
}.

(** ** Configuration: the attributes [__init__] stores on [self] *)

Record config : Type := mk_config {
  cfg_tokenizer : tokenizer;
  cfg_processor : option processor;
  prompt_key : string;
  answer_key : string;
  image_key : string;
  max_prompt_length : Z;
  truncation : string;
  format_prompt : option string;     (* the template text read from the file *)
  max_pixels : option Z;
  min_pixels : option Z;
  filter_overlong_prompts : bool
}.


(** ** Monads: results, and actions on the example dict *)

#[export] Instance result_ret : MRet result := λ A a, Ok a.
#[export] Instance result_bind : MBind result := λ A B k r, rbind r k.

(** An action reads and writes the dict bound to [example]; an exception
    leaves the dict as it was when it was raised. *)
Definition action (A : Type) : Type := dict → result A * dict.

#[export] Instance action_ret : MRet action := λ A a d, (Ok a, d).
#[export] Instance action_bind : MBind action := λ A B k m d,
  match m d with
  | (Ok a, d') => k a d'
  | (Raise e, d') => (Raise e, d')
  end.

Definition lift {A} (r : result A) : action A := λ d, (r, d).

(** [example] itself *)
Definition this_dict : action dict := λ d, (Ok d, d).

(** [key in example] *)
Definition dict_contains (key : string) : action bool :=
  λ d, (Ok (bool_decide (is_Some (d !! key))), d).

(** [example.pop(key)] *)
Definition dict_pop (key : string) : action pyval :=
  λ d, match d !! key with
       | Some v => (Ok v, delete key d)
       | None => (Raise (KeyError key), d)
       end.

(** [example[key] = v] *)
Definition dict_set (key : string) (v : pyval) : action unit :=
  λ d, (Ok tt, <[key := v]> d).

(** [d[key]] on a dict that is only read *)
Definition dict_get (key : string) (d : dict) : result pyval :=
  match d !! key with
  | Some v => Ok v
  | None => Raise (KeyError key)
  end.

(** Iteration over a value ([for x in v]).  Lists, strings, dicts (their
    keys) and byte strings are covered; tensors are not iterated here. *)
Definition py_iter (v : pyval) : result (list pyval) :=
  match v with
  | PList l => Ok l
  | PStr s => Ok (map (λ c, PStr (String c EmptyString)) (list_ascii_of_string s))
  | PDict kv => Ok (map (λ p, PStr p.1) kv)
  | PBytes b => Ok (map (λ x, PInt (Z.of_N (Byte.to_N x))) b)
  | _ => Raise TypeError
  end.

(** ** What lies outside the module

    PIL, Jinja, the rotary index routine, the file system and the dataset
    loader. *)

Record world : Type := mk_world {
  (* Image.open(path), Image.open(BytesIO(b)) *)
  Image_open : string → result ImageObject;
  Image_open_bytes : list Byte.byte → result ImageObject;
  (* image.resize((width, height)), image.convert(mode) *)
  Image_resize : ImageObject → Z * Z → result ImageObject;
  Image_convert : ImageObject → string → ImageObject;
  (* Template(text.strip()).render(content=v) *)
  Template_render : string → pyval → string;
  (* get_rope_index(processor, input_ids=, image_grid_thw=, attention_mask=),
     of models/transformers/qwen2_vl.py, which is not among the sources *)
  get_rope_index : processor → list Z → option (list (Z * Z * Z)) → list Z → tensor;
  (* repr of a value that is not None, a bool, an int or a str *)
  py_repr : pyval → string;
  (* os.path.isdir, os.path.isfile *)
  isdir : string → bool;
  isfile : string → bool;
  (* load_dataset("parquet", data_dir=p, split="train"),
     load_dataset("parquet", data_files=p, split="train"),
     load_dataset(p, split=s) *)
  load_parquet_dir : string → result (list dict);
  load_parquet_file : string → result (list dict);
  load_remote : string → string → result (list dict);
  (* json.load(open(p)) *)
  json_load : string → result pyval;
  (* open(p, encoding="utf-8").read() *)
  read_text : string → result string
}.

(** ** The arithmetic of the resize factor

    A Python [float] is a binary64 number: the numbers of [SpecFloat] at
    precision 53 and exponent bound 1024, whose operations round to
    nearest, ties to even. *)

Definition prec : Z := 53.
Definition emax : Z := 1024.

(** An [int] as an exact operand. *)
Definition exact_of_int (z : Z) : spec_float :=
  match z with
  | Z0 => S754_zero false
  | Zpos p => S754_finite false p 0
  | Zneg p => S754_finite true p 0
  end.

(** [a / b] for two ints: the quotient of the two integers, rounded
    once. *)
Definition int_true_div (a b : Z) : result spec_float :=
  if b =? 0 then Raise ZeroDivisionError
  else
    match SFdiv prec emax (exact_of_int a) (exact_of_int b) with
    | S754_infinity _ => Raise OverflowError
    | q => Ok q
    end.

(** [math.sqrt(x)] *)
Definition math_sqrt (x : spec_float) : result spec_float :=
  match x with
  | S754_finite true _ _ | S754_infinity true => Raise ValueError
  | _ => Ok (SFsqrt prec emax x)
  end.

(** [float(z)], as [z * x] converts its int operand. *)
Definition float_of_int (z : Z) : result spec_float :=
  match binary_normalize prec emax z 0 false with
  | S754_infinity _ => Raise OverflowError
  | x => Ok x
  end.

(** [z * x] for an int [z] and a float [x] *)
Definition int_mul_float (z : Z) (x : spec_float) : result spec_float :=
  y ← float_of_int z; Ok (SFmul prec emax y x).

(** [int(x)]: truncation towards zero. *)
Definition int_of_float (x : spec_float) : result Z :=
  match x with
  | S754_nan => Raise ValueError
  | S754_infinity _ => Raise OverflowError
  | S754_zero _ => Ok 0
  | S754_finite s m e => Ok (cond_Zopp s (Z.shiftl (Zpos m) e))
  end.

(** Lines 64-66 and 69-71, for the bound [target] and an image of [w] by
    [h] pixels:
      resize_factor = math.sqrt(target / (w * h))
      width, height = int(w * resize_factor), int(h * resize_factor) *)
Definition scaled_size (target w h : Z) : result (Z * Z) :=
  q ← int_true_div target (w * h);
  resize_factor ← math_sqrt q;
  x ← int_mul_float w resize_factor;
  width ← int_of_float x;
  y ← int_mul_float h resize_factor;
  height ← int_of_float y;
  Ok (width, height).

(** The real number a positive binary64 value [m * 2^e] stands for, and
    the unit roundoff of the format: the yardsticks the error of
    [scaled_size] is measured with. *)
Definition bpow (e : Z) : R := powerRZ 2 e.



(** ** [process_image] *)

Section ProcessImage.
Variable W : world.

(** The three [isinstance] branches; a value of any other type is used
    as a decoded image, and its [.width] is the first attribute read.
    [BytesIO(None)] is the empty buffer; [BytesIO] of any other value
    that is not a byte string raises [TypeError]. *)
Definition open_image (image : pyval) : result ImageObject :=
  match image with
  | PStr path => Image_open W path
  | PDict kv =>
      match assoc_get "bytes" kv with
      | Some (PBytes b) => Image_open_bytes W b
      | Some PNone => Image_open_bytes W []
      | Some _ => Raise TypeError
      | None => Raise (KeyError "bytes")
      end
  | PBytes b => Image_open_bytes W b
  | PImage im => Ok im
  | _ => Raise AttributeError
  end.

(** [a > b] and [a < b] for an int [a] and an [Optional[int]] [b]. *)
Definition int_gt (a : Z) (b : option Z) : result bool :=
  match b with Some b => Ok (b <? a) | None => Raise TypeError end.

Definition int_lt (a : Z) (b : option Z) : result bool :=
  match b with Some b => Ok (a <? b) | None => Raise TypeError end.

Definition rescale (target : option Z) (im : ImageObject) : result ImageObject :=
  match target with
  | Some t => size ← scaled_size t (width im) (height im); Image_resize W im size
  | None => Raise TypeError
  end.

Definition process_image (image : pyval) (min_pixels max_pixels : option Z)
  : result ImageObject :=
  image ← open_image image;
  too_large ← int_gt (width image * height image) max_pixels;
  image ← (if too_large : bool then rescale max_pixels image else Ok image);
  too_small ← int_lt (width image * height image) min_pixels;
  image ← (if too_small : bool then rescale min_pixels image else Ok image);
  Ok (if String.eqb (mode image) "RGB" then image else Image_convert W image "RGB").
End ProcessImage.



(** ** [VF.postprocess_data] *)

(** Modelled from the spec: [verl/utils/torch_functional.py], which holds
    [postprocess_data], is not among the sources.  Section 4.4, step 6:
    a sequence is padded or truncated to exactly [max_length] entries;
    when shorter, the filler goes in front and the content moves right;
    when longer, "left" drops from the front, "right" drops from the end
    and "error" is fatal.  The spec names no other policy; here any other
    one is fatal as well.  [fit_to_length] is that rule on one sequence. *)
Definition fit_to_length (max_length : Z) (pad : Z) (truncation : string)
    (v : list Z) : result (list Z) :=
  let L := Z.to_nat max_length in
  let n := length v in
  if (n <? L)%nat then Ok (replicate (L - n) pad ++ v)
  else if (L <? n)%nat then
    if String.eqb truncation "left" then Ok (drop (n - L) v)
    else if String.eqb truncation "right" then Ok (take L v)
    else Raise NotImplementedError
  else Ok v.

(** Modelled from the spec: the rule of [fit_to_length] along the last
    axis of a tensor, so that a 3-axis [position_ids] keeps its rows. *)
Definition fit_tensor (max_length : Z) (pad : Z) (truncation : string)
    (t : tensor) : result tensor :=
  match t with
  | T1 v => v' ← fit_to_length max_length pad truncation v; Ok (T1 v')
  | T2 rows => rows' ← rmap_list (fit_to_length max_length pad truncation) rows; Ok (T2 rows')
  end.

(** Modelled from the spec: [postprocess_data(input_ids=, attention_mask=,
    position_ids=, max_length=, pad_token_id=, left_pad=True, truncation=)].
    The pad value is [pad_token_id] for [input_ids] and 0 for the mask and
    the positions.  The only call passes [left_pad=True], the one padding
    side the spec describes. *)
Definition postprocess_data (input_ids attention_mask : list Z) (position_ids : tensor)
    (max_length : Z) (pad_token_id : Z) (truncation : string)
    : result (list Z * list Z * tensor) :=
  input_ids ← fit_to_length max_length pad_token_id truncation input_ids;
  attention_mask ← fit_to_length max_length 0 truncation attention_mask;
  position_ids ← fit_tensor max_length 0 truncation position_ids;
  Ok (input_ids, attention_mask, position_ids).

(** ** The example transformer *)

(** [if s:] for an [Optional[str]] *)
Definition truthy (s : option string) : option string :=
  match s with
  | Some EmptyString => None
  | other => other
  end.

(** The loop body of [_build_messages]. *)
Definition content_step (content_list : list part) (ic : nat * string) : list part :=
  let '(i, content) := ic in
  let content_list :=
    if negb (Nat.eqb i 0) then content_list ++ [ImagePart] else content_list in
  match content with
  | EmptyString => content_list
  | _ => content_list ++ [TextPart content]
  end.

(** [enumerate(l)] *)
Definition enumerate {A} (l : list A) : list (nat * A) := imap pair l.

(** Lines 215-222 and 410-417: the truncation of [raw_prompt_ids]. *)
Definition truncate_raw_prompt_ids (max_prompt_length : Z) (truncation : string)
    (raw_prompt_ids : list Z) : result (list Z) :=
  if max_prompt_length <? Z.of_nat (length raw_prompt_ids) then
    if String.eqb truncation "left" then Ok (slice_last max_prompt_length raw_prompt_ids)
    else if String.eqb truncation "right" then Ok (slice_first max_prompt_length raw_prompt_ids)
    else if String.eqb truncation "error" then Raise RuntimeError
    else Ok raw_prompt_ids
  else Ok raw_prompt_ids.

(** A Python list of ints. *)
Definition ids_value (ids : list Z) : pyval := PList (PInt <$> ids).

(** ** Construction helpers *)

(** Lines 111-114: [data_path.split("@")] has one segment exactly when
    ["@"] does not occur; two segments unpack; more do not. *)
Definition split_locator (data_path : string) : result (string * string) :=
  match py_split "@" data_path with
  | [path] => Ok (path, "train")
  | [path; data_split] => Ok (path, data_split)
  | _ => Raise ValueError
  end.

Fixpoint rfilter {A} (keep : A → result bool) (l : list A) : result (list A) :=
  match l with
  | [] => Ok []
  | a :: l' =>
      b ← keep a;
      rest ← rfilter keep l';
      Ok (if b : bool then a :: rest else rest)
  end.

(** Lines 125-128 and 320-323. *)
Definition load_format_prompt (W : world) (path : option string) : result (option string) :=
  match truthy path with
  | Some path => text ← read_text W path; Ok (Some text)
  | None => Ok None
  end.

Definition with_format_prompt (args : config) (text : option string) : config :=
  {| cfg_tokenizer := cfg_tokenizer args;
     cfg_processor := cfg_processor args;
     prompt_key := prompt_key args;
     answer_key := answer_key args;
     image_key := image_key args;
     max_prompt_length := max_prompt_length args;
     truncation := truncation args;
     format_prompt := text;
     max_pixels := max_pixels args;
     min_pixels := min_pixels args;
     filter_overlong_prompts := filter_overlong_prompts args |}.

(** What [apply_chat_template] returns: token ids or the rendered text;
    [len] counts the ids or the characters. *)
Inductive rendered : Type :=
  | Rendered_ids (ids : list Z)
  | Rendered_text (text : string).

Definition py_len (r : rendered) : nat :=
  match r with
  | Rendered_ids ids => length ids
  | Rendered_text text => String.length text
  end.

Module RLHFDataset.
Section Methods.
Variable W : world.
Variable self : config.

(** [prompt_str.split("<image>")] on line 142: a byte string, a tensor
    and a PIL image have a [split] that does not take a [str]; the other
    values that are not a [str] have no [split]. *)
Definition _build_messages (example : dict) : result (list message) :=
  prompt_str ← dict_get (prompt_key self) example;
  let prompt_str :=
    match truthy (format_prompt self) with
    | Some text => PStr (Template_render W text prompt_str)
    | None => prompt_str
    end in
  if bool_decide (is_Some (example !! image_key self)) then
    match prompt_str with
    | PStr s =>
        let content_list := fold_left content_step (enumerate (py_split image_marker s)) [] in
        Ok [mk_message "user" (Parts content_list)]
    | PBytes _ | PTensor _ | PImage _ => Raise TypeError
    | _ => Raise AttributeError
    end
  else Ok [mk_message "user" (Plain prompt_str)].

(** [self.processor if self.processor is not None else self.tokenizer],
    then [apply_chat_template(messages, add_generation_prompt=True)].
    The call names no [tokenize]: a processor's default is
    [tokenize=False], the rendered text; a tokenizer's default is
    [tokenize=True], the ids of the rendered text, encoded as the
    tokenizer call encodes it, with no special tokens added. *)
Definition processing_class_template (messages : list message) : rendered :=
  match cfg_processor self with
  | Some p => Rendered_text (proc_apply_chat_template p messages)
  | None =>
      Rendered_ids
        (mi_input_ids (tok_call (cfg_tokenizer self)
                         (tok_apply_chat_template (cfg_tokenizer self) messages)))
  end.

Definition _filter_overlong_prompts (example : dict) : result bool :=
  messages ← _build_messages example;
  Ok (Z.of_nat (py_len (processing_class_template messages)) <=? max_prompt_length self).

(** An attribute of [self.processor], which may be [None]. *)
Definition the_processor : result processor :=
  match cfg_processor self with
  | Some p => Ok p
  | None => Raise AttributeError
  end.

(** Lines 170-191: the prompt string and the encoder output. *)
Definition encode_example (messages : list message) : action (string * model_inputs) :=
  has_image ← dict_contains (image_key self);
  if has_image : bool then
    p ← lift the_processor;
    let prompt := proc_apply_chat_template p messages in
    raw_image_data ← dict_pop (image_key self);
    items ← lift (py_iter raw_image_data);
    images ← lift (rmap_list (λ image, process_image W image (min_pixels self) (max_pixels self)) items);
    let model_inputs := proc_call p images prompt in
    _ ← dict_set "multi_modal_data" (PDict [("image", raw_image_data)]);
    mret (prompt, model_inputs)
  else
    let prompt := tok_apply_chat_template (cfg_tokenizer self) messages in
    mret (prompt, tok_call (cfg_tokenizer self) prompt).

(** Lines 194-204. *)
Definition position_ids_of (model_inputs : model_inputs) : tensor :=
  match cfg_processor self with
  | Some p =>
      if String.eqb (image_processor_class p) "Qwen2VLImageProcessor" then
        get_rope_index W p (mi_input_ids model_inputs)
          (mi_image_grid_thw model_inputs) (mi_attention_mask model_inputs)
      else T1 (default_position_ids (mi_attention_mask model_inputs))
  | None => T1 (default_position_ids (mi_attention_mask model_inputs))
  end.

(** The body of [__getitem__] on the dict bound to [example]. *)
Definition transform : action dict :=
  example ← this_dict;
  messages ← lift (_build_messages example);
  '(prompt, model_inputs) ← encode_example messages;
  let position_ids := position_ids_of model_inputs in
  '(input_ids, attention_mask, position_ids) ←
    lift (postprocess_data (mi_input_ids model_inputs) (mi_attention_mask model_inputs)
            position_ids (max_prompt_length self)
            (pad_token_id (cfg_tokenizer self)) (truncation self));
  let raw_prompt_ids := tok_encode (cfg_tokenizer self) prompt in
  raw_prompt_ids ← lift (truncate_raw_prompt_ids (max_prompt_length self) (truncation self) raw_prompt_ids);
  _ ← dict_set "input_ids" (PTensor (T1 input_ids));
  _ ← dict_set "attention_mask" (PTensor (T1 attention_mask));
  _ ← dict_set "position_ids" (PTensor position_ids);
  _ ← dict_set "raw_prompt_ids" (ids_value raw_prompt_ids);
  ground_truth ← dict_pop (answer_key self);
  _ ← dict_set "ground_truth" ground_truth;
  this_dict.
End Methods.

(** The object: its configuration and [self.dataset], a sequence that
    hands out a fresh dict at every access. *)
Record t : Type := mk {
  cfg : config;
  dataset : list dict
}.

(** Lines 111-123: the locator and the loader. *)
Definition load_records (W : world) (data_path : string) : result (list dict) :=
  '(data_path, data_split) ← split_locator data_path;
  if isdir W data_path then load_parquet_dir W data_path
  else if isfile W data_path then load_parquet_file W data_path
  else load_remote W data_path data_split.

(** [args] holds the keyword arguments; its [format_prompt] is the path
    of the template file. *)
Definition __init__ (W : world) (data_path : string) (args : config) : result t :=
  dataset ← load_records W data_path;
  text ← load_format_prompt W (format_prompt args);
  let self := with_format_prompt args text in
  dataset ←
    (if filter_overlong_prompts self
     then rfilter (_filter_overlong_prompts W self) dataset
     else Ok dataset);
  Ok (mk self dataset).

Definition __len__ (self : t) : nat := length (dataset self).

Definition __getitem__ (W : world) (self : t) (index : Z) : result dict :=
  i ← py_index_pos (dataset self) index;
  match dataset self !! i with
  | Some example => (transform W (cfg self) example).1
  | None => Raise IndexError
  end.
End RLHFDataset.

(** ** Helpers of the JSON loader *)

(** [v[key]] for a string key. *)
Definition subscript (v : pyval) (key : string) : result pyval :=
  match v with
  | PDict kv =>
      match assoc_get key kv with
      | Some x => Ok x
      | None => Raise (KeyError key)
      end
  | _ => Raise TypeError
  end.

(** [a + b] where one operand is a [str] literal. *)
Definition str_add (a b : pyval) : result string :=
  match a, b with
  | PStr x, PStr y => Ok (x +:+ y)
  | _, _ => Raise TypeError
  end.

(** [str(v)] *)
Definition py_str (W : world) (v : pyval) : string :=
  match v with
  | PNone => "None"
  | PBool true => "True"
  | PBool false => "False"
  | PInt z => pretty z
  | PStr s => s
  | _ => py_repr W v
  end.

Fixpoint ends_with_slash (s : string) : bool :=
  match s with
  | EmptyString => false
  | String c EmptyString => Ascii.eqb c "/"
  | String _ s' => ends_with_slash s'
  end.

(** [os.path.join(a, b)] on POSIX, for a directory that may be [None]. *)
Definition os_path_join (a : option string) (b : string) : result string :=
  match a with
  | None => Raise TypeError
  | Some a =>
      Ok (if String.prefix "/" b then b
          else if String.eqb a "" || ends_with_slash a then a +:+ b
          else a +:+ "/" +:+ b)
  end.

Module RLHFSelfDataset.
(** [_build_messages], [_filter_overlong_prompts] and the body of
    [__getitem__] have the text of their namesakes in [RLHFDataset]. *)
Definition _build_messages := RLHFDataset._build_messages.
Definition _filter_overlong_prompts := RLHFDataset._filter_overlong_prompts.
Definition transform := RLHFDataset.transform.

(** The object: its configuration and [self.dataset], a Python list of
    dicts.  Indexing the list hands out the stored dict itself. *)
Record t : Type := mk {
  cfg : config;
  dataset : list dict
}.

(** Lines 310-316: one annotation entry to one record. *)
Definition new_ele (W : world) (image_root : option string) (ele : pyval) : result dict :=
  img_id ← subscript ele "img_id";
  name ← str_add img_id (PStr "_origin.png");
  path ← os_path_join image_root name;
  question ← subscript ele "question";
  problem ← str_add (PStr image_marker) question;
  answer ← subscript ele "answer";
  location ← subscript ele "location";
  Ok (<["location" := location]>
      (<["answer" := PStr (py_str W answer)]>
       (<["problem" := PStr problem]>
        (<["images" := PList [PStr path]]> ∅)))).

Definition __init__ (W : world) (data_path : string) (args : config)
    (image_root : option string) : result t :=
  '(data_path, data_split) ← split_locator data_path;
  temp_annotations ← json_load W data_path;
  entries ← py_iter temp_annotations;
  dataset ← rmap_list (new_ele W image_root) entries;
  text ← load_format_prompt W (format_prompt args);
  Ok (mk (with_format_prompt args text) dataset).

Definition __len__ (self : t) : nat := length (dataset self).

(** The dict that is transformed is the one in the list: what the
    transformation does to it stays in [self.dataset], also when it
    raises. *)
Definition __getitem__ (W : world) (self : t) (index : Z) : result dict * t :=
  match py_index_pos (dataset self) index with
  | Raise e => (Raise e, self)
  | Ok i =>
      match dataset self !! i with
      | Some example =>
          let '(r, example) := transform W (cfg self) example in
          (r, mk (cfg self) (<[i := example]> (dataset self)))
      | None => (Raise IndexError, self)
      end
  end.
End RLHFSelfDataset.

(** ** The stages of [transform], named for the statements below *)

Section Stages.
Variable W : world.
Variable self : config.

(** The four assignments of lines 224-227 (419-422). *)
Definition written_fields (d : dict) (ids mask : list Z) (pos : tensor) (raw : list Z) : dict :=
  <["raw_prompt_ids" := ids_value raw]>
    (<["position_ids" := PTensor pos]>
      (<["attention_mask" := PTensor (T1 mask)]>
        (<["input_ids" := PTensor (T1 ids)]> d))).

(** Lines 224-229 (419-424) on the dict [mid] that the encoding left. *)
Definition finish (mid : dict) (ids mask : list Z) (pos : tensor) (raw : list Z)
    : result dict * dict :=
  let d := written_fields mid ids mask pos raw in
  match d !! answer_key self with
  | Some ans =>
      let out := <["ground_truth" := ans]> (delete (answer_key self) d) in (Ok out, out)
  | None => (Raise (KeyError (answer_key self)), d)
  end.

Definition pad_stage (mi : model_inputs) : result (list Z * list Z * tensor) :=
  postprocess_data (mi_input_ids mi) (mi_attention_mask mi)
    (RLHFDataset.position_ids_of W self mi) (max_prompt_length self)
    (pad_token_id (cfg_tokenizer self)) (truncation self).

Definition raw_stage (prompt : string) : result (list Z) :=
  truncate_raw_prompt_ids (max_prompt_length self) (truncation self)
    (tok_encode (cfg_tokenizer self) prompt).

(** The backend is the rotary one (line 194). *)
Definition uses_rope_index : bool :=
  match cfg_processor self with
  | Some p => String.eqb (image_processor_class p) "Qwen2VLImageProcessor"
  | None => false
  end.

(** The prompt string after the optional template (lines 134-137). *)
Definition effective_prompt (prompt_str : pyval) : pyval :=
  match truthy (format_prompt self) with
  | Some text => PStr (Template_render W text prompt_str)
  | None => prompt_str
  end.
End Stages.

(** The field names [transform] writes. *)
Definition written_keys : list string :=
  ["input_ids"; "attention_mask"; "position_ids"; "raw_prompt_ids";
   "ground_truth"; "multi_modal_data"].

(** The configured answer and image columns are not named like a field
    the transformer writes. *)
Definition reserved_keys_free (self : config) : Prop :=
  (answer_key self ∉ written_keys) ∧ (image_key self ∉ written_keys).

(** The three padded fields, which lines 224-226 (419-421) write. *)
Definition tensor_keys : list string := ["input_ids"; "attention_mask"; "position_ids"].

(** The fields written before the answer is popped, and the field the
    answer goes to. *)
Definition answer_clash_keys : list string :=
  ["input_ids"; "attention_mask"; "position_ids"; "raw_prompt_ids"; "ground_truth"].

(** The text part of a segment, if the segment is not empty. *)
Definition text_part (seg : string) : list part :=
  match seg with
  | EmptyString => []
  | _ => [TextPart seg]
  end.

(** The part list of a split prompt: the text of segment 0, then for every
    later segment an image placeholder and its text. *)
Definition interleave (seg0 : string) (segs : list string) : list part :=
  text_part seg0 ++ concat (map (λ seg, ImagePart :: text_part seg) segs).

(** [v] has [L] entries and, where [v0] is shorter than [v], it is [v0]
    with [pad] in front. *)
Definition left_padded (L : Z) (pad : Z) (v0 v : list Z) : Prop :=
  Z.of_nat (length v) = L ∧
  ((length v0 < length v)%nat → v = replicate (length v - length v0) pad ++ v0).

(** The same along the last axis, with the axes of [t0] kept. *)
Definition tensor_left_padded (L : Z) (t0 t : tensor) : Prop :=
  match t0, t with
  | T1 v0, T1 v => left_padded L 0 v0 v
  | T2 rows0, T2 rows => Forall2 (left_padded L 0) rows0 rows
  | _, _ => False
  end.

(** The last [k] characters of the marker, for [k] up to 6. *)
Definition marker_tail (k : nat) : string :=
  match k with
  | 0 => ""
  | 1 => ">"
  | 2 => "e>"
  | 3 => "ge>"
  | 4 => "age>"
  | 5 => "mage>"
  | _ => "image>"
  end%nat.

(** What the output dict [out] keeps of the record [example]:
    the fields that are neither consumed nor written are unchanged; the
    answer is under ["ground_truth"] and no longer under its own key; with
    an image field, the image key is gone and ["multi_modal_data"] holds
    the value the image field had; without one, nothing is added there. *)
Definition output_frame (self : config) (example out : dict) : Prop :=
  (∀ k, k ≠ answer_key self → k ≠ image_key self → k ∉ written_keys →
        out !! k = example !! k) ∧
  (∃ ans, example !! answer_key self = Some ans ∧
          out !! "ground_truth" = Some ans ∧
          out !! answer_key self = None) ∧
  (∀ raw, example !! image_key self = Some raw →
          out !! image_key self = None ∧
          out !! "multi_modal_data" = Some (PDict [("image", raw)])) ∧
  (example !! image_key self = None →
     out !! "multi_modal_data" = example !! "multi_modal_data").

(** What the output dict [out] keeps of the record [example], with what
    each part needs of the configured keys.  The fields that are neither
    consumed nor written are unchanged, whatever the keys are.  The
    answer is under ["ground_truth"] and no longer under its own key when
    the answer key is not the name of a field written before the answer
    is popped, nor ["ground_truth"], nor (for a record with images)
    ["multi_modal_data"].  For a record with an image field, the image
    key is gone and ["multi_modal_data"] holds the value the image field
    had when the image key is not the name of a written field and the
    answer is not taken from ["multi_modal_data"]. *)
Definition guarded_frame (self : config) (example out : dict) : Prop :=
  (∀ k, k ≠ answer_key self → k ≠ image_key self → k ∉ written_keys →
        out !! k = example !! k) ∧
  (answer_key self ∉ answer_clash_keys →
   example !! image_key self = None ∨ answer_key self ≠ "multi_modal_data" →
   ∃ ans, example !! answer_key self = Some ans ∧
          out !! "ground_truth" = Some ans ∧
          out !! answer_key self = None) ∧
  (∀ raw, example !! image_key self = Some raw →
          image_key self ∉ written_keys →
          answer_key self ≠ "multi_modal_data" →
          out !! image_key self = None ∧
          out !! "multi_modal_data" = Some (PDict [("image", raw)])) ∧
  (example !! image_key self = None →
   answer_key self ≠ "multi_modal_data" →
   out !! "multi_modal_data" = example !! "multi_modal_data").

(** The padded fields of an output dict [out], against the encoder output
    [mi] they were made from. *)
Definition padded_fields (W : world) (self : config) (mi : model_inputs) (out : dict) : Prop :=
  ∃ ids mask pos,
    out !! "input_ids" = Some (PTensor (T1 ids)) ∧
    out !! "attention_mask" = Some (PTensor (T1 mask)) ∧
    out !! "position_ids" = Some (PTensor pos) ∧
    left_padded (max_prompt_length self) (pad_token_id (cfg_tokenizer self))
      (mi_input_ids mi) ids ∧
    left_padded (max_prompt_length self) 0 (mi_attention_mask mi) mask ∧
    tensor_left_padded (max_prompt_length self) (RLHFDataset.position_ids_of W self mi) pos.

(** [example] is transformed into [out]: the messages, the encoder output
    and the padded fields. *)
Definition padded_example (W : world) (self : config) (example out : dict) : Prop :=
  ∃ msgs prompt mi mid,
    RLHFDataset._build_messages W self example = Ok msgs ∧
    RLHFDataset.encode_example W self msgs example = (Ok (prompt, mi), mid) ∧
    padded_fields W self mi out.

(** The prompt string of a text-only record whose prompt field is [p]:
    one user message, rendered by the tokenizer's chat template. *)
Definition text_prompt (W : world) (self : config) (p : pyval) : string :=
  tok_apply_chat_template (cfg_tokenizer self)
    [mk_message "user" (Plain (effective_prompt W self p))].

(** The three policies of the configuration surface. *)
Definition is_policy (truncation : string) : Prop :=
  truncation = "left" ∨ truncation = "right" ∨ truncation = "error".

(** [raw] is what lines 216-222 leave of the encoding [raw0]. *)
Definition raw_truncated (L : Z) (trunc : string) (raw0 raw : list Z) : Prop :=
  (Z.of_nat (length raw0) ≤ L → raw = raw0) ∧
  (L < Z.of_nat (length raw0) → trunc = "left" →
     raw = drop (length raw0 - Z.to_nat L) raw0 ∧ Z.of_nat (length raw) = L) ∧
  (L < Z.of_nat (length raw0) → trunc = "right" →
     raw = take (Z.to_nat L) raw0 ∧ Z.of_nat (length raw) = L) ∧
  (L < Z.of_nat (length raw0) → trunc ≠ "error") ∧
  (is_policy trunc → Z.of_nat (length raw) ≤ L).

(** [out] holds under ["raw_prompt_ids"] the truncated encoding of the
    prompt string that was rendered for [example]. *)
Definition raw_prompt_ids_of (W : world) (self : config) (example out : dict) : Prop :=
  ∃ msgs prompt mi mid raw,
    RLHFDataset._build_messages W self example = Ok msgs ∧
    RLHFDataset.encode_example W self msgs example = (Ok (prompt, mi), mid) ∧
    (answer_key self ≠ "raw_prompt_ids" → out !! "raw_prompt_ids" = Some (ids_value raw)) ∧
    (∀ v, out !! "raw_prompt_ids" = Some v → v = ids_value raw) ∧
    raw_truncated (max_prompt_length self) (truncation self)
      (tok_encode (cfg_tokenizer self) prompt) raw.

(** Reading a result without naming the dict. *)
Definition result_lookup (r : result dict) (key : string) : option pyval :=
  match r with Ok d => d !! key | Raise _ => None end.

Definition error_of {A} (r : result A) : option exn :=
  match r with Ok _ => None | Raise e => Some e end.

(** The call returned a dict, and the dict has no field [key]. *)
Definition result_lacks (r : result dict) (key : string) : bool :=
  match r with
  | Ok d => match d !! key with None => true | Some _ => false end
  | Raise _ => false
  end.

(** [_filter_overlong_prompts] as the predicate [Dataset.filter] keeps by. *)
Definition within_budget (W : world) (self : config) (example : dict) : bool :=
  match RLHFDataset._filter_overlong_prompts W self example with
  | Ok keep => keep
  | Raise _ => false
  end.

(** The record that lines 311-316 build from the annotation entry [ele]. *)
Definition entry_record (W : world) (image_root : option string) (ele : pyval)
    (record : dict) : Prop :=
  ∃ img_id question answer location path,
    subscript ele "img_id" = Ok (PStr img_id) ∧
    subscript ele "question" = Ok (PStr question) ∧
    subscript ele "answer" = Ok answer ∧
    subscript ele "location" = Ok location ∧
    os_path_join image_root (img_id +:+ "_origin.png") = Ok path ∧
    record !! "images" = Some (PList [PStr path]) ∧
    record !! "problem" = Some (PStr (image_marker +:+ question)) ∧
    record !! "answer" = Some (PStr (py_str W answer)) ∧
    record !! "location" = Some location ∧
    (∀ k, k ≠ "images" → k ≠ "problem" → k ≠ "answer" → k ≠ "location" →
          record !! k = None).

(** An annotation entry that [new_ele] accepts. *)
Definition well_formed_entry (ele : pyval) : Prop :=
  ∃ img_id question answer location,
    subscript ele "img_id" = Ok (PStr img_id) ∧
    subscript ele "question" = Ok (PStr question) ∧
    subscript ele "answer" = Ok answer ∧
    subscript ele "location" = Ok location.

(** A field of the record stored at position [i] of [self.dataset]. *)
Definition stored_field (self : RLHFSelfDataset.t) (i : nat) (key : string) : option pyval :=
  RLHFSelfDataset.dataset self !! i ≫= λ record : dict, record !! key.

(** ** A small instance, to run the definitions on *)

Module Demo.
(** One character, one token; the chat template writes the text parts
    and a ["#"] for every image placeholder. *)
Definition codes (s : string) : list Z :=
  map (λ c, Z.of_nat (nat_of_ascii c)) (list_ascii_of_string s).

Definition render_part (p : part) (rest : string) : string :=
  match p with
  | ImagePart => "#" +:+ rest
  | TextPart t => t +:+ rest
  end.

Definition render (ms : list message) : string :=
  match ms with
  | [m] =>
      match msg_content m with
      | Plain (PStr s) => s
      | Plain _ => ""
      | Parts ps => fold_right render_part "" ps
      end
  | _ => ""
  end.

Definition call (s : string) : model_inputs :=
  mk_model_inputs (codes s) (replicate (length (codes s)) 1) None.

Definition tok : tokenizer := mk_tokenizer render call codes 0.

Definition proc : processor :=
  mk_processor render (λ _ s, call s) "CLIPImageProcessor".

Definition rope_proc : processor :=
  mk_processor render (λ _ s, call s) "Qwen2VLImageProcessor".

(** Two characters, one token: a tokenizer and a processor whose token
    counts differ from the character counts. *)
Fixpoint pair_codes (s : string) : list Z :=
  match s with
  | String a (String b s') =>
      (Z.of_nat (nat_of_ascii a) * 256 + Z.of_nat (nat_of_ascii b)) :: pair_codes s'
  | String a EmptyString => [Z.of_nat (nat_of_ascii a)]
  | EmptyString => []
  end.

Definition pair_call (s : string) : model_inputs :=
  mk_model_inputs (pair_codes s) (replicate (length (pair_codes s)) 1) None.

Definition pair_tok : tokenizer := mk_tokenizer render pair_call pair_codes 0.

Definition pair_proc : processor :=
  mk_processor render (λ _ s, pair_call s) "CLIPImageProcessor".

Definition annotations : pyval :=
  PList [PDict [("img_id", PStr "02438"); ("question", PStr "q?");
                ("answer", PInt 0);
                ("location", PList [PInt 56; PInt 511; PInt 64; PInt 525])]].

(* the parquet file: a prompt of 4 tokens and one of 14 *)
Definition text_record : dict :=
  <["prompt" := PStr "2+2="]> (<["answer" := PStr "4"]> ∅).
Definition long_record : dict :=
  <["prompt" := PStr "what is 12*12?"]> (<["answer" := PStr "144"]> ∅).
Definition loaded_records : list dict := [text_record; long_record].

(** Every path opens as a 4x4 RGBA image; resizing and conversion set
    the size and the mode; the rotary index is three copies of the
    default positions. *)
Definition W : world :=
  {| Image_open := λ _, Ok (mk_image 4 4 "RGBA" 0);
     Image_open_bytes := λ _, Ok (mk_image 4 4 "RGB" 1);
     Image_resize := λ im size, Ok (mk_image size.1 size.2 (mode im) (pixels im));
     Image_convert := λ im m, mk_image (width im) (height im) m (pixels im);
     Template_render := λ text _, text;
     get_rope_index := λ _ _ _ mask,
       T2 [default_position_ids mask; default_position_ids mask; default_position_ids mask];
     py_repr := λ _, "";
     isdir := λ _, false;
     isfile := λ _, true;
     load_parquet_dir := λ _, Ok [];
     load_parquet_file := λ _, Ok loaded_records;
     load_remote := λ _ _, Ok [];
     json_load := λ _, Ok annotations;
     read_text := λ _, Ok "" |}.

Definition config_with (p : option processor) (pk : string) (L : Z)
    (trunc : string) (bounds : option Z) : config :=
  {| cfg_tokenizer := tok;
     cfg_processor := p;
     prompt_key := pk;
     answer_key := "answer";
     image_key := "images";
     max_prompt_length := L;
     truncation := trunc;
     format_prompt := None;
     max_pixels := bounds;
     min_pixels := bounds;
     filter_overlong_prompts := true |}.

(* a budget of 8 with the two-character tokens, with and without the
   processor *)
Definition pair_cfg (p : option processor) : config :=
  {| cfg_tokenizer := pair_tok;
     cfg_processor := p;
     prompt_key := "prompt";
     answer_key := "answer";
     image_key := "images";
     max_prompt_length := 8;
     truncation := "error";
     format_prompt := None;
     max_pixels := None;
     min_pixels := None;
     filter_overlong_prompts := true |}.

(* scenario A of the spec: "2+2=" under max_prompt_length 8 *)
Definition text_cfg : config := config_with None "prompt" 8 "error" None.

(* an image record, as the JSON loader builds it *)
Definition image_cfg : config := config_with (Some proc) "problem" 8 "left" (Some 16).
Definition image_record : dict :=
  <["location" := PList [PInt 56; PInt 511; PInt 64; PInt 525]]>
    (<["answer" := PStr "0"]>
      (<["problem" := PStr "<image>q?"]>
        (<["images" := PList [PStr "/data/02438_origin.png"]]> ∅))).
Definition text_dataset : RLHFDataset.t := RLHFDataset.mk text_cfg [text_record].
Definition image_dataset : RLHFDataset.t := RLHFDataset.mk image_cfg [image_record].
Definition self_dataset : RLHFSelfDataset.t := RLHFSelfDataset.mk image_cfg [image_record].

(* a budget of two tokens, and one of none, for the four tokens of "2+2=" *)
Definition short_dataset : RLHFDataset.t :=
  RLHFDataset.mk (config_with None "prompt" 2 "left" None) [text_record].
Definition zero_dataset : RLHFDataset.t :=
  RLHFDataset.mk (config_with None "prompt" 0 "left" None) [text_record].
(* the budget of none under the two other policies, and for the image
   record in the list of the second dataset *)
Definition zero_right_dataset : RLHFDataset.t :=
  RLHFDataset.mk (config_with None "prompt" 0 "right" None) [text_record].
Definition zero_error_dataset : RLHFDataset.t :=
  RLHFDataset.mk (config_with None "prompt" 0 "error" None) [text_record].
Definition zero_self_dataset : RLHFSelfDataset.t :=
  RLHFSelfDataset.mk (config_with (Some proc) "problem" 0 "left" (Some 16)) [image_record].

(* the image record under the rotary backend *)
Definition rotary_dataset : RLHFDataset.t :=
  RLHFDataset.mk (config_with (Some rope_proc) "problem" 8 "left" (Some 16)) [image_record].

(* the text record with its answer in the column [ak], and the
   configuration of scenario A reading the answer from there *)
Definition keyed_record (ak : string) : dict :=
  <["prompt" := PStr "2+2="]> (<[ak := PStr "4"]> ∅).
Definition keyed_cfg (ak : string) : config :=
  {| cfg_tokenizer := tok;
     cfg_processor := None;
     prompt_key := "prompt";
     answer_key := ak;
     image_key := "images";
     max_prompt_length := 8;
     truncation := "error";
     format_prompt := None;
     max_pixels := None;
     min_pixels := None;
     filter_overlong_prompts := true |}.
Definition keyed_dataset (ak : string) : RLHFDataset.t :=
  RLHFDataset.mk (keyed_cfg ak) [keyed_record ak].

End Demo.

(** ** Definitions for the further properties *)

(** No text part of [l] is directly followed by another text part. *)
Fixpoint no_adjacent_text (l : list part) : Prop :=
  match l with
  | [] => True
  | TextPart _ :: rest =>
      match rest with
      | TextPart _ :: _ => False
      | _ => no_adjacent_text rest
      end
  | ImagePart :: rest => no_adjacent_text rest
  end.

(** A decoded JSON value that is not an array and has something to
    iterate over or cannot be iterated: [null], a boolean, a number, a
    non-empty string, an object with at least one key. *)
Definition non_array (v : pyval) : bool :=
  match v with
  | PNone | PBool _ | PInt _ | PFloat _ => true
  | PStr (String _ _) => true
  | PDict (_ :: _) => true
  | _ => false
  end.

(** ** [collate_fn]

    Lines 36-52.  A feature is a dict in the order of its items; the two
    [defaultdict(list)] accumulators and the result are kept in insertion
    order as well.  [np.array(values, dtype=object)] belongs to NumPy and
    is a parameter. *)

(** [d[key]] and [d[key] = value] on a dict kept as the list of its
    items. *)
Fixpoint items_get {V} (key : string) (d : list (string * V)) : option V :=
  match d with
  | [] => None
  | (k, v) :: d' => if String.eqb k key then Some v else items_get key d'
  end.

Fixpoint items_set {V} (key : string) (value : V) (d : list (string * V))
    : list (string * V) :=
  match d with
  | [] => [(key, value)]
  | (k, v) :: d' =>
      if String.eqb k key then (k, value) :: d' else (k, v) :: items_set key value d'
  end.

(** [d[key].append(value)] on a [defaultdict(list)] *)
Fixpoint append_value {V} (key : string) (value : V) (d : list (string * list V))
    : list (string * list V) :=
  match d with
  | [] => [(key, [value])]
  | (k, vs) :: d' =>
      if String.eqb k key then (k, vs ++ [value]) :: d'
      else (k, vs) :: append_value key value d'
  end.

(** [{**a, **b}] *)
Definition items_merge {V} (a b : list (string * V)) : list (string * V) :=
  fold_left (λ d item, items_set item.1 item.2 d) b a.

(** Lines 39-44: [tensors] and [non_tensors] after one item, after one
    feature, and after all of them. *)
Definition route (acc : list (string * list tensor) * list (string * list pyval))
    (item : string * pyval) : list (string * list tensor) * list (string * list pyval) :=
  match item.2 with
  | PTensor t => (append_value item.1 t acc.1, acc.2)
  | value => (acc.1, append_value item.1 value acc.2)
  end.

Definition route_feature (acc : list (string * list tensor) * list (string * list pyval))
    (feature : list (string * pyval))
    : list (string * list tensor) * list (string * list pyval) :=
  fold_left route feature acc.

Definition collect (features : list (list (string * pyval)))
    : list (string * list tensor) * list (string * list pyval) :=
  fold_left route_feature features ([], []).

(** The sizes of the axes of a tensor; the rows of a 2-axis tensor have
    one length, that of the first row. *)
Definition shape (t : tensor) : list nat :=
  match t with
  | T1 v => [length v]
  | T2 rows => [length rows; length (default [] (head rows))]
  end.

Definition same_shape (l : list tensor) : bool :=
  match l with
  | [] => false
  | t :: l' => forallb (λ t', bool_decide (shape t' = shape t)) l'
  end.

(** [torch.stack(l, dim=0)]: the tensors of [l] become the slices of the
    result along its first axis; [l] must not be empty, and its tensors
    must have one shape. *)
Definition torch_stack (l : list tensor) : result (list tensor) :=
  if same_shape l then Ok l else Raise RuntimeError.

(** A value of the collated batch. *)
Inductive batch_value (ndarray : Type) : Type :=
  | Stacked (slices : list tensor)
  | Objects (a : ndarray).
Arguments Stacked {ndarray} slices.
Arguments Objects {ndarray} a.

Section Collate.
Context {ndarray : Type}.
(* np.array(values, dtype=object) *)
Variable np_array : list pyval → result ndarray.

(** Lines 46-47 and 49-50 *)
Definition stack_all (tensors : list (string * list tensor))
    : result (list (string * list tensor)) :=
  rmap_list (λ item, stacked ← torch_stack item.2; Ok (item.1, stacked)) tensors.

Definition array_all (non_tensors : list (string * list pyval))
    : result (list (string * ndarray)) :=
  rmap_list (λ item, a ← np_array item.2; Ok (item.1, a)) non_tensors.

Definition collate_fn (features : list (list (string * pyval)))
    : result (list (string * batch_value ndarray)) :=
  let '(tensors, non_tensors) := collect features in
  tensors ← stack_all tensors;
  non_tensors ← array_all non_tensors;
  Ok (items_merge (prod_map id Stacked <$> tensors) (prod_map id Objects <$> non_tensors)).
End Collate.

(** The tensors, and the other values, that the features hold under
    [key], in the order of the features. *)
Definition tensor_of (v : pyval) : option tensor :=
  match v with PTensor t => Some t | _ => None end.

Definition object_of (v : pyval) : option pyval :=
  match v with PTensor _ => None | _ => Some v end.

Definition column_tensors (key : string) (features : list (list (string * pyval)))
    : list tensor :=
  omap (λ feature, assoc_get key feature ≫= tensor_of) features.

Definition column_objects (key : string) (features : list (list (string * pyval)))
    : list pyval :=
  omap (λ feature, assoc_get key feature ≫= object_of) features.

(** An accumulator entry [o] after the values [l] were appended to it. *)
Definition extended {V} (o : option (list V)) (l : list V) : option (list V) :=
  match l with [] => o | _ => Some (default [] o ++ l) end.

(** The keys of every feature are distinct, as those of a dict are. *)
Definition dict_items (features : list (list (string * pyval))) : Prop :=
  Forall (λ feature, NoDup feature.*1) features.

(** ** Further instances *)

Module DemoX.
(* the annotation file holds the value [v] *)
Definition W_json (v : pyval) : world :=
  {| Image_open := Image_open Demo.W;
     Image_open_bytes := Image_open_bytes Demo.W;
     Image_resize := Image_resize Demo.W;
     Image_convert := Image_convert Demo.W;
     Template_render := Template_render Demo.W;
     get_rope_index := get_rope_index Demo.W;
     py_repr := py_repr Demo.W;
     isdir := isdir Demo.W;
     isfile := isfile Demo.W;
     load_parquet_dir := load_parquet_dir Demo.W;
     load_parquet_file := load_parquet_file Demo.W;
     load_remote := load_remote Demo.W;
     json_load := λ _, Ok v;
     read_text := read_text Demo.W |}.
(* an entry without its [img_id] *)
Definition no_id_entry : pyval :=
  PDict [("question", PStr "q?"); ("answer", PInt 0); ("location", PList [])].
End DemoX.

(** * Properties *)

(** ** Splitting on the image marker *)

Lemma prefix_nil (s : string) : String.prefix "" s = true.
Proof. by destruct s. Qed.

Lemma prefix_cons_inv (a : ascii) (t : string) (c : ascii) (s : string) :
  String.prefix (String a t) (String c s) = true → a = c ∧ String.prefix t s = true.
Proof.
  simpl. destruct (ascii_dec a c) as [->|]; [tauto | discriminate].
Qed.

Lemma prefix_head_ne (a : ascii) (t : string) (c : ascii) (s : string) :
  a ≠ c → String.prefix (String a t) (String c s) = false.
Proof. intros Hne. simpl. destruct (ascii_dec a c); [contradiction | reflexivity]. Qed.

Lemma split_from_marker_count (s : string) :
  ∀ k, (k ≤ 6)%nat → String.prefix (marker_tail k) s = true →
       length (split_from image_marker k s).2 = occurrences image_marker s.
Proof.
  induction s as [|c s IH]; intros k Hk Hpre.
  - reflexivity.
  - destruct k as [|k].
    + cbn [split_from occurrences].
      destruct (String.prefix image_marker (String c s)) eqn:Hm.
      * apply prefix_cons_inv in Hm as [<- Hm].
        specialize (IH 6%nat ltac:(lia) Hm).
        change (Nat.pred (String.length image_marker)) with 6%nat.
        destruct (split_from image_marker 6 s) as [seg segs]. simpl in *. lia.
      * specialize (IH 0%nat ltac:(lia) (prefix_nil s)).
        destruct (split_from image_marker 0 s) as [seg segs]. simpl in *. lia.
    + assert (String.prefix (marker_tail k) s = true ∧
              String.prefix image_marker (String c s) = false) as [Hk' Hno].
      { do 6 (destruct k as [|k]; [apply prefix_cons_inv in Hpre as [<- Hpre]; split; [exact Hpre|apply prefix_head_ne; discriminate]|]).
        lia. }
      cbn [split_from occurrences]. rewrite Hno.
      apply (IH k); [lia | exact Hk'].
Qed.


Lemma py_split_marker_count (s : string) :
  length (py_split image_marker s) = S (occurrences image_marker s).
Proof.
  unfold py_split.
  pose proof (split_from_marker_count s 0%nat ltac:(lia) (prefix_nil s)) as H.
  destruct (split_from image_marker 0 s) as [seg segs]. simpl in *. by rewrite H.
Qed.


(** ** The content list of [_build_messages] *)

Lemma content_step_later (acc : list part) (j : nat) (seg : string) :
  content_step acc (S j, seg) = acc ++ ImagePart :: text_part seg.
Proof.
  unfold content_step. cbn [Nat.eqb negb].
  destruct seg; cbn [text_part]; by rewrite <- ?app_assoc.
Qed.

Lemma fold_content_later (segs : list string) :
  ∀ (f : nat → string → nat * string) (acc : list part),
    (∀ i x, ∃ j, f i x = (S j, x)) →
    fold_left content_step (imap f segs) acc =
    acc ++ concat (map (λ seg, ImagePart :: text_part seg) segs).
Proof.
  induction segs as [|seg segs IH]; intros f acc Hf.
  - cbn. by rewrite app_nil_r.
  - rewrite imap_cons. cbn [fold_left map concat].
    destruct (Hf 0%nat seg) as [j ->]. rewrite content_step_later.
    rewrite IH; [by rewrite <- app_assoc|].
    intros i x. apply Hf.
Qed.

Lemma fold_content_interleave (seg0 : string) (segs : list string) :
  fold_left content_step (enumerate (seg0 :: segs)) [] = interleave seg0 segs.
Proof.
  unfold enumerate, interleave. rewrite imap_cons. cbn [fold_left].
  rewrite fold_content_later by (intros i x; by exists i).
  reflexivity.
Qed.






(** ** The transformer, stage by stage *)

Section Transform.
Variable W : world.
Variable self : config.

Lemma encode_example_inv msgs d r d' :
  RLHFDataset.encode_example W self msgs d = (Ok r, d') →
  (d !! image_key self = None ∧ d' = d ∧
     r = (tok_apply_chat_template (cfg_tokenizer self) msgs,
          tok_call (cfg_tokenizer self) (tok_apply_chat_template (cfg_tokenizer self) msgs)))
  ∨ (∃ raw p items images,
       d !! image_key self = Some raw ∧ cfg_processor self = Some p ∧
       py_iter raw = Ok items ∧
       rmap_list (λ image, process_image W image (min_pixels self) (max_pixels self)) items
         = Ok images ∧
       r = (proc_apply_chat_template p msgs, proc_call p images (proc_apply_chat_template p msgs)) ∧
       d' = <["multi_modal_data" := PDict [("image", raw)]]> (delete (image_key self) d)).
Proof.
  unfold RLHFDataset.encode_example, mbind, action_bind, dict_contains, mret, action_ret.
  destruct (d !! image_key self) as [raw|] eqn:Himg.
  - rewrite bool_decide_eq_true_2 by eauto.
    unfold lift, RLHFDataset.the_processor.
    destruct (cfg_processor self) as [p|]; [|discriminate].
    unfold dict_pop. rewrite Himg.
    destruct (py_iter raw) as [items|] eqn:Hit; [|discriminate].
    destruct (rmap_list _ items) as [images|] eqn:Hims; [|discriminate].
    unfold dict_set. intros [= <- <-]. right. by exists raw, p, items, images.
  - rewrite bool_decide_eq_false_2 by (intros [? ?]; discriminate).
    intros [= <- <-]. by left.
Qed.

Lemma encode_example_text msgs d :
  d !! image_key self = None →
  RLHFDataset.encode_example W self msgs d =
    (Ok (tok_apply_chat_template (cfg_tokenizer self) msgs,
         tok_call (cfg_tokenizer self) (tok_apply_chat_template (cfg_tokenizer self) msgs)), d).
Proof.
  intros Hno.
  unfold RLHFDataset.encode_example, mbind, action_bind, dict_contains, mret, action_ret.
  rewrite bool_decide_eq_false_2; [done|]. rewrite Hno. by intros [? ?].
Qed.

Lemma transform_unfold example :
  RLHFDataset.transform W self example =
  match RLHFDataset._build_messages W self example with
  | Raise e => (Raise e, example)
  | Ok msgs =>
      match RLHFDataset.encode_example W self msgs example with
      | (Raise e, d) => (Raise e, d)
      | (Ok (prompt, mi), mid) =>
          match pad_stage W self mi with
          | Raise e => (Raise e, mid)
          | Ok (ids, mask, pos) =>
              match raw_stage self prompt with
              | Raise e => (Raise e, mid)
              | Ok raw => finish self mid ids mask pos raw
              end
          end
      end
  end.
Proof.
  unfold RLHFDataset.transform, mbind, action_bind, this_dict, lift.
  destruct (RLHFDataset._build_messages W self example) as [msgs|e]; [|done].
  destruct (RLHFDataset.encode_example W self msgs example) as [[[prompt mi]|e] mid]; [|done].
  unfold pad_stage, raw_stage.
  destruct (postprocess_data _ _ _ _ _ _) as [[[ids mask] pos]|e]; [|done].
  destruct (truncate_raw_prompt_ids _ _ _) as [raw|e]; [|done].
  unfold finish, written_fields, dict_set, dict_pop.
  destruct (_ !! answer_key self); done.
Qed.

Lemma transform_ok_inv example out d' :
  RLHFDataset.transform W self example = (Ok out, d') →
  ∃ msgs prompt mi mid ids mask pos raw ans,
    RLHFDataset._build_messages W self example = Ok msgs ∧
    RLHFDataset.encode_example W self msgs example = (Ok (prompt, mi), mid) ∧
    pad_stage W self mi = Ok (ids, mask, pos) ∧
    raw_stage self prompt = Ok raw ∧
    written_fields mid ids mask pos raw !! answer_key self = Some ans ∧
    out = <["ground_truth" := ans]>
            (delete (answer_key self) (written_fields mid ids mask pos raw)) ∧
    d' = out.
Proof.
  rewrite transform_unfold.
  destruct (RLHFDataset._build_messages W self example) as [msgs|e]; [|discriminate].
  destruct (RLHFDataset.encode_example W self msgs example) as [[[prompt mi]|e] mid] eqn:He;
    [|discriminate].
  destruct (pad_stage W self mi) as [[[ids mask] pos]|e] eqn:Hp; [|discriminate].
  destruct (raw_stage self prompt) as [raw|e] eqn:Hr; [|discriminate].
  unfold finish.
  destruct (written_fields mid ids mask pos raw !! answer_key self) as [ans|] eqn:Ha;
    [|discriminate].
  intros [= <- <-]. by exists msgs, prompt, mi, mid, ids, mask, pos, raw, ans.
Qed.

Lemma transform_ok_fst example out :
  (RLHFDataset.transform W self example).1 = Ok out →
  RLHFDataset.transform W self example = (Ok out, out).
Proof.
  destruct (RLHFDataset.transform W self example) as [r d'] eqn:Ht. cbn. intros ->.
  apply transform_ok_inv in Ht as (?&?&?&?&?&?&?&?&?&_&_&_&_&_&_&->). done.
Qed.
End Transform.

Lemma getitem_inv (W : world) (self : RLHFDataset.t) (index : Z) (out : dict) :
  RLHFDataset.__getitem__ W self index = Ok out →
  ∃ i example,
    py_index_pos (RLHFDataset.dataset self) index = Ok i ∧
    RLHFDataset.dataset self !! i = Some example ∧
    RLHFDataset.transform W (RLHFDataset.cfg self) example = (Ok out, out).
Proof.
  unfold RLHFDataset.__getitem__. cbn [mbind result_bind rbind].
  destruct (py_index_pos _ index) as [i|]; [|discriminate]. cbn.
  destruct (RLHFDataset.dataset self !! i) as [example|] eqn:Hi; [|discriminate].
  intros H%transform_ok_fst. by exists i, example.
Qed.

Lemma self_getitem_inv (W : world) (self self' : RLHFSelfDataset.t) (index : Z) (out : dict) :
  RLHFSelfDataset.__getitem__ W self index = (Ok out, self') →
  ∃ i example,
    py_index_pos (RLHFSelfDataset.dataset self) index = Ok i ∧
    RLHFSelfDataset.dataset self !! i = Some example ∧
    RLHFDataset.transform W (RLHFSelfDataset.cfg self) example = (Ok out, out) ∧
    self' = RLHFSelfDataset.mk (RLHFSelfDataset.cfg self)
              (<[i := out]> (RLHFSelfDataset.dataset self)).
Proof.
  unfold RLHFSelfDataset.__getitem__, RLHFSelfDataset.transform.
  destruct (py_index_pos _ index) as [i|]; [|discriminate].
  destruct (RLHFSelfDataset.dataset self !! i) as [example|] eqn:Hi; [|discriminate].
  destruct (RLHFDataset.transform W _ example) as [r d'] eqn:Ht.
  intros [= -> <-].
  pose proof (transform_ok_fst W (RLHFSelfDataset.cfg self) example out) as H.
  rewrite Ht in H.
  specialize (H eq_refl). injection H as ->.
  by exists i, example.
Qed.

(** ** The frame of the transformation *)

Lemma reserved_answer_key (self : config) :
  reserved_keys_free self →
  answer_key self ≠ "input_ids" ∧ answer_key self ≠ "attention_mask" ∧
  answer_key self ≠ "position_ids" ∧ answer_key self ≠ "raw_prompt_ids" ∧
  answer_key self ≠ "ground_truth" ∧ answer_key self ≠ "multi_modal_data".
Proof.
  intros [H _]. unfold written_keys in H.
  rewrite !not_elem_of_cons in H. tauto.
Qed.

Lemma reserved_image_key (self : config) :
  reserved_keys_free self →
  image_key self ≠ "input_ids" ∧ image_key self ≠ "attention_mask" ∧
  image_key self ≠ "position_ids" ∧ image_key self ≠ "raw_prompt_ids" ∧
  image_key self ≠ "ground_truth" ∧ image_key self ≠ "multi_modal_data".
Proof.
  intros [_ H]. unfold written_keys in H.
  rewrite !not_elem_of_cons in H. tauto.
Qed.

Lemma written_fields_other (d : dict) ids mask pos raw (k : string) :
  k ≠ "input_ids" → k ≠ "attention_mask" → k ≠ "position_ids" → k ≠ "raw_prompt_ids" →
  written_fields d ids mask pos raw !! k = d !! k.
Proof. intros. unfold written_fields. by rewrite !lookup_insert_ne. Qed.

Lemma transform_frame (W : world) (self : config) (example out : dict) :
  reserved_keys_free self →
  RLHFDataset.transform W self example = (Ok out, out) →
  output_frame self example out.
Proof.
  intros Hfree Ht.
  destruct (reserved_answer_key self Hfree) as (Ha1 & Ha2 & Ha3 & Ha4 & Ha5 & Ha6).
  destruct (reserved_image_key self Hfree) as (Hi1 & Hi2 & Hi3 & Hi4 & Hi5 & Hi6).
  apply transform_ok_inv in Ht
    as (msgs & prompt & mi & mid & ids & mask & pos & raw & ans &
        _ & Henc & _ & _ & Hans & Hout & _).
  rewrite written_fields_other in Hans by done.
  assert (∀ k, out !! k =
               if decide (k = "ground_truth") then Some ans
               else if decide (k = answer_key self) then None
               else written_fields mid ids mask pos raw !! k) as Hlook.
  { intros k. rewrite Hout. destruct (decide (k = "ground_truth")) as [->|].
    - by rewrite lookup_insert_eq.
    - rewrite lookup_insert_ne by done. destruct (decide (k = answer_key self)) as [->|].
      + by rewrite lookup_delete_eq.
      + by rewrite lookup_delete_ne. }
  apply encode_example_inv in Henc
    as [(Hno & -> & _) | (rawimg & p & items & images & Himg & _ & _ & _ & _ & ->)].
  - split; [|split; [|split]].
    + intros k Hk1 Hk2 Hk3. unfold written_keys in Hk3. rewrite !not_elem_of_cons in Hk3.
      rewrite Hlook. repeat case_decide; try tauto.
      apply written_fields_other; tauto.
    + exists ans. rewrite !Hlook. repeat case_decide; try done.
    + intros raw' Hraw'. congruence.
    + intros _. rewrite Hlook. repeat case_decide; try done.
      by apply written_fields_other.
  - assert (image_key self ≠ answer_key self) as Hne.
    { intros Heq. rewrite <- Heq in Hans.
      rewrite lookup_insert_ne, lookup_delete_eq in Hans by done. discriminate. }
    rewrite lookup_insert_ne, lookup_delete_ne in Hans by done.
    split; [|split; [|split]].
    + intros k Hk1 Hk2 Hk3. unfold written_keys in Hk3. rewrite !not_elem_of_cons in Hk3.
      rewrite Hlook. repeat case_decide; try tauto.
      rewrite written_fields_other by tauto.
      rewrite lookup_insert_ne, lookup_delete_ne by (intros ?; subst; tauto). done.
    + exists ans. rewrite !Hlook. repeat case_decide; try done.
    + intros raw' Hraw'. assert (raw' = rawimg) as -> by congruence. split.
      * rewrite Hlook. repeat case_decide; try done.
        rewrite written_fields_other by done.
        by rewrite lookup_insert_ne, lookup_delete_eq.
      * rewrite Hlook. repeat case_decide; try done.
        rewrite written_fields_other by done.
        by rewrite lookup_insert_eq.
    + intros Hno. congruence.
Qed.

Lemma transform_lookup (W : world) (self : config) (example out : dict) :
  RLHFDataset.transform W self example = (Ok out, out) →
  ∃ mid ids mask pos raw ans,
    (example !! image_key self = None ∧ mid = example ∨
     ∃ rawimg, example !! image_key self = Some rawimg ∧
       mid = <["multi_modal_data" := PDict [("image", rawimg)]]>
               (delete (image_key self) example)) ∧
    written_fields mid ids mask pos raw !! answer_key self = Some ans ∧
    (∀ k, out !! k =
          if decide (k = "ground_truth") then Some ans
          else if decide (k = answer_key self) then None
          else written_fields mid ids mask pos raw !! k).
Proof.
  intros Ht.
  apply transform_ok_inv in Ht
    as (msgs & prompt & mi & mid & ids & mask & pos & raw & ans &
        _ & Henc & _ & _ & Hans & Hout & _).
  exists mid, ids, mask, pos, raw, ans. split; [|split; [done|]].
  - apply encode_example_inv in Henc
      as [(Hno & -> & _) | (rawimg & p & items & images & Himg & _ & _ & _ & _ & ->)].
    + by left.
    + right. by exists rawimg.
  - intros k. rewrite Hout. destruct (decide (k = "ground_truth")) as [->|].
    + by rewrite lookup_insert_eq.
    + rewrite lookup_insert_ne by done. destruct (decide (k = answer_key self)) as [->|].
      * by rewrite lookup_delete_eq.
      * by rewrite lookup_delete_ne.
Qed.

Lemma transform_guarded_frame (W : world) (self : config) (example out : dict) :
  RLHFDataset.transform W self example = (Ok out, out) →
  guarded_frame self example out.
Proof.
  intros (mid & ids & mask & pos & raw & ans & Hmid & Hans & Hlook)%transform_lookup.
  split; [|split; [|split]].
  - intros k Hk1 Hk2 Hk3. unfold written_keys in Hk3. rewrite !not_elem_of_cons in Hk3.
    rewrite Hlook. repeat case_decide; try tauto.
    rewrite written_fields_other by tauto.
    destruct Hmid as [[_ ->] | (rawimg & _ & ->)]; [done|].
    rewrite lookup_insert_ne, lookup_delete_ne by (intros ?; subst; tauto). done.
  - intros Hclash Hmm. unfold answer_clash_keys in Hclash.
    rewrite !not_elem_of_cons in Hclash.
    rewrite written_fields_other in Hans by tauto.
    exists ans. rewrite !Hlook. split; [|split].
    + destruct Hmid as [[_ ->] | (rawimg & Himg & ->)]; [done|].
      destruct Hmm as [Hno | Hne]; [congruence|].
      rewrite lookup_insert_ne in Hans by done.
      destruct (decide (image_key self = answer_key self)) as [Heq|Hne'].
      * rewrite <- Heq, lookup_delete_eq in Hans. discriminate.
      * by rewrite lookup_delete_ne in Hans.
    + by rewrite decide_True.
    + rewrite decide_False by tauto. by rewrite decide_True.
  - intros rawimg Himg Hkey Hne. unfold written_keys in Hkey.
    rewrite !not_elem_of_cons in Hkey. destruct Hkey as (? & ? & ? & ? & ? & ? & _).
    destruct Hmid as [[Hno _] | (rawimg' & Himg' & ->)]; [congruence|].
    assert (rawimg' = rawimg) as -> by congruence.
    rewrite !Hlook. split.
    + rewrite decide_False by done. case_decide; [done|].
      rewrite written_fields_other by done.
      rewrite lookup_insert_ne by done. by rewrite lookup_delete_eq.
    + rewrite decide_False by done. rewrite decide_False by done.
      rewrite written_fields_other by done. by rewrite lookup_insert_eq.
  - intros Hno Hne. destruct Hmid as [[_ ->] | (rawimg & Himg & _)]; [|congruence].
    rewrite Hlook. rewrite decide_False by done. rewrite decide_False by done.
    by apply written_fields_other.
Qed.

(** C9, amended.  An example that [__getitem__] returns, from either
    dataset, keeps every field of the record that is neither consumed nor
    written.  It holds the answer of the record under ["ground_truth"]
    and nothing under the answer key, provided the answer key is none of
    ["input_ids"], ["attention_mask"], ["position_ids"],
    ["raw_prompt_ids"] and ["ground_truth"], nor, for a record with
    images, ["multi_modal_data"].  For a record with an image field it
    has lost the image key and holds under ["multi_modal_data"] the image
    references as the record had them, provided the image key is not the
    name of a written field and the answer key is not
    ["multi_modal_data"]. *)
Theorem C9_output_frame (W : world) :
  (∀ (self : RLHFDataset.t) (index : Z) (out : dict),
     RLHFDataset.__getitem__ W self index = Ok out →
     ∃ i example,
       py_index_pos (RLHFDataset.dataset self) index = Ok i ∧
       RLHFDataset.dataset self !! i = Some example ∧
       guarded_frame (RLHFDataset.cfg self) example out) ∧
  (∀ (self self' : RLHFSelfDataset.t) (index : Z) (out : dict),
     RLHFSelfDataset.__getitem__ W self index = (Ok out, self') →
     ∃ i example,
       py_index_pos (RLHFSelfDataset.dataset self) index = Ok i ∧
       RLHFSelfDataset.dataset self !! i = Some example ∧
       guarded_frame (RLHFSelfDataset.cfg self) example out).
Proof.
  split.
  - intros self index out (i & example & Hi & Hex & Ht)%getitem_inv.
    exists i, example. eauto using transform_guarded_frame.
  - intros self self' index out (i & example & Hi & Hex & Ht & _)%self_getitem_inv.
    exists i, example. eauto using transform_guarded_frame.
Qed.

(** ** Padding and truncation to the prompt length *)

Lemma fit_to_length_padded (L pad : Z) (trunc : string) (v0 v : list Z) :
  0 ≤ L → fit_to_length L pad trunc v0 = Ok v → left_padded L pad v0 v.
Proof.
  intros HL. unfold fit_to_length, left_padded.
  destruct (Nat.ltb_spec (length v0) (Z.to_nat L)) as [Hlt|Hge].
  - intros [= <-]. rewrite length_app, length_replicate. split; [lia|].
    intros _. f_equal. f_equal. lia.
  - destruct (Nat.ltb_spec (Z.to_nat L) (length v0)) as [Hgt|Hle].
    + destruct (String.eqb trunc "left").
      * intros [= <-]. rewrite length_drop. split; lia.
      * destruct (String.eqb trunc "right"); [|discriminate].
        intros [= <-]. rewrite length_take. split; lia.
    + intros [= <-]. split; lia.
Qed.

Lemma rmap_list_Forall2 {A B} (f : A → result B) (l : list A) :
  ∀ l', rmap_list f l = Ok l' → Forall2 (λ a b, f a = Ok b) l l'.
Proof.
  induction l as [|a l IH]; intros l'; cbn.
  - intros [= <-]. constructor.
  - destruct (f a) as [b|] eqn:Hb; [|discriminate]. cbn.
    destruct (rmap_list f l) as [bs|]; [|discriminate]. cbn.
    intros [= <-]. constructor; [done | by apply IH].
Qed.

Lemma fit_tensor_padded (L : Z) (trunc : string) (t0 t : tensor) :
  0 ≤ L → fit_tensor L 0 trunc t0 = Ok t → tensor_left_padded L t0 t.
Proof.
  intros HL. destruct t0 as [v0|rows0]; cbn [fit_tensor mbind result_bind].
  - destruct (fit_to_length L 0 trunc v0) as [v|] eqn:Hv; [|discriminate].
    cbn. intros [= <-]. by apply (fit_to_length_padded L 0 trunc).
  - destruct (rmap_list _ rows0) as [rows|] eqn:Hrows; [|discriminate].
    cbn. intros [= <-]. cbn.
    apply rmap_list_Forall2 in Hrows.
    eapply Forall2_impl; [exact Hrows|].
    intros r0 r Hr. by apply (fit_to_length_padded L 0 trunc).
Qed.

Lemma postprocess_data_padded (ids0 mask0 : list Z) (pos0 : tensor) (L pad : Z)
    (trunc : string) (ids mask : list Z) (pos : tensor) :
  0 ≤ L →
  postprocess_data ids0 mask0 pos0 L pad trunc = Ok (ids, mask, pos) →
  left_padded L pad ids0 ids ∧ left_padded L 0 mask0 mask ∧ tensor_left_padded L pos0 pos.
Proof.
  intros HL. unfold postprocess_data. cbn [mbind result_bind].
  destruct (fit_to_length L pad trunc ids0) as [ids'|] eqn:H1; [|discriminate]. cbn.
  destruct (fit_to_length L 0 trunc mask0) as [mask'|] eqn:H2; [|discriminate]. cbn.
  destruct (fit_tensor L 0 trunc pos0) as [pos'|] eqn:H3; [|discriminate]. cbn.
  intros [= <- <- <-].
  split; [by apply (fit_to_length_padded L pad trunc)|].
  split; [by apply (fit_to_length_padded L 0 trunc) | by apply (fit_tensor_padded L trunc)].
Qed.

Lemma transform_padded (W : world) (self : config) (example out : dict) :
  reserved_keys_free self →
  0 ≤ max_prompt_length self →
  RLHFDataset.transform W self example = (Ok out, out) →
  padded_example W self example out.
Proof.
  intros Hfree HL Ht.
  destruct (reserved_answer_key self Hfree) as (Ha1 & Ha2 & Ha3 & Ha4 & Ha5 & Ha6).
  apply transform_ok_inv in Ht
    as (msgs & prompt & mi & mid & ids & mask & pos & raw & ans &
        Hmsgs & Henc & Hpad & _ & _ & Hout & _).
  exists msgs, prompt, mi, mid. split; [done|]. split; [done|].
  apply postprocess_data_padded in Hpad as (Hids & Hmask & Hpos); [|done].
  exists ids, mask, pos.
  assert (∀ k, k ≠ "ground_truth" → k ≠ answer_key self →
               out !! k = written_fields mid ids mask pos raw !! k) as Hlook.
  { intros k ? ?. rewrite Hout. by rewrite lookup_insert_ne, lookup_delete_ne. }
  unfold written_fields in Hlook.
  split; [|split; [|split]].
  - rewrite Hlook by done.
    repeat (rewrite lookup_insert_ne by done). by rewrite lookup_insert_eq.
  - rewrite Hlook by done.
    repeat (rewrite lookup_insert_ne by done). by rewrite lookup_insert_eq.
  - rewrite Hlook by done.
    repeat (rewrite lookup_insert_ne by done). by rewrite lookup_insert_eq.
  - done.
Qed.

Lemma transform_padded_fields (W : world) (self : config) (example out : dict) :
  answer_key self ∉ tensor_keys →
  0 ≤ max_prompt_length self →
  RLHFDataset.transform W self example = (Ok out, out) →
  padded_example W self example out.
Proof.
  intros Hkey HL Ht. unfold tensor_keys in Hkey. rewrite !not_elem_of_cons in Hkey.
  destruct Hkey as (Ha1 & Ha2 & Ha3 & _).
  apply transform_ok_inv in Ht
    as (msgs & prompt & mi & mid & ids & mask & pos & raw & ans &
        Hmsgs & Henc & Hpad & _ & _ & Hout & _).
  exists msgs, prompt, mi, mid. split; [done|]. split; [done|].
  apply postprocess_data_padded in Hpad as (Hids & Hmask & Hpos); [|done].
  exists ids, mask, pos.
  assert (∀ k, k ≠ "ground_truth" → k ≠ answer_key self →
               out !! k = written_fields mid ids mask pos raw !! k) as Hlook.
  { intros k ? ?. rewrite Hout. by rewrite lookup_insert_ne, lookup_delete_ne. }
  unfold written_fields in Hlook.
  split; [|split; [|split]].
  - rewrite Hlook by done.
    repeat (rewrite lookup_insert_ne by done). by rewrite lookup_insert_eq.
  - rewrite Hlook by done.
    repeat (rewrite lookup_insert_ne by done). by rewrite lookup_insert_eq.
  - rewrite Hlook by done.
    repeat (rewrite lookup_insert_ne by done). by rewrite lookup_insert_eq.
  - done.
Qed.

(** C1, amended.  For [max_prompt_length >= 0] and an answer key that is
    none of ["input_ids"], ["attention_mask"] and ["position_ids"]: in an
    example returned by [__getitem__], of either dataset, [input_ids],
    [attention_mask] and [position_ids] have exactly [max_prompt_length]
    entries along the last axis; where the encoder output was shorter,
    the filler stands in front of it (the pad id for [input_ids], 0 for
    the mask and the positions); [position_ids] is 1-axis or keeps its
    rows as the unpadded positions had them. *)
Theorem C1_fixed_length (W : world) :
  (∀ (self : RLHFDataset.t) (index : Z) (out : dict),
     answer_key (RLHFDataset.cfg self) ∉ tensor_keys →
     0 ≤ max_prompt_length (RLHFDataset.cfg self) →
     RLHFDataset.__getitem__ W self index = Ok out →
     ∃ i example,
       py_index_pos (RLHFDataset.dataset self) index = Ok i ∧
       RLHFDataset.dataset self !! i = Some example ∧
       padded_example W (RLHFDataset.cfg self) example out) ∧
  (∀ (self self' : RLHFSelfDataset.t) (index : Z) (out : dict),
     answer_key (RLHFSelfDataset.cfg self) ∉ tensor_keys →
     0 ≤ max_prompt_length (RLHFSelfDataset.cfg self) →
     RLHFSelfDataset.__getitem__ W self index = (Ok out, self') →
     ∃ i example,
       py_index_pos (RLHFSelfDataset.dataset self) index = Ok i ∧
       RLHFSelfDataset.dataset self !! i = Some example ∧
       padded_example W (RLHFSelfDataset.cfg self) example out).
Proof.
  split.
  - intros self index out Hkey HL (i & example & Hi & Hex & Ht)%getitem_inv.
    exists i, example. eauto using transform_padded_fields.
  - intros self self' index out Hkey HL (i & example & Hi & Hex & Ht & _)%self_getitem_inv.
    exists i, example. eauto using transform_padded_fields.
Qed.

(** ** The demo configuration is well formed *)

Lemma not_written_key (k : string) :
  k ≠ "input_ids" → k ≠ "attention_mask" → k ≠ "position_ids" →
  k ≠ "raw_prompt_ids" → k ≠ "ground_truth" → k ≠ "multi_modal_data" →
  k ∉ written_keys.
Proof.
  intros ? ? ? ? ? ? H. unfold written_keys in H.
  repeat (apply elem_of_cons in H as [H|H]; [congruence|]).
  by apply elem_of_nil in H.
Defined.

Lemma is_ok_inv {A} (r : result A) : is_ok r = true → ∃ a, r = Ok a.
Proof. destruct r as [a|e]; [by exists a | discriminate]. Defined.

Lemma demo_reserved_keys_free (p : option processor) (pk : string) (L : Z)
    (trunc : string) (bounds : option Z) :
  reserved_keys_free (Demo.config_with p pk L trunc bounds).
Proof. split; apply not_written_key; discriminate. Defined.

Lemma not_tensor_key (k : string) :
  k ≠ "input_ids" → k ≠ "attention_mask" → k ≠ "position_ids" → k ∉ tensor_keys.
Proof.
  intros ? ? ? H. unfold tensor_keys in H.
  repeat (apply elem_of_cons in H as [H|H]; [congruence|]).
  by apply elem_of_nil in H.
Defined.

Lemma not_answer_clash_key (k : string) :
  k ≠ "input_ids" → k ≠ "attention_mask" → k ≠ "position_ids" →
  k ≠ "raw_prompt_ids" → k ≠ "ground_truth" → k ∉ answer_clash_keys.
Proof.
  intros ? ? ? ? ? H. unfold answer_clash_keys in H.
  repeat (apply elem_of_cons in H as [H|H]; [congruence|]).
  by apply elem_of_nil in H.
Defined.

Lemma result_lookup_inv (r : result dict) (key : string) (v : pyval) :
  result_lookup r key = Some v → ∃ d, r = Ok d ∧ d !! key = Some v.
Proof. destruct r as [d|e]; [by exists d | discriminate]. Defined.

Lemma result_lacks_inv (r : result dict) (key : string) :
  result_lacks r key = true → ∃ d, r = Ok d ∧ d !! key = None.
Proof.
  destruct r as [d|e]; [|discriminate]. cbn.
  destruct (d !! key) eqn:H; [discriminate|]. by exists d.
Defined.

Lemma C9_output_frame_witness :
  ∃ out,
    RLHFDataset.__getitem__ Demo.W Demo.image_dataset 0 = Ok out ∧
    out !! "ground_truth" = Some (PStr "0") ∧
    out !! "answer" = None ∧
    out !! "images" = None ∧
    out !! "multi_modal_data" =
      Some (PDict [("image", PList [PStr "/data/02438_origin.png"])]) ∧
    out !! "location" = Some (PList [PInt 56; PInt 511; PInt 64; PInt 525]).
Proof.
  destruct (is_ok_inv (RLHFDataset.__getitem__ Demo.W Demo.image_dataset 0))
    as [out Hget]; [vm_compute; reflexivity|].
  exists out. split; [exact Hget|].
  destruct (proj1 (C9_output_frame Demo.W) Demo.image_dataset 0 out Hget)
    as (i & example & Hi & Hex & Hkeep & Hanswer & Himg & _).
  assert (i = 0%nat) as -> by (vm_compute in Hi; congruence).
  assert (example = Demo.image_record) as ->.
  { change (Some Demo.image_record = Some example) in Hex. congruence. }
  assert (Demo.image_record !! "answer" = Some (PStr "0")) as Ha
    by (vm_compute; reflexivity).
  assert (Demo.image_record !! "images" = Some (PList [PStr "/data/02438_origin.png"])) as Hi'
    by (vm_compute; reflexivity).
  assert (Demo.image_record !! "location" = Some (PList [PInt 56; PInt 511; PInt 64; PInt 525]))
    as Hl by (vm_compute; reflexivity).
  change (answer_key (RLHFDataset.cfg Demo.image_dataset)) with "answer" in *.
  change (image_key (RLHFDataset.cfg Demo.image_dataset)) with "images" in *.
  destruct Hanswer as (ans & Hans & Hgt & Hgone);
    [apply not_answer_clash_key; discriminate | right; discriminate |].
  destruct (Himg _ Hi') as [Hnoimg Hmm];
    [apply not_written_key; discriminate | discriminate |].
  rewrite Ha in Hans. injection Hans as <-.
  split; [exact Hgt|]. split; [exact Hgone|]. split; [exact Hnoimg|]. split; [exact Hmm|].
  rewrite <- Hl. apply Hkeep; [discriminate | discriminate |].
  apply not_written_key; discriminate.
Defined.

(** C9 as stated fails when the answer column is itself named
    ["ground_truth"]: line 228 pops the answer and stores it under the
    same name, so the returned example still has the answer key. *)
Lemma C9_counterexample :
  ∃ out,
    RLHFDataset.__getitem__ Demo.W (Demo.keyed_dataset "ground_truth") 0 = Ok out ∧
    answer_key (RLHFDataset.cfg (Demo.keyed_dataset "ground_truth")) = "ground_truth" ∧
    out !! answer_key (RLHFDataset.cfg (Demo.keyed_dataset "ground_truth"))
      = Some (PStr "4").
Proof.
  destruct (result_lookup_inv
              (RLHFDataset.__getitem__ Demo.W (Demo.keyed_dataset "ground_truth") 0)
              "ground_truth" (PStr "4"))
    as (out & Hget & Hgt); [vm_compute; reflexivity|].
  exists out. split; [exact Hget|]. split; [reflexivity | exact Hgt].
Qed.

Lemma C1_fixed_length_witness :
  ∃ out ids mask pos,
    RLHFDataset.__getitem__ Demo.W Demo.text_dataset 0 = Ok out ∧
    out !! "input_ids" = Some (PTensor (T1 ids)) ∧
    out !! "attention_mask" = Some (PTensor (T1 mask)) ∧
    out !! "position_ids" = Some (PTensor pos) ∧
    Z.of_nat (length ids) = 8 ∧ Z.of_nat (length mask) = 8.
Proof.
  destruct (is_ok_inv (RLHFDataset.__getitem__ Demo.W Demo.text_dataset 0))
    as [out Hget]; [vm_compute; reflexivity|].
  destruct (proj1 (C1_fixed_length Demo.W) Demo.text_dataset 0 out
              ltac:(apply not_tensor_key; discriminate) ltac:(discriminate) Hget)
    as (i & example & _ & _ & msgs & prompt & mi & mid & _ & _ &
        ids & mask & pos & Hids & Hmask & Hpos & [Hlen _] & [Hlen' _] & _).
  exists out, ids, mask, pos.
  split; [exact Hget|]. split; [exact Hids|]. split; [exact Hmask|].
  split; [exact Hpos|]. split; [exact Hlen | exact Hlen'].
Defined.

(** C1 as stated fails when the answer column is named like one of the
    three fields: with the answer under ["attention_mask"], line 225
    overwrites it with the mask and line 228 pops the mask into
    ["ground_truth"], so the returned example has no [attention_mask]. *)
Lemma C1_counterexample :
  ∃ out,
    RLHFDataset.__getitem__ Demo.W (Demo.keyed_dataset "attention_mask") 0 = Ok out ∧
    out !! "attention_mask" = None.
Proof.
  destruct (result_lacks_inv
              (RLHFDataset.__getitem__ Demo.W (Demo.keyed_dataset "attention_mask") 0)
              "attention_mask")
    as (out & Hget & Hnone); [vm_compute; reflexivity|].
  by exists out.
Qed.

(** Under the rotary backend the three rows are padded one by one. *)
Example rotary_positions_keep_rows :
  result_lookup (RLHFDataset.__getitem__ Demo.W Demo.rotary_dataset 0) "position_ids" =
    Some (PTensor (T2 [[0; 0; 0; 0; 0; 0; 1; 2];
                       [0; 0; 0; 0; 0; 0; 1; 2];
                       [0; 0; 0; 0; 0; 0; 1; 2]])).
Proof. vm_compute; reflexivity. Qed.

(** ** Text-only records that fit *)

Lemma cumsum_from_ones (n : nat) :
  ∀ acc, cumsum_from acc (replicate n 1) = (λ i, acc + 1 + Z.of_nat i) <$> seq 0 n.
Proof.
  induction n as [|n IH]; intros acc; [done|].
  cbn [replicate cumsum_from seq fmap list_fmap]. f_equal; [lia|].
  rewrite IH, <- seq_shift, <- list_fmap_compose.
  apply list_fmap_ext. intros _ i _. cbn. lia.
Qed.

Lemma default_position_ids_ones (n : nat) :
  default_position_ids (replicate n 1) = Z.of_nat <$> seq 0 n.
Proof.
  unfold default_position_ids, clip_min, cumsum. rewrite cumsum_from_ones.
  change (@map) with (@fmap list _). rewrite <- !list_fmap_compose.
  apply list_fmap_ext. intros _ i _. cbn. lia.
Qed.

Lemma fit_to_length_short (L pad : Z) (trunc : string) (v : list Z) :
  Z.of_nat (length v) ≤ L →
  fit_to_length L pad trunc v = Ok (replicate (Z.to_nat L - length v) pad ++ v).
Proof.
  intros Hle. unfold fit_to_length.
  destruct (Nat.ltb_spec (length v) (Z.to_nat L)) as [Hlt|Hge]; [done|].
  destruct (Nat.ltb_spec (Z.to_nat L) (length v)) as [Hgt|_]; [lia|].
  by replace (Z.to_nat L - length v)%nat with 0%nat by lia.
Qed.

Lemma build_messages_plain (W : world) (self : config) (example : dict) (p : pyval) :
  example !! prompt_key self = Some p →
  example !! image_key self = None →
  RLHFDataset._build_messages W self example =
    Ok [mk_message "user" (Plain (effective_prompt W self p))].
Proof.
  intros Hp Hno. unfold RLHFDataset._build_messages, dict_get. rewrite Hp.
  cbn [mbind result_bind rbind]. fold (effective_prompt W self p).
  rewrite bool_decide_eq_false_2; [done|]. rewrite Hno. by intros [? ?].
Qed.

Lemma position_ids_default (W : world) (self : config) (mi : model_inputs) :
  uses_rope_index self = false →
  RLHFDataset.position_ids_of W self mi = T1 (default_position_ids (mi_attention_mask mi)).
Proof.
  unfold uses_rope_index, RLHFDataset.position_ids_of.
  destruct (cfg_processor self) as [p|]; [|done]. by intros ->.
Qed.

Lemma truncate_raw_short (L : Z) (trunc : string) (raw : list Z) :
  Z.of_nat (length raw) ≤ L → truncate_raw_prompt_ids L trunc raw = Ok raw.
Proof.
  intros Hle. unfold truncate_raw_prompt_ids.
  destruct (Z.ltb_spec L (Z.of_nat (length raw))); [lia | done].
Qed.

Lemma written_fields_some (d : dict) ids mask pos raw (k : string) (v : pyval) :
  d !! k = Some v → ∃ v', written_fields d ids mask pos raw !! k = Some v'.
Proof.
  intros Hk. unfold written_fields. apply lookup_insert_is_Some'. right.
  apply lookup_insert_is_Some'. right. apply lookup_insert_is_Some'. right.
  apply lookup_insert_is_Some'. right. by exists v.
Qed.

(** C2, amended.  A text-only record that has its prompt and its answer,
    whose rendered prompt encodes to [n] tokens, [n <= max_prompt_length
    = L], under a backend that is not the rotary one and an answer key
    that is none of ["input_ids"], ["attention_mask"] and
    ["position_ids"]: [__getitem__] returns [input_ids] as [L - n] pad ids
    and then the token ids, [attention_mask] as [L - n] zeros and then [n]
    ones, and [position_ids] as [L - n] zeros and then 0 .. n-1, which is
    the cumulative sum of the unpadded mask minus one, clipped at zero. *)
Theorem C2_text_only (W : world) (self : RLHFDataset.t) (index : Z) (i : nat)
    (example : dict) (p ans : pyval) (toks : list Z) (n : nat) :
  py_index_pos (RLHFDataset.dataset self) index = Ok i →
  RLHFDataset.dataset self !! i = Some example →
  example !! image_key (RLHFDataset.cfg self) = None →
  example !! prompt_key (RLHFDataset.cfg self) = Some p →
  example !! answer_key (RLHFDataset.cfg self) = Some ans →
  answer_key (RLHFDataset.cfg self) ∉ tensor_keys →
  uses_rope_index (RLHFDataset.cfg self) = false →
  tok_call (cfg_tokenizer (RLHFDataset.cfg self)) (text_prompt W (RLHFDataset.cfg self) p)
    = mk_model_inputs toks (replicate n 1) None →
  length toks = n →
  length (tok_encode (cfg_tokenizer (RLHFDataset.cfg self))
            (text_prompt W (RLHFDataset.cfg self) p)) = n →
  Z.of_nat n ≤ max_prompt_length (RLHFDataset.cfg self) →
  default_position_ids (replicate n 1) = Z.of_nat <$> seq 0 n ∧
  ∃ out,
    RLHFDataset.__getitem__ W self index = Ok out ∧
    out !! "input_ids" =
      Some (PTensor (T1 (replicate (Z.to_nat (max_prompt_length (RLHFDataset.cfg self)) - n)
                           (pad_token_id (cfg_tokenizer (RLHFDataset.cfg self))) ++ toks))) ∧
    out !! "attention_mask" =
      Some (PTensor (T1 (replicate (Z.to_nat (max_prompt_length (RLHFDataset.cfg self)) - n) 0
                           ++ replicate n 1))) ∧
    out !! "position_ids" =
      Some (PTensor (T1 (replicate (Z.to_nat (max_prompt_length (RLHFDataset.cfg self)) - n) 0
                           ++ (Z.of_nat <$> seq 0 n)))).
Proof.
  destruct self as [c ds]. cbn [RLHFDataset.cfg RLHFDataset.dataset].
  intros Hi Hex Hno Hp Hans Hkey Hrope Hcall Htoks Henc Hn.
  split; [apply default_position_ids_ones|].
  unfold tensor_keys in Hkey. rewrite !not_elem_of_cons in Hkey.
  destruct Hkey as (Ha1 & Ha2 & Ha3 & _).
  unfold RLHFDataset.__getitem__. cbn [RLHFDataset.cfg RLHFDataset.dataset].
  rewrite Hi. cbn [mbind result_bind rbind]. rewrite Hex.
  rewrite transform_unfold, (build_messages_plain W c example p Hp Hno).
  rewrite encode_example_text by done. fold (text_prompt W c p).
  unfold pad_stage. rewrite position_ids_default by done. rewrite Hcall.
  cbn [mi_input_ids mi_attention_mask]. unfold postprocess_data.
  rewrite (fit_to_length_short _ _ _ toks) by lia.
  cbn [mbind result_bind rbind].
  rewrite (fit_to_length_short _ _ _ (replicate n 1)) by (rewrite length_replicate; lia).
  cbn [mbind result_bind rbind fit_tensor].
  rewrite default_position_ids_ones.
  rewrite (fit_to_length_short _ _ _ (Z.of_nat <$> seq 0 n))
    by (rewrite length_fmap, length_seq; lia).
  cbn [mbind result_bind rbind].
  unfold raw_stage. rewrite truncate_raw_short by lia.
  unfold finish.
  match goal with
  | |- context [written_fields ?d ?a ?b ?c' ?r !! _] =>
      destruct (written_fields_some d a b c' r (answer_key c) ans Hans) as [ans' ->]
  end.
  eexists. split; [reflexivity|].
  rewrite Htoks, length_replicate, length_fmap, length_seq.
  unfold written_fields.
  split; [|split];
    rewrite lookup_insert_ne, lookup_delete_ne by done;
    repeat (rewrite lookup_insert_ne by done); by rewrite lookup_insert_eq.
Qed.

Lemma C2_text_only_witness :
  ∃ out,
    RLHFDataset.__getitem__ Demo.W Demo.text_dataset 0 = Ok out ∧
    out !! "input_ids" = Some (PTensor (T1 [0; 0; 0; 0; 50; 43; 50; 61])) ∧
    out !! "attention_mask" = Some (PTensor (T1 [0; 0; 0; 0; 1; 1; 1; 1])) ∧
    out !! "position_ids" = Some (PTensor (T1 [0; 0; 0; 0; 0; 1; 2; 3])).
Proof.
  refine (proj2 (C2_text_only Demo.W Demo.text_dataset 0 0 Demo.text_record
            (PStr "2+2=") (PStr "4") [50; 43; 50; 61] 4
            _ _ _ _ _ ltac:(apply not_tensor_key; discriminate) _ _ _ _ _)).
  - reflexivity.
  - reflexivity.
  - vm_compute; reflexivity.
  - vm_compute; reflexivity.
  - vm_compute; reflexivity.
  - reflexivity.
  - vm_compute; reflexivity.
  - reflexivity.
  - vm_compute; reflexivity.
  - vm_compute; discriminate.
Defined.

(** C2 as stated fails when the answer column is named ["input_ids"]:
    the record of scenario A is transformed, line 224 overwrites the
    answer with the padded ids, line 228 pops them into ["ground_truth"],
    and the returned example has no [input_ids]. *)
Lemma C2_counterexample :
  ∃ out,
    RLHFDataset.__getitem__ Demo.W (Demo.keyed_dataset "input_ids") 0 = Ok out ∧
    Demo.keyed_record "input_ids" !! image_key (Demo.keyed_cfg "input_ids") = None ∧
    out !! "input_ids" = None.
Proof.
  destruct (result_lacks_inv
              (RLHFDataset.__getitem__ Demo.W (Demo.keyed_dataset "input_ids") 0)
              "input_ids")
    as (out & Hget & Hnone); [vm_compute; reflexivity|].
  exists out. split; [exact Hget|]. split; [vm_compute; reflexivity | exact Hnone].
Qed.

(** ** The truncation of [raw_prompt_ids] *)

Lemma slice_last_pos {A} (n : Z) (l : list A) :
  1 ≤ n → slice_last n l = drop (length l - Z.to_nat n) l.
Proof.
  intros Hn. unfold slice_last.
  destruct (Z.eqb_spec n 0); [lia|].
  destruct (Z.ltb_spec 0 n); [|lia].
  f_equal. lia.
Qed.

Lemma slice_first_nonneg {A} (n : Z) (l : list A) :
  0 ≤ n → slice_first n l = take (Z.to_nat n) l.
Proof.
  intros Hn. unfold slice_first. destruct (Z.leb_spec 0 n); [done | lia].
Qed.

Lemma truncate_raw_truncated (L : Z) (trunc : string) (raw0 raw : list Z) :
  1 ≤ L →
  truncate_raw_prompt_ids L trunc raw0 = Ok raw →
  raw_truncated L trunc raw0 raw.
Proof.
  intros HL. unfold truncate_raw_prompt_ids, raw_truncated, is_policy.
  destruct (Z.ltb_spec L (Z.of_nat (length raw0))) as [Hlong|Hfit].
  - destruct (String.eqb_spec trunc "left") as [->|Hl].
    + rewrite slice_last_pos by done. intros [= <-]. rewrite length_drop.
      repeat split; try done; try lia.
    + destruct (String.eqb_spec trunc "right") as [->|Hr].
      * rewrite slice_first_nonneg by lia. intros [= <-]. rewrite length_take.
        repeat split; try done; try lia.
      * destruct (String.eqb_spec trunc "error") as [->|He]; [discriminate|].
        intros [= <-]. repeat split; try done; try lia.
        intros [?|[?|?]]; done.
  - intros [= <-]. repeat split; try done; try lia.
Qed.

Lemma transform_raw_prompt_ids (W : world) (self : config) (example out : dict) :
  1 ≤ max_prompt_length self →
  RLHFDataset.transform W self example = (Ok out, out) →
  raw_prompt_ids_of W self example out.
Proof.
  intros HL Ht.
  apply transform_ok_inv in Ht
    as (msgs & prompt & mi & mid & ids & mask & pos & raw & ans &
        Hmsgs & Henc & _ & Hraw & _ & Hout & _).
  exists msgs, prompt, mi, mid, raw. split; [done|]. split; [done|].
  assert (∀ k, out !! k =
               if decide (k = "ground_truth") then Some ans
               else if decide (k = answer_key self) then None
               else written_fields mid ids mask pos raw !! k) as Hlook.
  { intros k. rewrite Hout. destruct (decide (k = "ground_truth")) as [->|].
    - by rewrite lookup_insert_eq.
    - rewrite lookup_insert_ne by done. destruct (decide (k = answer_key self)) as [->|].
      + by rewrite lookup_delete_eq.
      + by rewrite lookup_delete_ne. }
  assert (written_fields mid ids mask pos raw !! "raw_prompt_ids" = Some (ids_value raw)) as Hw
    by (unfold written_fields; by rewrite lookup_insert_eq).
  split; [|split].
  - intros Hne. rewrite Hlook, Hw. repeat case_decide; congruence.
  - intros v. rewrite Hlook, Hw. repeat case_decide; congruence.
  - by apply truncate_raw_truncated.
Qed.

Lemma transform_error_policy (W : world) (self : config) (example : dict)
    (msgs : list message) (prompt : string) (mi : model_inputs) (mid : dict) :
  truncation self = "error" →
  RLHFDataset._build_messages W self example = Ok msgs →
  RLHFDataset.encode_example W self msgs example = (Ok (prompt, mi), mid) →
  max_prompt_length self < Z.of_nat (length (tok_encode (cfg_tokenizer self) prompt)) →
  ∃ e, RLHFDataset.transform W self example = (Raise e, mid).
Proof.
  intros Herr Hmsgs Henc Hlong. rewrite transform_unfold, Hmsgs, Henc.
  destruct (pad_stage W self mi) as [[[ids mask] pos]|e]; [|by exists e].
  unfold raw_stage, truncate_raw_prompt_ids. rewrite Herr.
  destruct (Z.ltb_spec (max_prompt_length self)
              (Z.of_nat (length (tok_encode (cfg_tokenizer self) prompt)))); [|lia].
  cbn. by exists RuntimeError.
Qed.

Lemma self_getitem_raise (W : world) (self : RLHFSelfDataset.t) (index : Z) (i : nat)
    (example mid : dict) (e : exn) :
  py_index_pos (RLHFSelfDataset.dataset self) index = Ok i →
  RLHFSelfDataset.dataset self !! i = Some example →
  RLHFDataset.transform W (RLHFSelfDataset.cfg self) example = (Raise e, mid) →
  (RLHFSelfDataset.__getitem__ W self index).1 = Raise e.
Proof.
  intros Hi Hex Ht. unfold RLHFSelfDataset.__getitem__, RLHFSelfDataset.transform.
  by rewrite Hi, Hex, Ht.
Qed.

(** Where the code does what C3 says.  For [max_prompt_length >= 1], in
    either dataset: [raw_prompt_ids] is the plain encoding of the
    rendered prompt string; when that is longer than [max_prompt_length],
    "left" keeps its last [max_prompt_length] ids and "right" its first,
    so that under a policy among left, right and error the returned list
    has at most [max_prompt_length] ids.  Under "error", for any
    [max_prompt_length] and in either dataset, a prompt whose encoding is
    longer makes the call raise. *)
Lemma raw_prompt_ids_positive_budget (W : world) :
  (∀ (self : RLHFDataset.t) (index : Z) (out : dict),
     1 ≤ max_prompt_length (RLHFDataset.cfg self) →
     RLHFDataset.__getitem__ W self index = Ok out →
     ∃ i example,
       py_index_pos (RLHFDataset.dataset self) index = Ok i ∧
       RLHFDataset.dataset self !! i = Some example ∧
       raw_prompt_ids_of W (RLHFDataset.cfg self) example out) ∧
  (∀ (self self' : RLHFSelfDataset.t) (index : Z) (out : dict),
     1 ≤ max_prompt_length (RLHFSelfDataset.cfg self) →
     RLHFSelfDataset.__getitem__ W self index = (Ok out, self') →
     ∃ i example,
       py_index_pos (RLHFSelfDataset.dataset self) index = Ok i ∧
       RLHFSelfDataset.dataset self !! i = Some example ∧
       raw_prompt_ids_of W (RLHFSelfDataset.cfg self) example out) ∧
  (∀ (self : RLHFDataset.t) (index : Z) (i : nat) (example : dict)
     (msgs : list message) (prompt : string) (mi : model_inputs) (mid : dict),
     truncation (RLHFDataset.cfg self) = "error" →
     py_index_pos (RLHFDataset.dataset self) index = Ok i →
     RLHFDataset.dataset self !! i = Some example →
     RLHFDataset._build_messages W (RLHFDataset.cfg self) example = Ok msgs →
     RLHFDataset.encode_example W (RLHFDataset.cfg self) msgs example = (Ok (prompt, mi), mid) →
     max_prompt_length (RLHFDataset.cfg self)
       < Z.of_nat (length (tok_encode (cfg_tokenizer (RLHFDataset.cfg self)) prompt)) →
     ∃ e, RLHFDataset.__getitem__ W self index = Raise e) ∧
  (∀ (self : RLHFSelfDataset.t) (index : Z) (i : nat) (example : dict)
     (msgs : list message) (prompt : string) (mi : model_inputs) (mid : dict),
     truncation (RLHFSelfDataset.cfg self) = "error" →
     py_index_pos (RLHFSelfDataset.dataset self) index = Ok i →
     RLHFSelfDataset.dataset self !! i = Some example →
     RLHFDataset._build_messages W (RLHFSelfDataset.cfg self) example = Ok msgs →
     RLHFDataset.encode_example W (RLHFSelfDataset.cfg self) msgs example
       = (Ok (prompt, mi), mid) →
     max_prompt_length (RLHFSelfDataset.cfg self)
       < Z.of_nat (length (tok_encode (cfg_tokenizer (RLHFSelfDataset.cfg self)) prompt)) →
     ∃ e, (RLHFSelfDataset.__getitem__ W self index).1 = Raise e).
Proof.
  split; [|split; [|split]].
  - intros self index out HL (i & example & Hi & Hex & Ht)%getitem_inv.
    exists i, example. eauto using transform_raw_prompt_ids.
  - intros self self' index out HL (i & example & Hi & Hex & Ht & _)%self_getitem_inv.
    exists i, example. eauto using transform_raw_prompt_ids.
  - intros self index i example msgs prompt mi mid Herr Hi Hex Hmsgs Henc Hlong.
    destruct (transform_error_policy W _ example msgs prompt mi mid Herr Hmsgs Henc Hlong)
      as [e He].
    exists e. unfold RLHFDataset.__getitem__. rewrite Hi. cbn [mbind result_bind rbind].
    by rewrite Hex, He.
  - intros self index i example msgs prompt mi mid Herr Hi Hex Hmsgs Henc Hlong.
    destruct (transform_error_policy W _ example msgs prompt mi mid Herr Hmsgs Henc Hlong)
      as [e He].
    exists e. by apply (self_getitem_raise W self index i example mid e).
Qed.

(** C3.  At [max_prompt_length = 0] under "left" the code does not do
    what the claim says: line 218 slices with [[-0:]], which is the whole
    list, so the over-long ids are all returned, in either dataset.  The
    sibling "right" slices with [[:0]] and returns no id, and "error"
    makes the call fail, as the claim says. *)
Theorem C3_left_zero_budget :
  max_prompt_length (RLHFDataset.cfg Demo.zero_dataset) = 0 ∧
  truncation (RLHFDataset.cfg Demo.zero_dataset) = "left" ∧
  (∃ out,
     RLHFDataset.__getitem__ Demo.W Demo.zero_dataset 0 = Ok out ∧
     out !! "raw_prompt_ids" = Some (ids_value (tok_encode Demo.tok "2+2=")) ∧
     length (tok_encode Demo.tok "2+2=") = 4%nat) ∧
  (∃ out,
     (RLHFSelfDataset.__getitem__ Demo.W Demo.zero_self_dataset 0).1 = Ok out ∧
     out !! "raw_prompt_ids" = Some (ids_value (tok_encode Demo.tok "#q?")) ∧
     length (tok_encode Demo.tok "#q?") = 3%nat) ∧
  (∃ out,
     RLHFDataset.__getitem__ Demo.W Demo.zero_right_dataset 0 = Ok out ∧
     out !! "raw_prompt_ids" = Some (ids_value [])) ∧
  is_ok (RLHFDataset.__getitem__ Demo.W Demo.zero_error_dataset 0) = false.
Proof.
  split; [reflexivity|]. split; [reflexivity|]. split; [|split; [|split]].
  - destruct (result_lookup_inv (RLHFDataset.__getitem__ Demo.W Demo.zero_dataset 0)
                "raw_prompt_ids" (ids_value [50; 43; 50; 61]))
      as (out & Hget & Hraw); [vm_compute; reflexivity|].
    exists out. split; [exact Hget|]. split; [exact Hraw | reflexivity].
  - destruct (result_lookup_inv
                (RLHFSelfDataset.__getitem__ Demo.W Demo.zero_self_dataset 0).1
                "raw_prompt_ids" (ids_value [35; 113; 63]))
      as (out & Hget & Hraw); [vm_compute; reflexivity|].
    exists out. split; [exact Hget|]. split; [exact Hraw | reflexivity].
  - destruct (result_lookup_inv (RLHFDataset.__getitem__ Demo.W Demo.zero_right_dataset 0)
                "raw_prompt_ids" (ids_value []))
      as (out & Hget & Hraw); [vm_compute; reflexivity|].
    exists out. split; [exact Hget | exact Hraw].
  - vm_compute. reflexivity.
Qed.

(** ** Pixel bounds that are [None] *)









(** ** Binary64 rounding

    [scaled_size] divides, takes a square root and multiplies in binary64.
    Each of these rounds to nearest, so each result is off by at most the
    fraction [u] of the exact value: the first lemmas read that off
    [binary_round_aux]. *)





Lemma pow2_pos (n : Z) : 0 ≤ n → 0 < 2 ^ n.
Proof. intros. apply Z.pow_pos_nonneg; lia. Qed.










(** ** The value of a binary64 number *)



Lemma bpow_pos (e : Z) : (0 < bpow e)%R.
Proof. apply powerRZ_lt. lra. Qed.

Lemma bpow_add (a b : Z) : bpow (a + b) = (bpow a * bpow b)%R.
Proof. apply powerRZ_add. lra. Qed.

Lemma bpow_IZR (k : Z) : 0 ≤ k → bpow k = IZR (2 ^ k).
Proof.
  intros Hk. unfold bpow. rewrite <- (Z2Nat.id k) by done.
  rewrite <- pow_powerRZ, pow_IZR. done.
Qed.

Lemma bpow_le (a b : Z) : a ≤ b → (bpow a <= bpow b)%R.
Proof.
  intros Hab. replace b with (a + (b - a)) by lia. rewrite bpow_add.
  rewrite (bpow_IZR (b - a)) by lia.
  assert (1 <= IZR (2 ^ (b - a)))%R as H.
  { apply IZR_le. pose proof (pow2_pos (b - a)). lia. }
  pose proof (bpow_pos a). nra.
Qed.




(** The relative error of one rounding. *)



(** ** The operations of the resize factor *)



Lemma Zdigits2_pos (p : positive) : Zdigits2 (Z.pos p) = Z.pos (digits2_pos p).
Proof. done. Qed.









(** ** The error of the whole chain *)









(** ** What [process_image] returns *)


(** An image within both bounds is not resized. *)
Lemma process_image_within_bounds (W : world) (im : ImageObject) (a b : Z) :
  a ≤ width im * height im ≤ b →
  process_image W (PImage im) (Some a) (Some b) =
    Ok (if String.eqb (mode im) "RGB" then im else Image_convert W im "RGB").
Proof.
  intros [Ha Hb]. unfold process_image, mbind, result_bind. cbn [open_image rbind int_gt].
  destruct (Z.ltb_spec b (width im * height im)); [lia|]. cbn [rbind int_lt].
  destruct (Z.ltb_spec (width im * height im) a); [lia|]. done.
Qed.









(** ** Construction from the JSON annotations *)

Lemma new_ele_record (W : world) (image_root : option string) (ele : pyval) (record : dict) :
  RLHFSelfDataset.new_ele W image_root ele = Ok record →
  entry_record W image_root ele record.
Proof.
  unfold RLHFSelfDataset.new_ele, mbind, result_bind.
  destruct (subscript ele "img_id") as [img_id|] eqn:H1; [cbn [rbind]|discriminate].
  destruct img_id as [| | | |img_id| | | | |]; try discriminate. cbn [str_add rbind].
  destruct (os_path_join image_root _) as [path|] eqn:Hpath; [cbn [rbind]|discriminate].
  destruct (subscript ele "question") as [question|] eqn:H2; [cbn [rbind]|discriminate].
  destruct question as [| | | |question| | | | |]; try discriminate. cbn [str_add rbind].
  destruct (subscript ele "answer") as [answer|] eqn:H3; [cbn [rbind]|discriminate].
  destruct (subscript ele "location") as [location|] eqn:H4; [cbn [rbind]|discriminate].
  intros [= <-]. exists img_id, question, answer, location, path.
  split_and!; try done;
    try (intros k ? ? ? ?);
    repeat (rewrite lookup_insert_ne by done);
    first [apply lookup_insert_eq | apply lookup_empty].
Qed.

Lemma new_ele_total (W : world) (root : string) (ele : pyval) :
  well_formed_entry ele → ∃ record, RLHFSelfDataset.new_ele W (Some root) ele = Ok record.
Proof.
  intros (img_id & question & answer & location & H1 & H2 & H3 & H4).
  unfold RLHFSelfDataset.new_ele, mbind, result_bind. rewrite H1, H2, H3, H4.
  cbn. eauto.
Qed.

Lemma rmap_list_total {A B} (f : A → result B) (l : list A) :
  Forall (λ a, ∃ b, f a = Ok b) l → ∃ l', rmap_list f l = Ok l'.
Proof.
  induction 1 as [|a l [b Hb] _ [l' Hl']]; [by exists []|].
  exists (b :: l'). cbn. by rewrite Hb, Hl'.
Qed.

(** C8. Construction of [RLHFSelfDataset] reads the annotation array and
    turns every entry, in order, into one record: [images] is the one-path
    list with the image root joined to [img_id + "_origin.png"], [problem]
    is ["<image>"] followed by the question, [answer] is [str] of the
    entry's answer, [location] is the entry's location, and there is no
    other field.  No entry is dropped: the length of the dataset is the
    number of entries.  With an image root and a readable template (or
    none), entries that have the four fields, with string [img_id] and
    [question], always construct. *)
Theorem C8_json_records (W : world) (data_path : string) (args : config)
    (image_root : option string) :
  (∀ self,
     RLHFSelfDataset.__init__ W data_path args image_root = Ok self →
     ∃ path data_split annotations entries,
       split_locator data_path = Ok (path, data_split) ∧
       json_load W path = Ok annotations ∧
       py_iter annotations = Ok entries ∧
       RLHFSelfDataset.__len__ self = length entries ∧
       Forall2 (entry_record W image_root) entries (RLHFSelfDataset.dataset self)) ∧
  (∀ path data_split annotations entries root,
     split_locator data_path = Ok (path, data_split) →
     json_load W path = Ok annotations →
     py_iter annotations = Ok entries →
     Forall well_formed_entry entries →
     image_root = Some root →
     is_ok (load_format_prompt W (format_prompt args)) = true →
     ∃ self, RLHFSelfDataset.__init__ W data_path args image_root = Ok self).
Proof.
  split.
  - intros self. unfold RLHFSelfDataset.__init__, mbind, result_bind.
    destruct (split_locator data_path) as [[path data_split]|] eqn:Hloc;
      [cbn [rbind]|discriminate].
    destruct (json_load W path) as [annotations|] eqn:Hjson; [cbn [rbind]|discriminate].
    destruct (py_iter annotations) as [entries|] eqn:Hiter; [cbn [rbind]|discriminate].
    destruct (rmap_list _ entries) as [records|] eqn:Hrecords; [cbn [rbind]|discriminate].
    destruct (load_format_prompt W _) as [text|]; [cbn [rbind]|discriminate].
    intros [= <-]. exists path, data_split, annotations, entries.
    apply rmap_list_Forall2 in Hrecords.
    split; [done|]. split; [done|]. split; [done|].
    unfold RLHFSelfDataset.__len__. cbn [RLHFSelfDataset.dataset]. split.
    + symmetry. by eapply Forall2_length.
    + eapply Forall2_impl; [exact Hrecords|]. intros ele record. apply new_ele_record.
  - intros path data_split annotations entries root Hloc Hjson Hiter Hwf -> Hfmt.
    unfold RLHFSelfDataset.__init__, mbind, result_bind.
    rewrite Hloc. cbn [rbind]. rewrite Hjson. cbn [rbind]. rewrite Hiter. cbn [rbind].
    destruct (rmap_list_total (RLHFSelfDataset.new_ele W (Some root)) entries) as [records ->].
    { eapply Forall_impl; [exact Hwf|]. intros ele. apply new_ele_total. }
    cbn [rbind]. destruct (load_format_prompt W _) as [text|]; [|discriminate].
    cbn [rbind]. eauto.
Qed.

Lemma C8_json_records_witness :
  ∃ self record,
    RLHFSelfDataset.__init__ Demo.W "ann.json" Demo.image_cfg (Some "/data") = Ok self ∧
    RLHFSelfDataset.__len__ self = 1%nat ∧
    RLHFSelfDataset.dataset self = [record] ∧
    record !! "images" = Some (PList [PStr "/data/02438_origin.png"]) ∧
    record !! "problem" = Some (PStr "<image>q?") ∧
    record !! "answer" = Some (PStr "0") ∧
    record !! "location" = Some (PList [PInt 56; PInt 511; PInt 64; PInt 525]).
Proof.
  pose proof (C8_json_records Demo.W "ann.json" Demo.image_cfg (Some "/data")) as [Hrec Htotal].
  destruct (Htotal "ann.json" "train" Demo.annotations
              [PDict [("img_id", PStr "02438"); ("question", PStr "q?"); ("answer", PInt 0);
                      ("location", PList [PInt 56; PInt 511; PInt 64; PInt 525])]] "/data")
    as [self Hinit]; try reflexivity.
  { constructor; [|constructor].
    exists "02438", "q?", (PInt 0), (PList [PInt 56; PInt 511; PInt 64; PInt 525]).
    repeat split; reflexivity. }
  destruct (Hrec self Hinit)
    as (path & data_split & annotations & entries & Hloc & Hjson & Hiter & Hlen & Hall).
  vm_compute in Hloc. injection Hloc as <- <-.
  vm_compute in Hjson. injection Hjson as <-.
  vm_compute in Hiter. injection Hiter as <-.
  apply Forall2_cons_inv_l in Hall as (record & rest & Hentry & Hrest & Hds).
  apply Forall2_nil_inv_l in Hrest as ->.
  destruct Hentry as (img_id & question & answer & location & p &
                      H1 & H2 & H3 & H4 & Hp & Hi & Hq & Ha & Hl & _).
  vm_compute in H1. injection H1 as <-.
  vm_compute in H2. injection H2 as <-.
  vm_compute in H3. injection H3 as <-.
  vm_compute in H4. injection H4 as <-.
  vm_compute in Hp. injection Hp as <-.
  exists self, record. split; [exact Hinit|]. split; [exact Hlen|]. split; [exact Hds|].
  split; [exact Hi|]. split; [exact Hq|]. split; [exact Ha|]. exact Hl.
Defined.

(** ** Filtering at construction *)

Lemma rfilter_filter {A} (keep : A → result bool) (l l' : list A) :
  rfilter keep l = Ok l' →
  Forall (λ a, ∃ b, keep a = Ok b) l ∧
  l' = List.filter (λ a, match keep a with Ok b => b | Raise _ => false end) l.
Proof.
  revert l'. induction l as [|a l IH]; intros l'; cbn [rfilter List.filter].
  - intros [= <-]. by split.
  - unfold mbind, result_bind.
    destruct (keep a) as [b|] eqn:Hb; [cbn [rbind]|discriminate].
    destruct (rfilter keep l) as [rest|]; [cbn [rbind]|discriminate].
    destruct (IH rest eq_refl) as [Hall ->].
    intros [= <-]. split; [constructor; eauto|]. by destruct b.
Qed.

Lemma within_budget_spec (W : world) (self : config) (example : dict) (msgs : list message) :
  RLHFDataset._build_messages W self example = Ok msgs →
  within_budget W self example = true ↔
  Z.of_nat (py_len (RLHFDataset.processing_class_template self msgs)) ≤ max_prompt_length self.
Proof.
  intros Hmsgs. unfold within_budget, RLHFDataset._filter_overlong_prompts.
  rewrite Hmsgs. cbn [mbind result_bind rbind]. apply Z.leb_le.
Qed.

(** What the filter does.  With [filter_overlong_prompts] set,
    [RLHFDataset.__init__] keeps, in order, the loaded records for which
    [len] of the chat template applied with a generation prompt is at
    most [max_prompt_length], and drops the others.  Without a processor
    that is the number of token ids of the rendered prompt; with a
    processor it is the number of characters of the rendered prompt.
    [__getitem__] hands the record at the index to the transformer,
    whatever its length. *)
Lemma filter_at_construction (W : world) (data_path : string) (args : config)
    (self : RLHFDataset.t) :
  filter_overlong_prompts args = true →
  RLHFDataset.__init__ W data_path args = Ok self →
  ∃ loaded text,
    RLHFDataset.load_records W data_path = Ok loaded ∧
    load_format_prompt W (format_prompt args) = Ok text ∧
    RLHFDataset.cfg self = with_format_prompt args text ∧
    RLHFDataset.dataset self = List.filter (within_budget W (RLHFDataset.cfg self)) loaded ∧
    (∀ example, example ∈ loaded →
       ∃ msgs,
         RLHFDataset._build_messages W (RLHFDataset.cfg self) example = Ok msgs ∧
         (example ∈ RLHFDataset.dataset self ↔
          Z.of_nat (py_len (RLHFDataset.processing_class_template (RLHFDataset.cfg self) msgs))
            ≤ max_prompt_length (RLHFDataset.cfg self))) ∧
    (cfg_processor args = None →
     ∀ msgs, py_len (RLHFDataset.processing_class_template (RLHFDataset.cfg self) msgs)
             = length (mi_input_ids
                         (tok_call (cfg_tokenizer args)
                            (tok_apply_chat_template (cfg_tokenizer args) msgs)))) ∧
    (∀ p, cfg_processor args = Some p →
     ∀ msgs, py_len (RLHFDataset.processing_class_template (RLHFDataset.cfg self) msgs)
             = String.length (proc_apply_chat_template p msgs)) ∧
    (∀ index i example,
       py_index_pos (RLHFDataset.dataset self) index = Ok i →
       RLHFDataset.dataset self !! i = Some example →
       RLHFDataset.__getitem__ W self index =
         (RLHFDataset.transform W (RLHFDataset.cfg self) example).1).
Proof.
  intros Hflag. unfold RLHFDataset.__init__, mbind, result_bind.
  destruct (RLHFDataset.load_records W data_path) as [loaded|]; [cbn [rbind]|discriminate].
  destruct (load_format_prompt W (format_prompt args)) as [text|] eqn:Htext;
    [cbn [rbind]|discriminate].
  change (filter_overlong_prompts (with_format_prompt args text))
    with (filter_overlong_prompts args).
  rewrite Hflag.
  destruct (rfilter _ loaded) as [kept|] eqn:Hkept; [cbn [rbind]|discriminate].
  intros [= <-]. cbn [RLHFDataset.cfg RLHFDataset.dataset].
  apply rfilter_filter in Hkept as [Hall ->].
  exists loaded, text. split; [done|]. split; [done|]. split; [done|]. split; [done|].
  split; [|split; [|split]].
  - intros example Hin.
    rewrite Forall_forall in Hall. destruct (Hall example Hin) as [b Hb].
    unfold RLHFDataset._filter_overlong_prompts, mbind, result_bind in Hb.
    destruct (RLHFDataset._build_messages W (with_format_prompt args text) example)
      as [msgs|] eqn:Hmsgs; [|discriminate].
    exists msgs. split; [done|].
    rewrite <- (within_budget_spec W _ example msgs Hmsgs).
    rewrite list_elem_of_In, List.filter_In, <- list_elem_of_In.
    unfold within_budget. tauto.
  - intros Hnone msgs. unfold RLHFDataset.processing_class_template.
    cbn [cfg_processor cfg_tokenizer with_format_prompt]. by rewrite Hnone.
  - intros p Hp msgs. unfold RLHFDataset.processing_class_template.
    cbn [cfg_processor with_format_prompt]. by rewrite Hp.
  - intros index i example Hi Hex. unfold RLHFDataset.__getitem__.
    cbn [RLHFDataset.cfg RLHFDataset.dataset]. rewrite Hi. cbn [mbind result_bind rbind].
    by rewrite Hex.
Qed.

Lemma filter_demo_records (c : config) (self : RLHFDataset.t) (keep_text keep_long : bool) :
  filter_overlong_prompts c = true →
  format_prompt c = None →
  RLHFDataset.__init__ Demo.W "train.parquet" c = Ok self →
  within_budget Demo.W (with_format_prompt c None) Demo.text_record = keep_text →
  within_budget Demo.W (with_format_prompt c None) Demo.long_record = keep_long →
  RLHFDataset.dataset self =
    (if keep_text then [Demo.text_record] else []) ++
    (if keep_long then [Demo.long_record] else []).
Proof.
  intros Hflag Hfmt Hinit Ht Hl.
  destruct (filter_at_construction Demo.W "train.parquet" c self Hflag Hinit)
    as (loaded & text & Hload & Htext & Hcfg & Hds & _).
  change (Ok Demo.loaded_records = Ok loaded) in Hload. injection Hload as <-.
  rewrite Hfmt in Htext. change (Ok None = Ok text) in Htext. injection Htext as <-.
  rewrite Hds, Hcfg. unfold Demo.loaded_records. cbn [List.filter].
  rewrite Ht, Hl. by destruct keep_text, keep_long.
Qed.

(** C6.  With a processor configured, the filter does not count tokens:
    line 157 calls [apply_chat_template] without [tokenize], a processor
    then returns the rendered text, and [len] counts its characters.
    Here a token is two characters and the budget is 8: the prompt
    "what is 12*12?" encodes to 7 ids and renders to 14 characters, and
    construction drops its record.  With the tokenizer alone, the sibling
    path, the rendered prompt is tokenized and both records are kept. *)
Theorem C6_filter_counts_characters :
  RLHFDataset.load_records Demo.W "train.parquet" = Ok [Demo.text_record; Demo.long_record] ∧
  RLHFDataset._build_messages Demo.W (Demo.pair_cfg (Some Demo.pair_proc)) Demo.long_record
    = Ok [mk_message "user" (Plain (PStr "what is 12*12?"))] ∧
  length (mi_input_ids
            (tok_call Demo.pair_tok
               (tok_apply_chat_template Demo.pair_tok
                  [mk_message "user" (Plain (PStr "what is 12*12?"))]))) = 7%nat ∧
  String.length (proc_apply_chat_template Demo.pair_proc
                   [mk_message "user" (Plain (PStr "what is 12*12?"))]) = 14%nat ∧
  max_prompt_length (Demo.pair_cfg (Some Demo.pair_proc)) = 8 ∧
  (∃ self,
     RLHFDataset.__init__ Demo.W "train.parquet" (Demo.pair_cfg (Some Demo.pair_proc)) = Ok self ∧
     RLHFDataset.dataset self = [Demo.text_record]) ∧
  (∃ self,
     RLHFDataset.__init__ Demo.W "train.parquet" (Demo.pair_cfg None) = Ok self ∧
     RLHFDataset.dataset self = [Demo.text_record; Demo.long_record]).
Proof.
  split; [reflexivity|]. split; [vm_compute; reflexivity|].
  split; [vm_compute; reflexivity|]. split; [vm_compute; reflexivity|].
  split; [reflexivity|]. split.
  - destruct (is_ok_inv (RLHFDataset.__init__ Demo.W "train.parquet"
                           (Demo.pair_cfg (Some Demo.pair_proc))))
      as [self Hinit]; [vm_compute; reflexivity|].
    exists self. split; [exact Hinit|].
    apply (filter_demo_records (Demo.pair_cfg (Some Demo.pair_proc)) self true false
             eq_refl eq_refl Hinit); vm_compute; reflexivity.
  - destruct (is_ok_inv (RLHFDataset.__init__ Demo.W "train.parquet" (Demo.pair_cfg None)))
      as [self Hinit]; [vm_compute; reflexivity|].
    exists self. split; [exact Hinit|].
    apply (filter_demo_records (Demo.pair_cfg None) self true true
             eq_refl eq_refl Hinit); vm_compute; reflexivity.
Qed.

(** ** A second access to the same index of [RLHFSelfDataset] *)

Lemma py_index_pos_lt {A} (l : list A) (index : Z) (i : nat) :
  py_index_pos l index = Ok i → (i < length l)%nat.
Proof.
  unfold py_index_pos.
  destruct (Z.leb_spec 0 index), (Z.ltb_spec index (Z.of_nat (length l)));
    cbn [andb]; try (intros [= <-]; lia);
    destruct (Z.leb_spec (- Z.of_nat (length l)) index), (Z.ltb_spec index 0);
    cbn [andb]; try discriminate; intros [= <-]; lia.
Qed.

Lemma py_index_pos_insert {A} (l : list A) (index : Z) (i : nat) (x : A) :
  py_index_pos (<[i := x]> l) index = py_index_pos l index.
Proof. unfold py_index_pos. by rewrite length_insert. Qed.

(** The dict that a successful access leaves in the list has no answer
    field, so the next access to that index cannot pop it. *)
Lemma self_getitem_twice (W : world) (self self' self'' : RLHFSelfDataset.t)
    (index : Z) (out out' : dict) :
  reserved_keys_free (RLHFSelfDataset.cfg self) →
  RLHFSelfDataset.__getitem__ W self index = (Ok out, self') →
  RLHFSelfDataset.__getitem__ W self' index ≠ (Ok out', self'').
Proof.
  intros Hfree (i & example & Hi & Hex & Ht & ->)%self_getitem_inv
         (i' & example' & Hi' & Hex' & Ht' & _)%self_getitem_inv.
  cbn [RLHFSelfDataset.cfg RLHFSelfDataset.dataset] in *.
  rewrite py_index_pos_insert in Hi'. assert (i' = i) as -> by congruence.
  rewrite list_lookup_insert_eq in Hex' by (by eapply py_index_pos_lt).
  injection Hex' as <-.
  destruct (transform_frame W _ example out Hfree Ht) as (_ & (ans & _ & _ & Hgone) & _).
  destruct (transform_frame W _ out out' Hfree Ht') as (_ & (ans' & Hthere & _) & _).
  congruence.
Qed.

(** C5 fails on [RLHFSelfDataset]: the first access to index 0 returns
    an example and leaves the stored record without its ["answer"] and
    ["images"] fields; the second access to index 0 raises
    [KeyError("answer")]. *)
Lemma C5_self_dataset_second_access :
  let first := RLHFSelfDataset.__getitem__ Demo.W Demo.self_dataset 0 in
  let second := RLHFSelfDataset.__getitem__ Demo.W first.2 0 in
  is_ok first.1 = true ∧
  error_of second.1 = Some (KeyError "answer") ∧
  stored_field Demo.self_dataset 0 "answer" = Some (PStr "0") ∧
  stored_field first.2 0 "answer" = None ∧
  stored_field first.2 0 "images" = None ∧
  stored_field first.2 0 "ground_truth" = Some (PStr "0").
Proof. repeat split; vm_compute; reflexivity. Qed.

(** * Further properties of the code *)

(** ** The dataset locator (lines 111-123 and 293-296) *)

Lemma prefix_at_cons (c : ascii) (s : string) :
  String.prefix "@" (String c s) = true ↔ c = "@"%char.
Proof.
  split.
  - intros H. by apply prefix_cons_inv in H as [<- _].
  - intros ->. simpl. destruct (ascii_dec "@" "@"); [apply prefix_nil | contradiction].
Qed.

Lemma split_from_at_count (s : string) :
  length (split_from "@" 0 s).2 = occurrences "@" s.
Proof.
  induction s as [|c s IH]; [done|].
  cbn [split_from occurrences String.length Nat.pred].
  destruct (String.prefix "@" (String c s));
    destruct (split_from "@" 0 s) as [seg segs]; cbn in *; lia.
Qed.

Lemma py_split_at_count (s : string) :
  length (py_split "@" s) = S (occurrences "@" s).
Proof.
  unfold py_split. pose proof (split_from_at_count s) as H.
  destruct (split_from "@" 0 s) as [seg segs]. cbn in *. lia.
Qed.

Lemma split_from_no_at (s : string) :
  occurrences "@" s = 0%nat → split_from "@" 0 s = (s, []).
Proof.
  induction s as [|c s IH]; [done|].
  cbn [split_from occurrences].
  destruct (String.prefix "@" (String c s)); [discriminate|].
  cbn. intros H. by rewrite (IH H).
Qed.

Lemma split_from_at_append (p t : string) :
  occurrences "@" p = 0%nat →
  split_from "@" 0 (p +:+ "@" +:+ t) =
    (p, (split_from "@" 0 t).1 :: (split_from "@" 0 t).2).
Proof.
  induction p as [|c p IH].
  - intros _. change ("" +:+ "@" +:+ t) with (String "@" t).
    cbn [split_from String.length Nat.pred].
    replace (String.prefix "@" (String "@" t)) with true
      by (symmetry; by apply prefix_at_cons).
    by destruct (split_from "@" 0 t).
  - cbn [occurrences]. intros Hocc.
    destruct (String.prefix "@" (String c p)) eqn:Hc; [discriminate|].
    change (String c p +:+ "@" +:+ t) with (String c (p +:+ "@" +:+ t)).
    cbn [split_from].
    replace (String.prefix "@" (String c (p +:+ "@" +:+ t))) with false.
    + rewrite (IH Hocc). done.
    + symmetry. apply not_true_is_false. rewrite prefix_at_cons.
      intros ->. by rewrite (proj2 (prefix_at_cons "@" p) eq_refl) in Hc.
Qed.

Lemma split_locator_parts (path data_split : string) :
  occurrences "@" path = 0%nat →
  occurrences "@" data_split = 0%nat →
  split_locator path = Ok (path, "train") ∧
  split_locator (path +:+ "@" +:+ data_split) = Ok (path, data_split).
Proof.
  intros Hp Hs. unfold split_locator, py_split. split.
  - by rewrite split_from_no_at.
  - by rewrite split_from_at_append, split_from_no_at.
Qed.

(** X1. A locator without ["@"] names the path and the split "train"; a
    locator [path@split], with no further ["@"], names that path and
    that split. *)
Theorem X1_split_locator (path data_split : string) :
  occurrences "@" path = 0%nat →
  occurrences "@" data_split = 0%nat →
  split_locator path = Ok (path, "train") ∧
  split_locator (path +:+ "@" +:+ data_split) = Ok (path, data_split).
Proof. apply split_locator_parts. Qed.

Lemma X1_split_locator_witness :
  split_locator "data/geometry3k" = Ok ("data/geometry3k", "train") ∧
  split_locator "hiyouga/geometry3k@test" = Ok ("hiyouga/geometry3k", "test").
Proof.
  pose proof (X1_split_locator "data/geometry3k" "x" eq_refl eq_refl) as [H1 _].
  pose proof (X1_split_locator "hiyouga/geometry3k" "test" eq_refl eq_refl) as [_ H2].
  split; [exact H1 | exact H2].
Defined.

Lemma split_locator_many (data_path : string) :
  (2 ≤ occurrences "@" data_path)%nat → split_locator data_path = Raise ValueError.
Proof.
  intros H. unfold split_locator. pose proof (py_split_at_count data_path) as Hlen.
  destruct (py_split "@" data_path) as [|a [|b [|c l]]]; cbn in Hlen; try lia. done.
Qed.

(** X2. A locator with two or more ["@"] does not unpack: both
    constructors raise [ValueError], before anything is loaded. *)
Theorem X2_locator_value_error (W : world) (data_path : string) (args : config)
    (image_root : option string) :
  (2 ≤ occurrences "@" data_path)%nat →
  RLHFDataset.__init__ W data_path args = Raise ValueError ∧
  RLHFSelfDataset.__init__ W data_path args image_root = Raise ValueError.
Proof.
  intros H%split_locator_many.
  unfold RLHFDataset.__init__, RLHFDataset.load_records, RLHFSelfDataset.__init__,
    mbind, result_bind.
  by rewrite H.
Qed.

Lemma X2_locator_value_error_witness :
  RLHFDataset.__init__ Demo.W "a@b@c" Demo.text_cfg = Raise ValueError ∧
  RLHFSelfDataset.__init__ Demo.W "a@b@c" Demo.text_cfg (Some "/data") = Raise ValueError.
Proof.
  apply X2_locator_value_error. vm_compute. lia.
Defined.

(** X3. For [path@split]: a directory is loaded as parquet under the
    split "train", whatever [split] says; otherwise a file is loaded the
    same way; only a locator that is neither is fetched under [split]. *)
Theorem X3_load_records (W : world) (path data_split : string) :
  occurrences "@" path = 0%nat →
  occurrences "@" data_split = 0%nat →
  RLHFDataset.load_records W (path +:+ "@" +:+ data_split) =
    if isdir W path then load_parquet_dir W path
    else if isfile W path then load_parquet_file W path
    else load_remote W path data_split.
Proof.
  intros Hp Hs. unfold RLHFDataset.load_records, mbind, result_bind.
  destruct (split_locator_parts path data_split Hp Hs) as [_ ->]. done.
Qed.

Lemma X3_load_records_witness :
  RLHFDataset.load_records Demo.W "train.parquet@validation" = Ok Demo.loaded_records.
Proof. exact (X3_load_records Demo.W "train.parquet" "validation" eq_refl eq_refl). Defined.

(** ** [_build_messages]: shape of the content list, and its errors *)

Lemma text_part_nonempty (seg : string) :
  Forall (λ p, p ≠ TextPart "") (text_part seg).
Proof. destruct seg; repeat constructor. discriminate. Qed.

Lemma later_parts_nonempty (segs : list string) :
  Forall (λ p, p ≠ TextPart "")
    (concat (map (λ seg, ImagePart :: text_part seg) segs)).
Proof.
  induction segs as [|seg segs IH]; [constructor|].
  cbn [map concat app]. constructor; [discriminate|].
  apply Forall_app. split; [apply text_part_nonempty | exact IH].
Qed.

Lemma later_parts_no_adjacent (segs : list string) :
  no_adjacent_text (concat (map (λ seg, ImagePart :: text_part seg) segs)).
Proof.
  induction segs as [|seg segs IH]; [done|].
  cbn [map concat app no_adjacent_text].
  destruct seg as [|c seg]; [exact IH|].
  cbn [text_part app no_adjacent_text].
  destruct segs as [|seg' segs]; [done|]. exact IH.
Qed.

Lemma interleave_shape (seg0 : string) (segs : list string) :
  Forall (λ p, p ≠ TextPart "") (interleave seg0 segs) ∧
  no_adjacent_text (interleave seg0 segs).
Proof.
  unfold interleave. split.
  - apply Forall_app. split; [apply text_part_nonempty | apply later_parts_nonempty].
  - pose proof (later_parts_no_adjacent segs) as H.
    destruct seg0 as [|c seg0]; [exact H|].
    cbn [text_part app no_adjacent_text].
    destruct segs as [|seg' segs]; [done|]. exact H.
Qed.

(** X4. Whatever [_build_messages] returns is one message of role
    "user"; a content list never holds an empty text part and never two
    text parts in a row. *)
Theorem X4_content_list_shape (W : world) (self : config) (example : dict)
    (msgs : list message) :
  RLHFDataset._build_messages W self example = Ok msgs →
  ∃ c, msgs = [mk_message "user" c] ∧
       ∀ l, c = Parts l → Forall (λ p, p ≠ TextPart "") l ∧ no_adjacent_text l.
Proof.
  unfold RLHFDataset._build_messages, mbind, result_bind.
  destruct (dict_get (prompt_key self) example) as [p|]; [cbn [rbind]|discriminate].
  destruct (bool_decide (is_Some (example !! image_key self))).
  - destruct (match truthy (format_prompt self) with
              | Some text => PStr (Template_render W text p)
              | None => p
              end) as [| | | |s| | | | |]; try discriminate.
    intros [= <-]. eexists. split; [reflexivity|]. intros l [= <-].
    destruct (py_split image_marker s) as [|seg0 segs] eqn:Hsplit.
    + pose proof (py_split_marker_count s) as Hlen. rewrite Hsplit in Hlen. discriminate.
    + rewrite fold_content_interleave. apply interleave_shape.
  - intros [= <-]. eexists. split; [reflexivity|]. discriminate.
Qed.

Lemma X4_content_list_shape_witness :
  ∃ l, RLHFDataset._build_messages Demo.W Demo.image_cfg Demo.image_record
         = Ok [mk_message "user" (Parts l)] ∧
       Forall (λ p, p ≠ TextPart "") l ∧ no_adjacent_text l.
Proof.
  destruct (X4_content_list_shape Demo.W Demo.image_cfg Demo.image_record
              [mk_message "user" (Parts [ImagePart; TextPart "q?"])])
    as (c & Hc & Hshape); [vm_compute; reflexivity|].
  injection Hc as <-.
  exists [ImagePart; TextPart "q?"]. split; [vm_compute; reflexivity|].
  by apply Hshape.
Defined.

Lemma build_messages_no_prompt (W : world) (self : config) (example : dict) :
  example !! prompt_key self = None →
  RLHFDataset._build_messages W self example = Raise (KeyError (prompt_key self)).
Proof. intros H. unfold RLHFDataset._build_messages, dict_get. by rewrite H. Qed.

Lemma self_dataset_insert_id (self : RLHFSelfDataset.t) (i : nat) (example : dict) :
  RLHFSelfDataset.dataset self !! i = Some example →
  RLHFSelfDataset.mk (RLHFSelfDataset.cfg self) (<[i := example]> (RLHFSelfDataset.dataset self))
    = self.
Proof. intros H. destruct self as [c ds]. cbn in *. by rewrite list_insert_id. Qed.

(** X5. A record without the prompt field: [_build_messages] and
    [_filter_overlong_prompts] raise [KeyError] of the prompt key, and so
    does [__getitem__] at its index, before anything else is done; in
    [RLHFSelfDataset] the stored records are left as they were. *)
Theorem X5_missing_prompt (W : world) (c : config) (ds : list dict) (index : Z)
    (i : nat) (example : dict) :
  py_index_pos ds index = Ok i →
  ds !! i = Some example →
  example !! prompt_key c = None →
  RLHFDataset._build_messages W c example = Raise (KeyError (prompt_key c)) ∧
  RLHFDataset._filter_overlong_prompts W c example = Raise (KeyError (prompt_key c)) ∧
  RLHFDataset.__getitem__ W (RLHFDataset.mk c ds) index = Raise (KeyError (prompt_key c)) ∧
  RLHFSelfDataset.__getitem__ W (RLHFSelfDataset.mk c ds) index
    = (Raise (KeyError (prompt_key c)), RLHFSelfDataset.mk c ds).
Proof.
  intros Hi Hex Hno. pose proof (build_messages_no_prompt W c example Hno) as Hb.
  split; [done|]. split; [|split].
  - unfold RLHFDataset._filter_overlong_prompts. by rewrite Hb.
  - unfold RLHFDataset.__getitem__. cbn [RLHFDataset.dataset RLHFDataset.cfg].
    rewrite Hi. cbn [mbind result_bind rbind]. by rewrite Hex, transform_unfold, Hb.
  - unfold RLHFSelfDataset.__getitem__, RLHFSelfDataset.transform.
    cbn [RLHFSelfDataset.dataset RLHFSelfDataset.cfg].
    rewrite Hi, Hex, transform_unfold, Hb. by rewrite list_insert_id.
Qed.

Lemma X5_missing_prompt_witness :
  RLHFDataset.__getitem__ Demo.W (RLHFDataset.mk Demo.text_cfg [Demo.image_record]) 0
    = Raise (KeyError "prompt").
Proof.
  apply (X5_missing_prompt Demo.W Demo.text_cfg [Demo.image_record] 0 0 Demo.image_record).
  - reflexivity.
  - reflexivity.
  - vm_compute; reflexivity.
Defined.

(** X6. The type of the prompt, with no template (none given, or an
    empty template text).  A record with an image field has its prompt
    split: a string prompt gives a message; a byte string, a tensor or a
    PIL image raises [TypeError], their [split] taking no [str]; any other
    value has no [split] and raises [AttributeError].  A record without an
    image field passes the value on as it is, whatever its type. *)
Theorem X6_prompt_type (W : world) (self : config) (example : dict) (p : pyval) :
  example !! prompt_key self = Some p →
  format_prompt self = None ∨ format_prompt self = Some "" →
  (is_Some (example !! image_key self) →
     match p with
     | PStr s => is_ok (RLHFDataset._build_messages W self example) = true
     | PBytes _ | PTensor _ | PImage _ =>
         RLHFDataset._build_messages W self example = Raise TypeError
     | _ => RLHFDataset._build_messages W self example = Raise AttributeError
     end) ∧
  (example !! image_key self = None →
     RLHFDataset._build_messages W self example = Ok [mk_message "user" (Plain p)]).
Proof.
  intros Hp Hnone. unfold RLHFDataset._build_messages, dict_get. rewrite Hp.
  cbn [mbind result_bind rbind].
  assert (truthy (format_prompt self) = None) as -> by (by destruct Hnone as [-> | ->]).
  split.
  - intros Himg. rewrite bool_decide_eq_true_2 by done. by destruct p.
  - intros Hno. rewrite bool_decide_eq_false_2; [done|]. rewrite Hno. by intros [? ?].
Qed.

Lemma X6_prompt_type_witness :
  RLHFDataset._build_messages Demo.W Demo.image_cfg
    (<["problem" := PBytes []]> Demo.image_record) = Raise TypeError.
Proof.
  apply (X6_prompt_type Demo.W Demo.image_cfg
           (<["problem" := PBytes []]> Demo.image_record) (PBytes [])).
  - vm_compute; reflexivity.
  - left. reflexivity.
  - exists (PList [PStr "/data/02438_origin.png"]). vm_compute; reflexivity.
Defined.
(** ** Construction of [RLHFDataset] over a table without the prompt column *)

(** X7. The loaded table has no column of the configured prompt key, so
    that its first record lacks the field.  With [filter_overlong_prompts]
    set, construction raises [KeyError] of the prompt key.  With it
    unset, construction succeeds and keeps every loaded record, and the
    access to the first record raises that [KeyError]. *)
Theorem X7_missing_prompt_column (W : world) (data_path : string) (args : config)
    (text : option string) (first : dict) (rest : list dict) :
  RLHFDataset.load_records W data_path = Ok (first :: rest) →
  load_format_prompt W (format_prompt args) = Ok text →
  first !! prompt_key args = None →
  (filter_overlong_prompts args = true →
     RLHFDataset.__init__ W data_path args = Raise (KeyError (prompt_key args))) ∧
  (filter_overlong_prompts args = false →
     RLHFDataset.__init__ W data_path args =
       Ok (RLHFDataset.mk (with_format_prompt args text) (first :: rest)) ∧
     RLHFDataset.__getitem__ W
       (RLHFDataset.mk (with_format_prompt args text) (first :: rest)) 0
       = Raise (KeyError (prompt_key args))).
Proof.
  intros Hload Htext Hbad.
  pose proof (build_messages_no_prompt W (with_format_prompt args text) first Hbad) as Hb.
  cbn [prompt_key with_format_prompt] in Hb.
  unfold RLHFDataset.__init__, mbind, result_bind. rewrite Hload, Htext. cbn [rbind].
  change (filter_overlong_prompts (with_format_prompt args text))
    with (filter_overlong_prompts args).
  split; intros ->.
  - cbn [rfilter]. unfold RLHFDataset._filter_overlong_prompts. by rewrite Hb.
  - split; [done|]. unfold RLHFDataset.__getitem__.
    cbn [RLHFDataset.dataset RLHFDataset.cfg]. unfold py_index_pos. cbn [length].
    rewrite Z.leb_refl. destruct (Z.ltb_spec 0 (Z.of_nat (S (length rest)))); [|lia].
    cbn [andb mbind result_bind rbind].
    change ((first :: rest) !! Z.to_nat 0) with (Some first). cbv beta iota.
    by rewrite transform_unfold, Hb.
Qed.

Lemma X7_missing_prompt_column_witness :
  RLHFDataset.__init__ Demo.W "train.parquet" (Demo.config_with None "question" 8 "error" None)
    = Raise (KeyError "question").
Proof.
  refine (proj1 (X7_missing_prompt_column Demo.W "train.parquet"
            (Demo.config_with None "question" 8 "error" None) None
            Demo.text_record [Demo.long_record] _ _ _) _).
  - reflexivity.
  - reflexivity.
  - vm_compute; reflexivity.
  - reflexivity.
Defined.

(** ** [__getitem__]: the index *)

Lemma py_index_pos_out_of_range {A} (l : list A) (index : Z) :
  index < - Z.of_nat (length l) ∨ Z.of_nat (length l) ≤ index →
  py_index_pos l index = Raise IndexError.
Proof.
  intros H. unfold py_index_pos.
  destruct (Z.leb_spec 0 index), (Z.ltb_spec index (Z.of_nat (length l)));
    cbn [andb]; try lia;
    destruct (Z.leb_spec (- Z.of_nat (length l)) index), (Z.ltb_spec index 0);
    cbn [andb]; try lia; reflexivity.
Qed.

Lemma py_index_pos_negative {A} (l : list A) (index : Z) :
  - Z.of_nat (length l) ≤ index < 0 →
  py_index_pos l index = py_index_pos l (Z.of_nat (length l) + index).
Proof.
  intros H. unfold py_index_pos.
  destruct (Z.leb_spec 0 index); [lia|]. cbn [andb].
  destruct (Z.leb_spec (- Z.of_nat (length l)) index); [|lia].
  destruct (Z.ltb_spec index 0); [|lia]. cbn [andb].
  destruct (Z.leb_spec 0 (Z.of_nat (length l) + index)); [|lia].
  destruct (Z.ltb_spec (Z.of_nat (length l) + index) (Z.of_nat (length l))); [|lia].
  reflexivity.
Qed.

(** X8. With [n] records: an index below [-n] or from [n] on raises
    [IndexError], in [RLHFSelfDataset] without touching the records; an
    index [-k], [1 <= k <= n], is the access to index [n - k]. *)
Theorem X8_index (W : world) (c : config) (ds : list dict) (index : Z) :
  (index < - Z.of_nat (length ds) ∨ Z.of_nat (length ds) ≤ index →
     RLHFDataset.__getitem__ W (RLHFDataset.mk c ds) index = Raise IndexError ∧
     RLHFSelfDataset.__getitem__ W (RLHFSelfDataset.mk c ds) index
       = (Raise IndexError, RLHFSelfDataset.mk c ds)) ∧
  (- Z.of_nat (length ds) ≤ index < 0 →
     RLHFDataset.__getitem__ W (RLHFDataset.mk c ds) index
       = RLHFDataset.__getitem__ W (RLHFDataset.mk c ds) (Z.of_nat (length ds) + index) ∧
     RLHFSelfDataset.__getitem__ W (RLHFSelfDataset.mk c ds) index
       = RLHFSelfDataset.__getitem__ W (RLHFSelfDataset.mk c ds)
           (Z.of_nat (length ds) + index)).
Proof.
  split.
  - intros H%py_index_pos_out_of_range.
    unfold RLHFDataset.__getitem__, RLHFSelfDataset.__getitem__.
    cbn [RLHFDataset.dataset RLHFSelfDataset.dataset]. by rewrite H.
  - intros H%py_index_pos_negative.
    unfold RLHFDataset.__getitem__, RLHFSelfDataset.__getitem__.
    cbn [RLHFDataset.dataset RLHFSelfDataset.dataset]. by rewrite H.
Qed.

Lemma X8_index_witness :
  RLHFDataset.__getitem__ Demo.W Demo.text_dataset 1 = Raise IndexError ∧
  RLHFDataset.__getitem__ Demo.W Demo.text_dataset (-1)
    = RLHFDataset.__getitem__ Demo.W Demo.text_dataset 0.
Proof.
  destruct (X8_index Demo.W Demo.text_cfg [Demo.text_record] 1) as [Hout _].
  destruct (X8_index Demo.W Demo.text_cfg [Demo.text_record] (-1)) as [_ Hneg].
  split.
  - apply Hout. right. cbn. lia.
  - apply Hneg. cbn. lia.
Defined.

(** ** [__getitem__]: failures on the image path *)

Lemma encode_example_no_processor (W : world) (c : config) (msgs : list message)
    (example : dict) :
  cfg_processor c = None →
  is_Some (example !! image_key c) →
  RLHFDataset.encode_example W c msgs example = (Raise AttributeError, example).
Proof.
  intros Hp Himg.
  unfold RLHFDataset.encode_example, mbind, action_bind, dict_contains, lift,
    RLHFDataset.the_processor.
  rewrite bool_decide_eq_true_2 by done. by rewrite Hp.
Qed.

(** X9. A record with an image field under a configuration without a
    processor: [__getitem__] raises [AttributeError] once the messages
    are built, before the image field is popped, so that
    [RLHFSelfDataset] keeps its records as they were. *)
Theorem X9_image_without_processor (W : world) (c : config) (ds : list dict)
    (index : Z) (i : nat) (example : dict) (msgs : list message) :
  py_index_pos ds index = Ok i →
  ds !! i = Some example →
  RLHFDataset._build_messages W c example = Ok msgs →
  cfg_processor c = None →
  is_Some (example !! image_key c) →
  RLHFDataset.__getitem__ W (RLHFDataset.mk c ds) index = Raise AttributeError ∧
  RLHFSelfDataset.__getitem__ W (RLHFSelfDataset.mk c ds) index
    = (Raise AttributeError, RLHFSelfDataset.mk c ds).
Proof.
  intros Hi Hex Hmsgs Hp Himg.
  assert (RLHFDataset.transform W c example = (Raise AttributeError, example)) as Ht.
  { by rewrite transform_unfold, Hmsgs, encode_example_no_processor. }
  unfold RLHFDataset.__getitem__, RLHFSelfDataset.__getitem__, RLHFSelfDataset.transform.
  cbn [RLHFDataset.dataset RLHFDataset.cfg RLHFSelfDataset.dataset RLHFSelfDataset.cfg].
  rewrite Hi. cbn [mbind result_bind rbind]. rewrite Hex, Ht.
  by rewrite list_insert_id.
Qed.

Lemma X9_image_without_processor_witness :
  RLHFDataset.__getitem__ Demo.W
    (RLHFDataset.mk (Demo.config_with None "problem" 8 "left" (Some 16)) [Demo.image_record]) 0
  = Raise AttributeError.
Proof.
  refine (proj1 (X9_image_without_processor Demo.W
            (Demo.config_with None "problem" 8 "left" (Some 16)) [Demo.image_record] 0 0
            Demo.image_record [mk_message "user" (Parts [ImagePart; TextPart "q?"])]
            _ _ _ _ _)).
  - reflexivity.
  - reflexivity.
  - vm_compute; reflexivity.
  - reflexivity.
  - exists (PList [PStr "/data/02438_origin.png"]). vm_compute; reflexivity.
Defined.

Lemma encode_example_images_fail (W : world) (c : config) (msgs : list message)
    (example : dict) (p : processor) (raw : pyval) (items : list pyval) (e : exn) :
  cfg_processor c = Some p →
  example !! image_key c = Some raw →
  py_iter raw = Ok items →
  rmap_list (λ image, process_image W image (min_pixels c) (max_pixels c)) items = Raise e →
  RLHFDataset.encode_example W c msgs example = (Raise e, delete (image_key c) example).
Proof.
  intros Hp Himg Hiter Hfail.
  unfold RLHFDataset.encode_example, mbind, action_bind, dict_contains, lift,
    RLHFDataset.the_processor, dict_pop.
  rewrite bool_decide_eq_true_2 by eauto. by rewrite Hp, Himg, Hiter, Hfail.
Qed.

Lemma encode_example_images_ok (W : world) (c : config) (msgs : list message)
    (example : dict) (p : processor) (raw : pyval) (items : list pyval)
    (images : list ImageObject) :
  cfg_processor c = Some p →
  example !! image_key c = Some raw →
  py_iter raw = Ok items →
  rmap_list (λ image, process_image W image (min_pixels c) (max_pixels c)) items = Ok images →
  RLHFDataset.encode_example W c msgs example =
    (Ok (proc_apply_chat_template p msgs,
         proc_call p images (proc_apply_chat_template p msgs)),
     <["multi_modal_data" := PDict [("image", raw)]]> (delete (image_key c) example)).
Proof.
  intros Hp Himg Hiter Hok.
  unfold RLHFDataset.encode_example, mbind, action_bind, dict_contains, lift,
    RLHFDataset.the_processor, dict_pop, dict_set, mret, action_ret.
  rewrite bool_decide_eq_true_2 by eauto. by rewrite Hp, Himg, Hiter, Hok.
Qed.

(** X10. In [RLHFSelfDataset], an access that fails after the image
    field was popped still changes the stored record.  If an image fails
    in [process_image], the record is left without its image field.  If
    the images pass and padding or the truncation of [raw_prompt_ids]
    raises, the record is left without its image field and with
    ["multi_modal_data"] added. *)
Theorem X10_failed_access_changes_record (W : world) (c : config) (ds : list dict)
    (index : Z) (i : nat) (example : dict) (msgs : list message) (p : processor)
    (raw : pyval) (items : list pyval) (e : exn) :
  py_index_pos ds index = Ok i →
  ds !! i = Some example →
  RLHFDataset._build_messages W c example = Ok msgs →
  cfg_processor c = Some p →
  example !! image_key c = Some raw →
  py_iter raw = Ok items →
  (rmap_list (λ image, process_image W image (min_pixels c) (max_pixels c)) items = Raise e →
     RLHFSelfDataset.__getitem__ W (RLHFSelfDataset.mk c ds) index =
       (Raise e, RLHFSelfDataset.mk c (<[i := delete (image_key c) example]> ds))) ∧
  (∀ images,
     rmap_list (λ image, process_image W image (min_pixels c) (max_pixels c)) items
       = Ok images →
     pad_stage W c (proc_call p images (proc_apply_chat_template p msgs)) = Raise e ∨
     (is_ok (pad_stage W c (proc_call p images (proc_apply_chat_template p msgs))) = true ∧
      raw_stage c (proc_apply_chat_template p msgs) = Raise e) →
     RLHFSelfDataset.__getitem__ W (RLHFSelfDataset.mk c ds) index =
       (Raise e,
        RLHFSelfDataset.mk c
          (<[i := <["multi_modal_data" := PDict [("image", raw)]]>
                    (delete (image_key c) example)]> ds))).
Proof.
  intros Hi Hex Hmsgs Hp Himg Hiter.
  unfold RLHFSelfDataset.__getitem__, RLHFSelfDataset.transform.
  cbn [RLHFSelfDataset.dataset RLHFSelfDataset.cfg]. rewrite Hi, Hex, transform_unfold, Hmsgs.
  split.
  - intros Hfail. by rewrite (encode_example_images_fail W c msgs example p raw items e).
  - intros images Hok Hlater.
    rewrite (encode_example_images_ok W c msgs example p raw items images) by done.
    destruct Hlater as [-> | [Hpad ->]]; [done|].
    by destruct (pad_stage W c _) as [[[ids mask] pos]|].
Qed.

Lemma X10_failed_access_changes_record_witness :
  let after := (RLHFSelfDataset.__getitem__ Demo.W
                  (RLHFSelfDataset.mk (Demo.config_with (Some Demo.proc) "problem" 8 "left" None)
                     [Demo.image_record]) 0) in
  after = (Raise TypeError,
           RLHFSelfDataset.mk (Demo.config_with (Some Demo.proc) "problem" 8 "left" None)
             [delete "images" Demo.image_record]).
Proof.
  refine (proj1 (X10_failed_access_changes_record Demo.W
            (Demo.config_with (Some Demo.proc) "problem" 8 "left" None) [Demo.image_record]
            0 0 Demo.image_record [mk_message "user" (Parts [ImagePart; TextPart "q?"])]
            Demo.proc (PList [PStr "/data/02438_origin.png"])
            [PStr "/data/02438_origin.png"] TypeError _ _ _ _ _ _) _).
  - reflexivity.
  - reflexivity.
  - vm_compute; reflexivity.
  - reflexivity.
  - vm_compute; reflexivity.
  - reflexivity.
  - reflexivity.
Defined.

(** ** [RLHFSelfDataset.__getitem__] and the stored list *)

(** X11. Whatever an access to [RLHFSelfDataset] returns, it keeps the
    configuration, the number of records, and every record at another
    position; an index out of range changes nothing.  After a successful
    access the record stored at the index is the returned example. *)
Theorem X11_store_after_access (W : world) (self self' : RLHFSelfDataset.t) (index : Z)
    (r : result dict) :
  RLHFSelfDataset.__getitem__ W self index = (r, self') →
  RLHFSelfDataset.cfg self' = RLHFSelfDataset.cfg self ∧
  RLHFSelfDataset.__len__ self' = RLHFSelfDataset.__len__ self ∧
  (∀ i j, py_index_pos (RLHFSelfDataset.dataset self) index = Ok i → j ≠ i →
          RLHFSelfDataset.dataset self' !! j = RLHFSelfDataset.dataset self !! j) ∧
  (∀ e, py_index_pos (RLHFSelfDataset.dataset self) index = Raise e → self' = self) ∧
  (∀ i out, py_index_pos (RLHFSelfDataset.dataset self) index = Ok i → r = Ok out →
            RLHFSelfDataset.dataset self' !! i = Some out).
Proof.
  unfold RLHFSelfDataset.__getitem__, RLHFSelfDataset.__len__, RLHFSelfDataset.transform.
  destruct (py_index_pos (RLHFSelfDataset.dataset self) index) as [i|e] eqn:Hi.
  - destruct (RLHFSelfDataset.dataset self !! i) as [example|] eqn:Hex.
    + destruct (RLHFDataset.transform W (RLHFSelfDataset.cfg self) example) as [r' d] eqn:Ht.
      intros [= <- <-]. cbn [RLHFSelfDataset.cfg RLHFSelfDataset.dataset].
      rewrite length_insert. split_and!; try done.
      * intros i' j [= <-] Hne. by rewrite list_lookup_insert_ne.
      * intros i' out [= <-] ->.
        apply transform_ok_inv in Ht as (?&?&?&?&?&?&?&?&?&_&_&_&_&_&_&->).
        apply list_lookup_insert_eq. by eapply lookup_lt_Some.
    + intros [= <- <-]. split_and!; try done; intros i' out _ [=].
  - intros [= <- <-]. split_and!; try done.
Qed.

Lemma X11_store_after_access_witness :
  ∃ out self',
    RLHFSelfDataset.__getitem__ Demo.W Demo.self_dataset 0 = (Ok out, self') ∧
    RLHFSelfDataset.__len__ self' = 1%nat ∧
    RLHFSelfDataset.dataset self' !! 0%nat = Some out.
Proof.
  destruct (RLHFSelfDataset.__getitem__ Demo.W Demo.self_dataset 0) as [r self'] eqn:Hget.
  assert (is_ok r = true) as Hok.
  { change r with (r, self').1. rewrite <- Hget. vm_compute; reflexivity. }
  destruct (is_ok_inv r Hok) as [out ->].
  destruct (X11_store_after_access Demo.W Demo.self_dataset self' 0 (Ok out) Hget)
    as (_ & Hlen & _ & _ & Hstored).
  exists out, self'. split; [reflexivity|]. split; [exact Hlen|].
  apply (Hstored 0%nat out); reflexivity.
Defined.

(** ** The field set of a returned example *)

Lemma dom_written_fields (d : dict) ids mask pos raw :
  dom (written_fields d ids mask pos raw) =
    ({["input_ids"; "attention_mask"; "position_ids"; "raw_prompt_ids"]} : gset string) ∪ dom d.
Proof.
  unfold written_fields. rewrite !dom_insert_L.
  apply set_eq. intros k. set_unfold. tauto.
Qed.

(** X12. The fields of a returned example are: the five that
    [__getitem__] always writes, the fields of the record except the
    answer and the image field, and ["multi_modal_data"] if the record had
    an image field. *)
Theorem X12_field_set (W : world) (c : config) (ds : list dict) (index : Z) (out : dict) :
  reserved_keys_free c →
  RLHFDataset.__getitem__ W (RLHFDataset.mk c ds) index = Ok out →
  ∃ i example,
    py_index_pos ds index = Ok i ∧ ds !! i = Some example ∧
    dom out =
      ({["input_ids"; "attention_mask"; "position_ids"; "raw_prompt_ids"; "ground_truth"]}
         : gset string)
      ∪ (dom example ∖ {[answer_key c; image_key c]})
      ∪ (if decide (is_Some (example !! image_key c))
         then {["multi_modal_data"]} else ∅).
Proof.
  intros Hfree (i & example & Hi & Hex & Ht)%getitem_inv.
  cbn [RLHFDataset.dataset RLHFDataset.cfg] in *.
  exists i, example. split; [done|]. split; [done|].
  destruct (reserved_answer_key c Hfree) as (Ha1 & Ha2 & Ha3 & Ha4 & Ha5 & Ha6).
  destruct (reserved_image_key c Hfree) as (Hi1 & Hi2 & Hi3 & Hi4 & Hi5 & Hi6).
  apply transform_ok_inv in Ht
    as (msgs & prompt & mi & mid & ids & mask & pos & raw & ans &
        _ & Henc & _ & _ & Hans & -> & _).
  rewrite dom_insert_L, dom_delete_L, dom_written_fields.
  rewrite written_fields_other in Hans by done.
  apply encode_example_inv in Henc
    as [(Hno & -> & _) | (rawimg & p & items & images & Himg & _ & _ & _ & _ & ->)].
  - rewrite decide_False by (rewrite Hno; by intros [? ?]).
    apply not_elem_of_dom in Hno.
    apply set_eq. intros k. set_unfold.
    destruct (decide (k = image_key c)) as [->|]; intuition congruence.
  - rewrite decide_True by eauto.
    rewrite dom_insert_L, dom_delete_L.
    apply set_eq. intros k. set_unfold. intuition congruence.
Qed.

Lemma X12_field_set_witness :
  ∃ out,
    RLHFDataset.__getitem__ Demo.W Demo.text_dataset 0 = Ok out ∧
    dom out =
      ({["input_ids"; "attention_mask"; "position_ids"; "raw_prompt_ids"; "ground_truth"]}
         : gset string)
      ∪ (dom Demo.text_record ∖ {["answer"; "images"]}) ∪ ∅.
Proof.
  destruct (is_ok_inv (RLHFDataset.__getitem__ Demo.W Demo.text_dataset 0))
    as [out Hget]; [vm_compute; reflexivity|].
  destruct (X12_field_set Demo.W Demo.text_cfg [Demo.text_record] 0 out
              (demo_reserved_keys_free _ _ _ _ _) Hget)
    as (i & example & Hi & Hex & Hdom).
  assert (i = 0%nat) as -> by (vm_compute in Hi; congruence).
  assert (example = Demo.text_record) as ->.
  { change (Some Demo.text_record = Some example) in Hex. congruence. }
  exists out. split; [exact Hget|].
  rewrite decide_False in Hdom; [exact Hdom|].
  intros [v Hv]. vm_compute in Hv. discriminate.
Defined.

(** ** [RLHFSelfDataset]: from the annotation file to the first access *)

Lemma self_init_inv (W : world) (data_path : string) (args : config)
    (image_root : option string) (self : RLHFSelfDataset.t) :
  RLHFSelfDataset.__init__ W data_path args image_root = Ok self →
  ∃ path data_split annotations entries text,
    split_locator data_path = Ok (path, data_split) ∧
    json_load W path = Ok annotations ∧
    py_iter annotations = Ok entries ∧
    load_format_prompt W (format_prompt args) = Ok text ∧
    RLHFSelfDataset.cfg self = with_format_prompt args text ∧
    Forall2 (entry_record W image_root) entries (RLHFSelfDataset.dataset self).
Proof.
  unfold RLHFSelfDataset.__init__, mbind, result_bind.
  destruct (split_locator data_path) as [[path data_split]|] eqn:Hloc;
    [cbn [rbind]|discriminate].
  destruct (json_load W path) as [annotations|] eqn:Hjson; [cbn [rbind]|discriminate].
  destruct (py_iter annotations) as [entries|] eqn:Hiter; [cbn [rbind]|discriminate].
  destruct (rmap_list _ entries) as [records|] eqn:Hrecords; [cbn [rbind]|discriminate].
  destruct (load_format_prompt W _) as [text|] eqn:Htext; [cbn [rbind]|discriminate].
  intros [= <-]. exists path, data_split, annotations, entries, text.
  split_and!; try done. cbn [RLHFSelfDataset.dataset].
  apply rmap_list_Forall2 in Hrecords.
  eapply Forall2_impl; [exact Hrecords|]. intros ele record. apply new_ele_record.
Qed.

Lemma self_init_unfold (W : world) (data_path : string) (args : config)
    (image_root : option string) (path data_split : string) (annotations : pyval)
    (entries : list pyval) :
  split_locator data_path = Ok (path, data_split) →
  json_load W path = Ok annotations →
  py_iter annotations = Ok entries →
  RLHFSelfDataset.__init__ W data_path args image_root =
    match rmap_list (RLHFSelfDataset.new_ele W image_root) entries with
    | Ok dataset =>
        match load_format_prompt W (format_prompt args) with
        | Ok text => Ok (RLHFSelfDataset.mk (with_format_prompt args text) dataset)
        | Raise e => Raise e
        end
    | Raise e => Raise e
    end.
Proof.
  intros Hloc Hjson Hiter. unfold RLHFSelfDataset.__init__, mbind, result_bind.
  rewrite Hloc. cbn [rbind]. rewrite Hjson. cbn [rbind]. rewrite Hiter. cbn [rbind].
  destruct (rmap_list _ entries); [cbn [rbind]|done].
  by destruct (load_format_prompt W _).
Qed.

(** X13. A dataset constructed from the annotations, with the answer
    and image keys "answer" and "images": an example returned for index
    [i] has under ["ground_truth"] the [str] of the answer of entry [i],
    under ["location"] that entry's location, and under
    ["multi_modal_data"] the one image path of that entry; it has neither
    an ["answer"] nor an ["images"] field. *)
Theorem X13_entry_to_example (W : world) (data_path : string) (args : config)
    (image_root : option string) (self self' : RLHFSelfDataset.t)
    (path data_split : string) (annotations : pyval) (entries : list pyval)
    (index : Z) (out : dict) :
  split_locator data_path = Ok (path, data_split) →
  json_load W path = Ok annotations →
  py_iter annotations = Ok entries →
  answer_key args = "answer" →
  image_key args = "images" →
  RLHFSelfDataset.__init__ W data_path args image_root = Ok self →
  RLHFSelfDataset.__getitem__ W self index = (Ok out, self') →
  ∃ i ele img_id answer location image_path,
    py_index_pos entries index = Ok i ∧
    entries !! i = Some ele ∧
    subscript ele "img_id" = Ok (PStr img_id) ∧
    subscript ele "answer" = Ok answer ∧
    subscript ele "location" = Ok location ∧
    os_path_join image_root (img_id +:+ "_origin.png") = Ok image_path ∧
    out !! "ground_truth" = Some (PStr (py_str W answer)) ∧
    out !! "location" = Some location ∧
    out !! "multi_modal_data" = Some (PDict [("image", PList [PStr image_path])]) ∧
    out !! "answer" = None ∧
    out !! "images" = None.
Proof.
  intros Hloc Hjson Hiter Hak Hik
    (path' & split' & ann' & entries' & text & Hloc' & Hjson' & Hiter' & _ & Hcfg & Hall)%self_init_inv
    (i & record & Hi & Hrec & Ht & _)%self_getitem_inv.
  assert (path' = path) as -> by congruence.
  assert (ann' = annotations) as -> by congruence.
  assert (entries' = entries) as -> by congruence.
  rewrite Hcfg in Ht.
  assert (reserved_keys_free (with_format_prompt args text)) as Hfree.
  { split; cbn; [rewrite Hak | rewrite Hik]; apply not_written_key; discriminate. }
  destruct (transform_frame W _ record out Hfree Ht)
    as (Hkeep & (ans & Hans & Hgt & Hgone) & Himg & _).
  cbn [answer_key image_key with_format_prompt] in *. rewrite Hak in *. rewrite Hik in *.
  destruct (Forall2_lookup_r _ _ _ i record Hall Hrec) as (ele & Hele & Hentry).
  destruct Hentry as (img_id & question & answer & location & image_path &
                      H1 & H2 & H3 & H4 & Hp & Hrimg & Hrq & Hra & Hrl & _).
  exists i, ele, img_id, answer, location, image_path.
  pose proof (Forall2_length _ _ _ Hall) as Hlen.
  split_and!; try done.
  - unfold py_index_pos in *. by rewrite Hlen.
  - congruence.
  - rewrite <- Hrl. apply Hkeep; [discriminate | discriminate |].
    apply not_written_key; discriminate.
  - exact (proj2 (Himg _ Hrimg)).
  - exact (proj1 (Himg _ Hrimg)).
Qed.

Lemma rbind_ok_inv {A B} (r : result A) (f : A → result B) :
  is_ok (rbind r f) = true → ∃ a b, r = Ok a ∧ f a = Ok b.
Proof.
  destruct r as [a|e]; [|discriminate]. cbn [rbind]. intros H.
  destruct (is_ok_inv (f a) H) as [b Hb]. by exists a, b.
Defined.

Lemma X13_entry_to_example_witness :
  ∃ self self' out,
    RLHFSelfDataset.__init__ Demo.W "ann.json" Demo.image_cfg (Some "/data") = Ok self ∧
    RLHFSelfDataset.__getitem__ Demo.W self 0 = (Ok out, self') ∧
    out !! "ground_truth" = Some (PStr "0") ∧
    out !! "location" = Some (PList [PInt 56; PInt 511; PInt 64; PInt 525]) ∧
    out !! "multi_modal_data"
      = Some (PDict [("image", PList [PStr "/data/02438_origin.png"])]).
Proof.
  destruct (rbind_ok_inv
              (RLHFSelfDataset.__init__ Demo.W "ann.json" Demo.image_cfg (Some "/data"))
              (λ self, (RLHFSelfDataset.__getitem__ Demo.W self 0).1))
    as (self & out & Hinit & Hget); [vm_compute; reflexivity|].
  destruct (RLHFSelfDataset.__getitem__ Demo.W self 0) as [r self'] eqn:Hget'.
  cbn [fst] in Hget. subst r.
  destruct (X13_entry_to_example Demo.W "ann.json" Demo.image_cfg (Some "/data") self self'
              "ann.json" "train" Demo.annotations
              [PDict [("img_id", PStr "02438"); ("question", PStr "q?"); ("answer", PInt 0);
                      ("location", PList [PInt 56; PInt 511; PInt 64; PInt 525])]]
              0 out)
    as (i & ele & img_id & answer & location & image_path &
        Hi & Hele & H1 & H3 & H4 & Hp & Hgt & Hl & Hm & _); try reflexivity; try assumption.
  vm_compute in Hi. injection Hi as <-.
  vm_compute in Hele. injection Hele as <-.
  vm_compute in H1. injection H1 as <-.
  vm_compute in H3. injection H3 as <-.
  vm_compute in H4. injection H4 as <-.
  vm_compute in Hp. injection Hp as <-.
  exists self, self', out. split; [exact Hinit|]. split; [exact Hget'|].
  split; [exact Hgt|]. split; [exact Hl|]. exact Hm.
Defined.

Lemma entry_record_no_prompt (W : world) (image_root : option string) (ele : pyval)
    (record : dict) :
  entry_record W image_root ele record → record !! "prompt" = None.
Proof.
  intros (img_id & question & answer & location & path & _ & _ & _ & _ & _ & _ & _ & _ & _ & Hno).
  by apply Hno.
Qed.

(** X14. [RLHFSelfDataset] with the default prompt key ["prompt"]: the
    records built at construction hold their prompt under ["problem"], so
    every access at an index in range raises [KeyError] of ["prompt"], and
    the stored records stay as they are. *)
Theorem X14_default_prompt_key (W : world) (data_path : string) (args : config)
    (image_root : option string) (self : RLHFSelfDataset.t) (index : Z) (i : nat) :
  prompt_key args = "prompt" →
  RLHFSelfDataset.__init__ W data_path args image_root = Ok self →
  py_index_pos (RLHFSelfDataset.dataset self) index = Ok i →
  RLHFSelfDataset.__getitem__ W self index = (Raise (KeyError "prompt"), self).
Proof.
  intros Hpk (path & data_split & annotations & entries & text & _ & _ & _ & _ & Hcfg & Hall)%self_init_inv Hi.
  pose proof (py_index_pos_lt _ _ _ Hi) as Hlt.
  destruct (lookup_lt_is_Some_2 _ _ Hlt) as [record Hrec].
  destruct (Forall2_lookup_r _ _ _ i record Hall Hrec) as (ele & _ & Hentry).
  apply entry_record_no_prompt in Hentry.
  assert (prompt_key (RLHFSelfDataset.cfg self) = "prompt") as Hpk'.
  { by rewrite Hcfg. }
  rewrite <- Hpk' in Hentry.
  pose proof (build_messages_no_prompt W _ record Hentry) as Hb. rewrite Hpk' in Hb.
  unfold RLHFSelfDataset.__getitem__, RLHFSelfDataset.transform.
  rewrite Hi, Hrec, transform_unfold, Hb.
  by rewrite (self_dataset_insert_id self i record Hrec).
Qed.

Lemma X14_default_prompt_key_witness :
  ∃ self,
    RLHFSelfDataset.__init__ Demo.W "ann.json" Demo.text_cfg (Some "/data") = Ok self ∧
    RLHFSelfDataset.__getitem__ Demo.W self 0 = (Raise (KeyError "prompt"), self).
Proof.
  destruct (rbind_ok_inv
              (RLHFSelfDataset.__init__ Demo.W "ann.json" Demo.text_cfg (Some "/data"))
              (λ self, py_index_pos (RLHFSelfDataset.dataset self) 0))
    as (self & i & Hinit & Hi); [vm_compute; reflexivity|].
  exists self. split; [exact Hinit|].
  exact (X14_default_prompt_key Demo.W "ann.json" Demo.text_cfg (Some "/data") self 0 i
           eq_refl Hinit Hi).
Defined.

(** X15. [image_root] left at its default [None]: construction over
    annotations with at least one entry never succeeds, and it raises
    [TypeError] when the first entry has a string [img_id]; over an empty
    array the dataset that results is empty. *)
Theorem X15_image_root_required (W : world) (data_path : string) (args : config)
    (path data_split : string) (annotations : pyval) (entries : list pyval) :
  split_locator data_path = Ok (path, data_split) →
  json_load W path = Ok annotations →
  py_iter annotations = Ok entries →
  (entries ≠ [] → is_ok (RLHFSelfDataset.__init__ W data_path args None) = false) ∧
  (∀ ele rest img_id, entries = ele :: rest → subscript ele "img_id" = Ok (PStr img_id) →
     RLHFSelfDataset.__init__ W data_path args None = Raise TypeError) ∧
  (entries = [] → ∀ self, RLHFSelfDataset.__init__ W data_path args None = Ok self →
     RLHFSelfDataset.__len__ self = 0%nat).
Proof.
  intros Hloc Hjson Hiter.
  rewrite (self_init_unfold W data_path args None path data_split annotations entries)
    by done.
  split_and!.
  - destruct entries as [|ele rest]; [done|]. intros _. cbn [rmap_list].
    unfold RLHFSelfDataset.new_ele, mbind, result_bind.
    destruct (subscript ele "img_id") as [img_id|]; [cbn [rbind]|done].
    by destruct (str_add img_id _).
  - intros ele rest img_id -> Hid. cbn [rmap_list].
    unfold RLHFSelfDataset.new_ele, mbind, result_bind. by rewrite Hid.
  - intros -> self. cbn [rmap_list].
    destruct (load_format_prompt W _); [|discriminate]. by intros [= <-].
Qed.

Lemma X15_image_root_required_witness :
  RLHFSelfDataset.__init__ Demo.W "ann.json" Demo.image_cfg None = Raise TypeError.
Proof.
  destruct (X15_image_root_required Demo.W "ann.json" Demo.image_cfg "ann.json" "train"
              Demo.annotations
              [PDict [("img_id", PStr "02438"); ("question", PStr "q?"); ("answer", PInt 0);
                      ("location", PList [PInt 56; PInt 511; PInt 64; PInt 525])]]
              eq_refl eq_refl eq_refl) as (_ & H & _).
  exact (H _ _ "02438" eq_refl eq_refl).
Defined.

(** X16. The annotation file holds a JSON value that is not an array
    ([null], a boolean, a number, a non-empty string, an object with a
    key): construction raises [TypeError]. *)
Theorem X16_annotations_not_an_array (W : world) (data_path : string) (args : config)
    (image_root : option string) (path data_split : string) (annotations : pyval) :
  split_locator data_path = Ok (path, data_split) →
  json_load W path = Ok annotations →
  non_array annotations = true →
  RLHFSelfDataset.__init__ W data_path args image_root = Raise TypeError.
Proof.
  intros Hloc Hjson Hna. unfold RLHFSelfDataset.__init__, mbind, result_bind.
  rewrite Hloc. cbn [rbind]. rewrite Hjson. cbn [rbind].
  destruct annotations as [| | | |s| | | | kv|]; try discriminate; try reflexivity.
  - destruct s as [|c s]; [discriminate|]. reflexivity.
  - destruct kv as [|[k v] kv]; [discriminate|]. reflexivity.
Qed.

Lemma X16_annotations_not_an_array_witness :
  RLHFSelfDataset.__init__ (DemoX.W_json (PDict [("img_id", PStr "02438")])) "ann.json"
    Demo.image_cfg (Some "/data") = Raise TypeError.
Proof.
  exact (X16_annotations_not_an_array (DemoX.W_json (PDict [("img_id", PStr "02438")]))
           "ann.json" Demo.image_cfg (Some "/data") "ann.json" "train"
           (PDict [("img_id", PStr "02438")]) eq_refl eq_refl eq_refl).
Defined.

Lemma rmap_list_first_error {A B} (f : A → result B) (good : list A) (bad : A)
    (rest : list A) (e : exn) :
  Forall (λ a, is_ok (f a) = true) good →
  f bad = Raise e →
  rmap_list f (good ++ bad :: rest) = Raise e.
Proof.
  intros Hgood Hbad. induction Hgood as [|a good Ha _ IH]; cbn [app rmap_list].
  - by rewrite Hbad.
  - destruct (f a) as [b|]; [|discriminate]. cbn [rbind]. by rewrite IH.
Qed.

(** X17. One bad annotation entry aborts construction: with the
    entries before it accepted, construction raises the error of the
    first entry that [new_ele] rejects, whatever comes after it; an entry
    that is an object without ["img_id"] gives [KeyError] of ["img_id"]. *)
Theorem X17_bad_entry (W : world) (data_path : string) (args : config)
    (image_root : option string) (path data_split : string) (annotations : pyval)
    (good : list pyval) (bad : pyval) (rest : list pyval) :
  split_locator data_path = Ok (path, data_split) →
  json_load W path = Ok annotations →
  py_iter annotations = Ok (good ++ bad :: rest) →
  Forall (λ ele, is_ok (RLHFSelfDataset.new_ele W image_root ele) = true) good →
  (∀ e, RLHFSelfDataset.new_ele W image_root bad = Raise e →
     RLHFSelfDataset.__init__ W data_path args image_root = Raise e) ∧
  (∀ kv, bad = PDict kv → assoc_get "img_id" kv = None →
     RLHFSelfDataset.__init__ W data_path args image_root = Raise (KeyError "img_id")).
Proof.
  intros Hloc Hjson Hiter Hgood.
  assert (∀ e, RLHFSelfDataset.new_ele W image_root bad = Raise e →
            RLHFSelfDataset.__init__ W data_path args image_root = Raise e) as Hfirst.
  { intros e Hbad.
    rewrite (self_init_unfold W data_path args image_root path data_split annotations
               (good ++ bad :: rest)) by done.
    by rewrite (rmap_list_first_error _ good bad rest e Hgood Hbad). }
  split; [exact Hfirst|]. intros kv -> Hno. apply Hfirst.
  unfold RLHFSelfDataset.new_ele, mbind, result_bind, subscript. by rewrite Hno.
Qed.

Lemma X17_bad_entry_witness :
  RLHFSelfDataset.__init__
    (DemoX.W_json (PList [PDict [("img_id", PStr "02438"); ("question", PStr "q?");
                                 ("answer", PInt 0); ("location", PList [])];
                          DemoX.no_id_entry]))
    "ann.json" Demo.image_cfg (Some "/data") = Raise (KeyError "img_id").
Proof.
  destruct (X17_bad_entry
              (DemoX.W_json (PList [PDict [("img_id", PStr "02438"); ("question", PStr "q?");
                                           ("answer", PInt 0); ("location", PList [])];
                                    DemoX.no_id_entry]))
              "ann.json" Demo.image_cfg (Some "/data") "ann.json" "train"
              (PList [PDict [("img_id", PStr "02438"); ("question", PStr "q?");
                             ("answer", PInt 0); ("location", PList [])];
                      DemoX.no_id_entry])
              [PDict [("img_id", PStr "02438"); ("question", PStr "q?");
                      ("answer", PInt 0); ("location", PList [])]]
              DemoX.no_id_entry [] eq_refl eq_refl eq_refl) as [_ H].
  - constructor; [vm_compute; reflexivity | constructor].
  - exact (H _ eq_refl eq_refl).
Defined.

(** ** The stages of [__getitem__] on their own *)

(** X18. Truncation of [raw_prompt_ids], for every bound (zero and
    negative ones too): it fails exactly under "error" on an encoding
    longer than the bound; otherwise "left" keeps a suffix of the
    encoding, "right" a prefix, and every other policy the encoding as
    it is, however long; the result is never longer than the encoding. *)
Theorem X18_truncation_keeps_a_segment (L : Z) (trunc : string) (raw0 : list Z) :
  (is_ok (truncate_raw_prompt_ids L trunc raw0) = false ↔
     trunc = "error" ∧ L < Z.of_nat (length raw0)) ∧
  (∀ raw, truncate_raw_prompt_ids L trunc raw0 = Ok raw →
     (trunc = "left" → raw `suffix_of` raw0) ∧
     (trunc = "right" → raw `prefix_of` raw0) ∧
     (trunc ≠ "left" → trunc ≠ "right" → raw = raw0) ∧
     (length raw ≤ length raw0)%nat).
Proof.
  unfold truncate_raw_prompt_ids, slice_last, slice_first.
  destruct (Z.ltb_spec L (Z.of_nat (length raw0))) as [Hlong|Hfit].
  - destruct (String.eqb_spec trunc "left") as [->|Hl].
    { split; [split; [discriminate | by intros [[=] _]]|].
      intros raw [= <-]. split_and!; try done.
      - intros _. destruct (L =? 0); [done|].
        destruct (0 <? L); apply suffix_drop.
      - destruct (L =? 0); [done|]. destruct (0 <? L); rewrite length_drop; lia. }
    destruct (String.eqb_spec trunc "right") as [->|Hr].
    { split; [split; [discriminate | by intros [[=] _]]|].
      intros raw [= <-]. split_and!; try done.
      - intros _. destruct (0 <=? L); apply prefix_take.
      - destruct (0 <=? L); rewrite length_take; lia. }
    destruct (String.eqb_spec trunc "error") as [->|He].
    { split; [done|]. discriminate. }
    split; [split; [discriminate | by intros [? _]]|].
    intros raw [= <-]. by split_and!.
  - split; [split; [discriminate | intros [_ ?]; lia]|].
    intros raw [= <-]. by split_and!.
Qed.

Lemma X18_truncation_keeps_a_segment_witness :
  [3; 4] `suffix_of` [1; 2; 3; 4] ∧ (length [3; 4] ≤ length [1; 2; 3; 4])%nat.
Proof.
  destruct (X18_truncation_keeps_a_segment 2 "left" [1; 2; 3; 4]) as [_ H].
  destruct (H [3; 4] eq_refl) as (Hl & _ & _ & Hlen).
  split; [exact (Hl eq_refl) | exact Hlen].
Defined.

Lemma cumsum_from_zeros (k : nat) (acc : Z) (v : list Z) :
  cumsum_from acc (replicate k 0 ++ v) = replicate k acc ++ cumsum_from acc v.
Proof.
  induction k as [|k IH]; [done|].
  cbn [replicate app cumsum_from]. rewrite Z.add_0_r. by rewrite IH.
Qed.

(** X19. The default position ids skip left padding: under a mask
    that starts with [k] zeros the first [k] positions are 0 and the rest
    are the positions of the mask without them; for [k] zeros and then
    [n] ones they are [k] zeros and then 0 .. n-1. *)
Theorem X19_positions_skip_left_padding (k n : nat) (mask : list Z) :
  default_position_ids (replicate k 0 ++ mask)
    = replicate k 0 ++ default_position_ids mask ∧
  default_position_ids (replicate k 0 ++ replicate n 1)
    = replicate k 0 ++ (Z.of_nat <$> seq 0 n).
Proof.
  assert (∀ m, default_position_ids (replicate k 0 ++ m)
               = replicate k 0 ++ default_position_ids m) as H.
  { intros m. unfold default_position_ids, clip_min, cumsum.
    rewrite cumsum_from_zeros, !map_app. f_equal.
    change (@map) with (@fmap list _). by rewrite !fmap_replicate. }
  split; [apply H|]. by rewrite H, default_position_ids_ones.
Qed.

(** X20. [process_image] at its edges: an RGB image whose pixel count
    lies between the two bounds, the bounds included, comes back as it
    is; an image that cannot be opened gives the error of opening it,
    whatever the bounds are; a dict without ["bytes"] gives [KeyError];
    [None] or a list in place of an image gives [AttributeError]. *)
Theorem X20_process_image_edges (W : world) (mn mx : option Z) :
  (∀ im a b, mn = Some a → mx = Some b → mode im = "RGB" →
     a ≤ width im * height im ≤ b →
     process_image W (PImage im) mn mx = Ok im) ∧
  (∀ image e, open_image W image = Raise e → process_image W image mn mx = Raise e) ∧
  (∀ kv, assoc_get "bytes" kv = None →
     process_image W (PDict kv) mn mx = Raise (KeyError "bytes")) ∧
  process_image W PNone mn mx = Raise AttributeError ∧
  (∀ l, process_image W (PList l) mn mx = Raise AttributeError).
Proof.
  split_and!.
  - intros im a b -> -> Hmode Hin. rewrite process_image_within_bounds by done.
    by rewrite Hmode.
  - intros image e He. unfold process_image. by rewrite He.
  - intros kv Hno. unfold process_image, open_image. by rewrite Hno.
  - done.
  - done.
Qed.

Lemma X20_process_image_edges_witness :
  process_image Demo.W (PImage (mk_image 4 4 "RGB" 1)) (Some 16) (Some 16)
    = Ok (mk_image 4 4 "RGB" 1).
Proof.
  destruct (X20_process_image_edges Demo.W (Some 16) (Some 16)) as [H _].
  apply (H (mk_image 4 4 "RGB" 1) 16 16); [reflexivity | reflexivity | reflexivity |].
  cbn. lia.
Defined.

(** ** [collate_fn] *)

Lemma items_get_not_key {V} (k : string) (d : list (string * V)) :
  k ∉ d.*1 → items_get k d = None.
Proof.
  induction d as [|[k' v] d IH]; [done|]. cbn. intros Hk.
  apply not_elem_of_cons in Hk as [Hne Hk].
  destruct (String.eqb_spec k' k); [congruence | by apply IH].
Qed.

Lemma assoc_get_not_key (k : string) (f : list (string * pyval)) :
  k ∉ f.*1 → assoc_get k f = None.
Proof.
  induction f as [|[k' v] f IH]; [done|]. cbn. intros Hk.
  apply not_elem_of_cons in Hk as [Hne Hk].
  destruct (String.eqb_spec k k'); [congruence | by apply IH].
Qed.

Lemma items_get_elem_of {V} (k : string) (v : V) (d : list (string * V)) :
  items_get k d = Some v → (k, v) ∈ d.
Proof.
  induction d as [|[k' v'] d IH]; [done|]. cbn.
  destruct (String.eqb_spec k' k) as [->|].
  - intros [= ->]. apply elem_of_cons. by left.
  - intros H. apply elem_of_cons. right. by apply IH.
Qed.

Lemma items_get_append_value {V} (k key : string) (value : V) (d : list (string * list V)) :
  items_get k (append_value key value d) =
    if decide (k = key) then Some (default [] (items_get k d) ++ [value])
    else items_get k d.
Proof.
  induction d as [|[k' vs] d IH]; cbn.
  - destruct (String.eqb_spec key k); destruct (decide (k = key)); cbn; congruence.
  - destruct (String.eqb_spec k' key) as [->|Hne]; cbn.
    + destruct (String.eqb_spec key k); destruct (decide (k = key)); cbn; congruence.
    + destruct (String.eqb_spec k' k) as [->|].
      * rewrite decide_False by congruence. done.
      * apply IH.
Qed.

Lemma append_value_keys {V} (key : string) (value : V) (d : list (string * list V)) :
  (append_value key value d).*1 = d.*1 ++ (if decide (key ∈ d.*1) then [] else [key]).
Proof.
  induction d as [|[k' vs] d IH]; cbn.
  - rewrite decide_False; [done | apply not_elem_of_nil].
  - destruct (String.eqb_spec k' key) as [->|Hne]; cbn.
    + rewrite decide_True by (apply elem_of_cons; by left). by rewrite app_nil_r.
    + rewrite IH. f_equal. f_equal.
      destruct (decide (key ∈ d.*1)) as [Hin|Hout].
      * rewrite decide_True; [done | apply elem_of_cons; by right].
      * rewrite decide_False; [done|]. intros [?|?]%elem_of_cons; congruence.
Qed.

Lemma append_value_NoDup {V} (key : string) (value : V) (d : list (string * list V)) :
  NoDup d.*1 → NoDup (append_value key value d).*1.
Proof.
  intros Hd. rewrite append_value_keys.
  destruct (decide (key ∈ d.*1)); [by rewrite app_nil_r|].
  apply NoDup_app. split; [done|]. split; [|apply NoDup_singleton].
  intros k Hk Hk'. apply elem_of_cons in Hk' as [->|Hk']; [done | by apply elem_of_nil in Hk'].
Qed.

Lemma route_NoDup acc item :
  NoDup acc.1.*1 ∧ NoDup acc.2.*1 → NoDup (route acc item).1.*1 ∧ NoDup (route acc item).2.*1.
Proof.
  intros [H1 H2]. unfold route.
  destruct item.2; cbn [fst snd]; split; try done; by apply append_value_NoDup.
Qed.

Lemma route_feature_NoDup feature : ∀ acc,
  NoDup acc.1.*1 ∧ NoDup acc.2.*1 →
  NoDup (route_feature acc feature).1.*1 ∧ NoDup (route_feature acc feature).2.*1.
Proof.
  unfold route_feature. induction feature as [|item feature IH]; intros acc H; [done|].
  cbn [fold_left]. apply IH. by apply route_NoDup.
Qed.

Lemma collect_NoDup features :
  NoDup (collect features).1.*1 ∧ NoDup (collect features).2.*1.
Proof.
  unfold collect.
  assert (∀ acc, NoDup acc.1.*1 ∧ NoDup acc.2.*1 →
            NoDup (fold_left route_feature features acc).1.*1 ∧
            NoDup (fold_left route_feature features acc).2.*1) as H.
  { induction features as [|f features IH]; intros acc Hacc; [done|].
    cbn [fold_left]. apply IH. by apply route_feature_NoDup. }
  apply H. cbn. split; apply NoDup_nil_2.
Qed.

(** The accumulators under [k] after one item. *)
Lemma route_get (k : string) acc (item : string * pyval) :
  items_get k (route acc item).1 =
    (if decide (k = item.1) then
       match tensor_of item.2 with
       | Some t => Some (default [] (items_get k acc.1) ++ [t])
       | None => items_get k acc.1
       end
     else items_get k acc.1) ∧
  items_get k (route acc item).2 =
    (if decide (k = item.1) then
       match object_of item.2 with
       | Some v => Some (default [] (items_get k acc.2) ++ [v])
       | None => items_get k acc.2
       end
     else items_get k acc.2).
Proof.
  unfold route.
  destruct item.2; cbn [fst snd tensor_of object_of]; rewrite ?items_get_append_value;
    split; by destruct (decide (k = item.1)).
Qed.

(** The accumulators under [k] after one feature. *)
Lemma route_feature_get (k : string) (feature : list (string * pyval)) : ∀ acc,
  NoDup feature.*1 →
  items_get k (route_feature acc feature).1 =
    match assoc_get k feature ≫= tensor_of with
    | Some t => Some (default [] (items_get k acc.1) ++ [t])
    | None => items_get k acc.1
    end ∧
  items_get k (route_feature acc feature).2 =
    match assoc_get k feature ≫= object_of with
    | Some v => Some (default [] (items_get k acc.2) ++ [v])
    | None => items_get k acc.2
    end.
Proof.
  unfold route_feature.
  induction feature as [|[k' v] feature IH]; intros acc Hnd; [done|].
  rewrite fmap_cons in Hnd. cbn [fst] in Hnd. apply NoDup_cons in Hnd as [Hk' Hnd].
  cbn [fold_left assoc_get].
  destruct (IH (route acc (k', v)) Hnd) as [-> ->].
  destruct (route_get k acc (k', v)) as [-> ->]. cbn [fst snd].
  destruct (String.eqb_spec k k') as [->|Hne].
  - rewrite !decide_True by done. rewrite (assoc_get_not_key k' feature Hk'). cbn.
    by destruct v.
  - rewrite !decide_False by done. done.
Qed.

Lemma extended_cons {V} (o : option (list V)) (x : V) (l : list V) :
  extended (Some (default [] o ++ [x])) l = extended o (x :: l).
Proof. destruct l; cbn; [done|]. by rewrite <- app_assoc. Qed.

Lemma fold_route_feature_get (k : string) (features : list (list (string * pyval))) :
  ∀ acc, dict_items features →
  items_get k (fold_left route_feature features acc).1
    = extended (items_get k acc.1) (column_tensors k features) ∧
  items_get k (fold_left route_feature features acc).2
    = extended (items_get k acc.2) (column_objects k features).
Proof.
  induction features as [|f features IH]; intros acc Hall; [done|].
  apply Forall_cons in Hall as [Hf Hall]. cbn [fold_left].
  destruct (IH (route_feature acc f) Hall) as [IH1 IH2]. rewrite IH1, IH2.
  destruct (route_feature_get k f acc Hf) as [R1 R2]. rewrite R1, R2.
  unfold column_tensors, column_objects. cbn [omap list_omap].
  split.
  - destruct (assoc_get k f ≫= tensor_of); [apply extended_cons | done].
  - destruct (assoc_get k f ≫= object_of); [apply extended_cons | done].
Qed.

Lemma collect_get (k : string) (features : list (list (string * pyval))) :
  dict_items features →
  items_get k (collect features).1 = extended None (column_tensors k features) ∧
  items_get k (collect features).2 = extended None (column_objects k features).
Proof. intros H. apply (fold_route_feature_get k features ([], []) H). Qed.

Lemma stack_all_inv (d d' : list (string * list tensor)) :
  stack_all d = Ok d' → d' = d ∧ Forall (λ item, same_shape item.2 = true) d.
Proof.
  unfold stack_all. revert d'. induction d as [|[k ts] d IH]; intros d'; cbn.
  - by intros [= <-].
  - unfold torch_stack at 1. cbn [snd]. destruct (same_shape ts) eqn:Hs; [|discriminate].
    cbn [mbind result_bind rbind fst].
    destruct (rmap_list _ d) as [r|]; [|discriminate]. cbn [rbind].
    destruct (IH r eq_refl) as [-> Hall]. intros [= <-]. split; [done|].
    constructor; done.
Qed.

Lemma stack_all_ok (d : list (string * list tensor)) :
  Forall (λ item, same_shape item.2 = true) d → stack_all d = Ok d.
Proof.
  unfold stack_all. induction 1 as [|[k ts] d Hs _ IH]; [done|]. cbn.
  unfold torch_stack at 1. cbn [snd] in *. rewrite Hs. cbn [mbind result_bind rbind fst].
  by rewrite IH.
Qed.

Lemma stack_all_fail (d : list (string * list tensor)) (k : string) (ts : list tensor) :
  (k, ts) ∈ d → same_shape ts = false → stack_all d = Raise RuntimeError.
Proof.
  unfold stack_all. intros Hin Hs. induction d as [|[k' ts'] d IH]; [by apply elem_of_nil in Hin|].
  cbn. unfold torch_stack at 1. cbn [snd]. destruct (same_shape ts') eqn:Hs'; [|done].
  cbn [mbind result_bind rbind fst].
  apply elem_of_cons in Hin as [[= <- <-]|Hin]; [congruence|]. by rewrite IH.
Qed.

Section CollateFacts.
Context {ndarray : Type}.
Variable np_array : list pyval → result ndarray.

Lemma array_all_get (d : list (string * list pyval)) (d' : list (string * ndarray)) (k : string) :
  array_all np_array d = Ok d' →
  match items_get k d with
  | Some vs => ∃ a, np_array vs = Ok a ∧ items_get k d' = Some a
  | None => items_get k d' = None
  end ∧ d'.*1 = d.*1.
Proof.
  unfold array_all. revert d'. induction d as [|[k' vs] d IH]; intros d'; cbn.
  - by intros [= <-].
  - cbn [mbind result_bind rbind fst snd].
    destruct (np_array vs) as [a|] eqn:Ha; [|discriminate]. cbn [rbind].
    destruct (rmap_list _ d) as [r|]; [|discriminate]. cbn [rbind].
    destruct (IH r eq_refl) as [Hget Hkeys]. intros [= <-]. cbn. rewrite Hkeys.
    split; [|done].
    destruct (String.eqb_spec k' k); [by exists a | done].
Qed.

Lemma array_all_ok (d : list (string * list pyval)) :
  Forall (λ item, is_ok (np_array item.2) = true) d → is_ok (array_all np_array d) = true.
Proof.
  unfold array_all. induction 1 as [|[k vs] d Hs _ IH]; [done|]. cbn.
  cbn [mbind result_bind rbind fst snd] in *.
  destruct (np_array vs); [|done]. cbn [rbind]. by destruct (rmap_list _ d).
Qed.
End CollateFacts.

Lemma items_get_set {V} (k key : string) (value : V) (d : list (string * V)) :
  items_get k (items_set key value d) = if decide (k = key) then Some value else items_get k d.
Proof.
  induction d as [|[k' v] d IH]; cbn.
  - destruct (String.eqb_spec key k); destruct (decide (k = key)); cbn; congruence.
  - destruct (String.eqb_spec k' key) as [->|Hne]; cbn.
    + destruct (String.eqb_spec key k); destruct (decide (k = key)); cbn; congruence.
    + destruct (String.eqb_spec k' k) as [->|].
      * rewrite decide_False by congruence. done.
      * apply IH.
Qed.

Lemma items_get_merge {V} (k : string) (b : list (string * V)) : ∀ a,
  NoDup b.*1 →
  items_get k (items_merge a b) =
    match items_get k b with Some v => Some v | None => items_get k a end.
Proof.
  unfold items_merge. induction b as [|[k' v] b IH]; intros a Hnd; [done|].
  rewrite fmap_cons in Hnd. cbn [fst] in Hnd. apply NoDup_cons in Hnd as [Hk' Hnd].
  cbn [fold_left items_get fst snd].
  rewrite IH by done. rewrite items_get_set.
  destruct (String.eqb_spec k' k) as [->|Hne].
  - rewrite decide_True by done. by rewrite (items_get_not_key k b Hk').
  - by rewrite decide_False by done.
Qed.

Lemma items_get_fmap {V V'} (g : V → V') (k : string) (d : list (string * V)) :
  items_get k (prod_map id g <$> d) = g <$> items_get k d.
Proof.
  induction d as [|[k' v] d IH]; [done|]. cbn.
  by destruct (String.eqb k' k).
Qed.

Lemma fmap_keys {V V'} (g : V → V') (d : list (string * V)) :
  (prod_map id g <$> d).*1 = d.*1.
Proof. induction d as [|[k' v] d IH]; [done|]. cbn. by rewrite IH. Qed.

Lemma extended_None {V} (l : list V) :
  extended None l = match l with [] => None | _ => Some l end.
Proof. by destruct l. Qed.

Lemma items_get_of_elem {V} (k : string) (v : V) (d : list (string * V)) :
  NoDup d.*1 → (k, v) ∈ d → items_get k d = Some v.
Proof.
  induction d as [|[k' v'] d IH]; intros Hnd Hin; [by apply elem_of_nil in Hin|].
  rewrite fmap_cons in Hnd. cbn [fst] in Hnd. apply NoDup_cons in Hnd as [Hk' Hnd].
  cbn. apply elem_of_cons in Hin as [[= <- <-]|Hin].
  - by rewrite String.eqb_refl.
  - destruct (String.eqb_spec k' k) as [->|]; [|by apply IH].
    destruct Hk'. apply (list_elem_of_fmap_2 fst) in Hin. exact Hin.
Qed.

Lemma collate_fn_inv {ndarray} (np_array : list pyval → result ndarray)
    (features : list (list (string * pyval))) (batch : list (string * batch_value ndarray)) :
  collate_fn np_array features = Ok batch →
  ∃ arrays,
    stack_all (collect features).1 = Ok (collect features).1 ∧
    array_all np_array (collect features).2 = Ok arrays ∧
    batch = items_merge (prod_map id Stacked <$> (collect features).1)
              (prod_map id Objects <$> arrays).
Proof.
  unfold collate_fn. destruct (collect features) as [tensors non_tensors].
  cbn [fst snd mbind result_bind].
  destruct (stack_all tensors) as [stacked|] eqn:Hs; [cbn [rbind]|discriminate].
  apply stack_all_inv in Hs as Hs'. destruct Hs' as [-> _].
  destruct (array_all np_array non_tensors) as [arrays|]; [cbn [rbind]|discriminate].
  intros [= <-]. by exists arrays.
Qed.

Lemma collate_lookup {ndarray} (np_array : list pyval → result ndarray)
    (features : list (list (string * pyval))) (batch : list (string * batch_value ndarray))
    (key : string) :
  dict_items features →
  collate_fn np_array features = Ok batch →
  match column_objects key features with
  | [] =>
      items_get key batch =
        match column_tensors key features with
        | [] => None
        | slices => Some (Stacked slices)
        end
  | values => ∃ a, np_array values = Ok a ∧ items_get key batch = Some (Objects a)
  end.
Proof.
  intros Hitems (arrays & Hstack & Harrays & ->)%collate_fn_inv.
  destruct (collect_get key features Hitems) as [Ht Ho].
  destruct (collect_NoDup features) as [_ Hnd].
  destruct (array_all_get np_array _ _ key Harrays) as [Hget Hkeys].
  rewrite Ho, extended_None in Hget. rewrite extended_None in Ht.
  rewrite items_get_merge by (by rewrite fmap_keys, Hkeys).
  rewrite !items_get_fmap, Ht.
  destruct (column_objects key features) as [|v vs].
  - rewrite Hget. by destruct (column_tensors key features).
  - destruct Hget as (a & Ha & ->). by exists a.
Qed.

(** X21. What a collated batch holds under a key, the keys of each
    feature being distinct.  If some feature holds a value under the key
    that is not a tensor, the batch holds the object array of those
    values, in the order of the features, and tensors that other
    features hold under the key are left out.  Otherwise, if some feature
    holds a tensor under it, the batch holds the stack of those tensors
    in the order of the features, and they have one shape.  A key that no
    feature has is not in the batch. *)
Theorem X21_collate_columns {ndarray} (np_array : list pyval → result ndarray)
    (features : list (list (string * pyval))) (batch : list (string * batch_value ndarray))
    (key : string) :
  dict_items features →
  collate_fn np_array features = Ok batch →
  (column_objects key features ≠ [] →
     ∃ a, np_array (column_objects key features) = Ok a ∧
          items_get key batch = Some (Objects a)) ∧
  (column_objects key features = [] → column_tensors key features ≠ [] →
     items_get key batch = Some (Stacked (column_tensors key features))) ∧
  (column_objects key features = [] → column_tensors key features = [] →
     items_get key batch = None) ∧
  (column_tensors key features ≠ [] → same_shape (column_tensors key features) = true).
Proof.
  intros Hitems Hbatch.
  pose proof (collate_lookup np_array features batch key Hitems Hbatch) as Hlook.
  split_and!.
  - intros Hne. by destruct (column_objects key features).
  - intros Hnil Hne. rewrite Hnil in Hlook. rewrite Hlook.
    by destruct (column_tensors key features).
  - intros Hnil Hnil'. rewrite Hnil, Hnil' in Hlook. exact Hlook.
  - intros Hne. apply collate_fn_inv in Hbatch as (arrays & Hstack & _ & _).
    apply stack_all_inv in Hstack as [_ Hall].
    destruct (collect_get key features Hitems) as [Ht _]. rewrite extended_None in Ht.
    destruct (column_tensors key features) as [|t ts] eqn:Hcol; [done|].
    apply items_get_elem_of in Ht.
    rewrite Forall_forall in Hall. exact (Hall _ Ht).
Qed.

Lemma X21_collate_columns_witness :
  ∃ batch,
    collate_fn (λ values, Ok values)
      [[("input_ids", PTensor (T1 [1; 2])); ("ground_truth", PStr "4")];
       [("ground_truth", PStr "144"); ("input_ids", PTensor (T1 [3; 4]))]] = Ok batch ∧
    items_get "input_ids" batch = Some (Stacked [T1 [1; 2]; T1 [3; 4]]) ∧
    items_get "ground_truth" batch = Some (Objects [PStr "4"; PStr "144"]).
Proof.
  destruct (is_ok_inv (collate_fn (λ values, Ok values)
      [[("input_ids", PTensor (T1 [1; 2])); ("ground_truth", PStr "4")];
       [("ground_truth", PStr "144"); ("input_ids", PTensor (T1 [3; 4]))]]))
    as [batch Hbatch]; [reflexivity|].
  assert (dict_items
      [[("input_ids", PTensor (T1 [1; 2])); ("ground_truth", PStr "4")];
       [("ground_truth", PStr "144"); ("input_ids", PTensor (T1 [3; 4]))]]) as Hitems.
  { apply (bool_decide_unpack _). vm_compute. reflexivity. }
  exists batch. split; [exact Hbatch|]. split.
  - destruct (X21_collate_columns _ _ batch "input_ids" Hitems Hbatch) as (_ & H & _).
    apply H; [reflexivity | discriminate].
  - destruct (X21_collate_columns _ _ batch "ground_truth" Hitems Hbatch) as (H & _).
    destruct H as (a & Ha & Hlook); [discriminate|].
    injection Ha as <-. exact Hlook.
Defined.

(** X22. When [collate_fn] succeeds and when it fails, the keys of
    each feature being distinct: it succeeds exactly when the tensors
    held under each key have one shape and [np.array] accepts the other
    values held under each key; tensors of two shapes under one key give
    [RuntimeError], also when the key holds other values in some feature
    and whatever [np.array] does. *)
Theorem X22_collate_success_and_failure {ndarray} (np_array : list pyval → result ndarray)
    (features : list (list (string * pyval))) :
  dict_items features →
  (is_ok (collate_fn np_array features) = true ↔
     (∀ key, column_tensors key features ≠ [] →
        same_shape (column_tensors key features) = true) ∧
     (∀ key, column_objects key features ≠ [] →
        is_ok (np_array (column_objects key features)) = true)) ∧
  (∀ key, column_tensors key features ≠ [] →
     same_shape (column_tensors key features) = false →
     collate_fn np_array features = Raise RuntimeError).
Proof.
  intros Hitems. destruct (collect_NoDup features) as [Hnd1 Hnd2].
  assert (∀ key ts, (key, ts) ∈ (collect features).1 →
            ts = column_tensors key features ∧ ts ≠ []) as Hcol1.
  { intros key ts Hin. apply items_get_of_elem in Hin; [|done].
    destruct (collect_get key features Hitems) as [Ht _].
    rewrite Hin, extended_None in Ht.
    destruct (column_tensors key features); [done|]. by injection Ht as ->. }
  assert (∀ key vs, (key, vs) ∈ (collect features).2 →
            vs = column_objects key features ∧ vs ≠ []) as Hcol2.
  { intros key vs Hin. apply items_get_of_elem in Hin; [|done].
    destruct (collect_get key features Hitems) as [_ Ho].
    rewrite Hin, extended_None in Ho.
    destruct (column_objects key features); [done|]. by injection Ho as ->. }
  split; [split|].
  - intros Hok. destruct (is_ok_inv _ Hok) as [batch Hbatch].
    pose proof Hbatch as (arrays & Hstack & Harrays & _)%collate_fn_inv.
    split; intros key Hne.
    + apply stack_all_inv in Hstack as [_ Hall].
      destruct (collect_get key features Hitems) as [Ht _].
      rewrite extended_None in Ht.
      destruct (column_tensors key features) as [|t ts] eqn:Hcol; [done|].
      apply items_get_elem_of in Ht. rewrite Forall_forall in Hall. exact (Hall _ Ht).
    + destruct (array_all_get np_array _ _ key Harrays) as [Hget _].
      destruct (collect_get key features Hitems) as [_ Ho].
      rewrite Ho, extended_None in Hget.
      destruct (column_objects key features) as [|v vs]; [done|].
      destruct Hget as (a & -> & _). done.
  - intros [Hshapes Harrays]. unfold collate_fn.
    destruct (collect features) as [tensors non_tensors]. cbn [fst snd] in *.
    rewrite stack_all_ok.
    + cbn [mbind result_bind rbind].
      assert (is_ok (array_all np_array non_tensors) = true) as Hok.
      { apply array_all_ok. apply Forall_forall. intros [key vs] Hin.
        destruct (Hcol2 key vs Hin) as [-> Hne]. by apply Harrays. }
      by destruct (array_all np_array non_tensors).
    + apply Forall_forall. intros [key ts] Hin.
      destruct (Hcol1 key ts Hin) as [-> Hne]. by apply Hshapes.
  - intros key Hne Hbad. unfold collate_fn.
    destruct (collect_get key features Hitems) as [Ht _].
    destruct (collect features) as [tensors non_tensors]. cbn [fst snd] in *.
    rewrite extended_None in Ht.
    destruct (column_tensors key features) as [|t ts] eqn:Hcol; [done|].
    apply items_get_elem_of in Ht.
    by rewrite (stack_all_fail tensors key (t :: ts) Ht Hbad).
Qed.

Lemma X22_collate_success_and_failure_witness :
  collate_fn (λ values, Ok values)
    [[("input_ids", PTensor (T1 [1; 2])); ("ground_truth", PStr "4")];
     [("input_ids", PTensor (T1 [3])); ("ground_truth", PStr "144")]] = Raise RuntimeError.
Proof.
  assert (dict_items
    [[("input_ids", PTensor (T1 [1; 2])); ("ground_truth", PStr "4")];
     [("input_ids", PTensor (T1 [3])); ("ground_truth", PStr "144")]]) as Hitems.
  { apply (bool_decide_unpack _). vm_compute. reflexivity. }
  destruct (X22_collate_success_and_failure (λ values, Ok values) _ Hitems) as [_ H].
  apply (H "input_ids"); [discriminate | reflexivity].
Defined.

(** ** Batches of examples *)

Lemma assoc_get_list_to_map (k : string) (feature : list (string * pyval)) :
  assoc_get k feature = (list_to_map feature : dict) !! k.
Proof.
  induction feature as [|[k' v] feature IH]; [done|]. cbn.
  destruct (String.eqb_spec k k') as [->|Hne].
  - by rewrite lookup_insert_eq.
  - by rewrite lookup_insert_ne.
Qed.

Lemma column_of_tensors (key : string) (features : list (list (string * pyval)))
    (ts : list tensor) :
  Forall2 (λ feature t, assoc_get key feature = Some (PTensor t)) features ts →
  column_tensors key features = ts ∧ column_objects key features = [].
Proof.
  unfold column_tensors, column_objects.
  induction 1 as [|f t features ts Hf _ [IH1 IH2]]; [done|].
  cbn [omap list_omap]. rewrite Hf. cbn. by rewrite IH1, IH2.
Qed.

Lemma same_shape_rows (n : nat) (vs : list (list Z)) :
  vs ≠ [] → Forall (λ v, length v = n) vs → same_shape (T1 <$> vs) = true.
Proof.
  destruct vs as [|v vs]; [done|]. intros _ [Hv Hvs]%Forall_cons. cbn.
  induction Hvs as [|v' vs Hv' _ IH]; [done|]. cbn.
  rewrite bool_decide_eq_true_2 by congruence. exact IH.
Qed.

Lemma getitem_padded_ids (W : world) (c : config) (ds : list dict) (index : Z) (out : dict) :
  reserved_keys_free c →
  0 ≤ max_prompt_length c →
  RLHFDataset.__getitem__ W (RLHFDataset.mk c ds) index = Ok out →
  ∃ ids mask,
    out !! "input_ids" = Some (PTensor (T1 ids)) ∧
    out !! "attention_mask" = Some (PTensor (T1 mask)) ∧
    length ids = Z.to_nat (max_prompt_length c) ∧
    length mask = Z.to_nat (max_prompt_length c).
Proof.
  intros Hfree HL (i & example & _ & _ & Ht)%getitem_inv.
  cbn [RLHFDataset.cfg] in Ht.
  destruct (transform_padded W c example out Hfree HL Ht)
    as (msgs & prompt & mi & mid & _ & _ & ids & mask & pos &
        Hids & Hmask & _ & [Hlen _] & [Hlen' _] & _).
  exists ids, mask. split_and!; try done; lia.
Qed.

Lemma feature_column (key : string) (features : list (list (string * pyval)))
    (outs : list dict) (vs : list (list Z)) :
  Forall2 (λ feature out, NoDup feature.*1 ∧ list_to_map feature = out) features outs →
  Forall2 (λ out v, out !! key = Some (PTensor (T1 v))) outs vs →
  Forall2 (λ feature t, assoc_get key feature = Some (PTensor t)) features (T1 <$> vs).
Proof.
  intros Hfeat. revert vs.
  induction Hfeat as [|f out features outs [_ <-] _ IH]; intros vs Hvs.
  - apply Forall2_nil_inv_l in Hvs as ->. constructor.
  - apply Forall2_cons_inv_l in Hvs as (v & vs' & Hv & Hvs & ->).
    cbn. constructor; [by rewrite assoc_get_list_to_map | by apply IH].
Qed.

(** X23. A batch of examples that [RLHFDataset.__getitem__] returned,
    each listed as its items in any order, with [postprocess_data] as
    the specification describes it: under ["input_ids"] and under
    ["attention_mask"] every feature holds a one-axis tensor of
    [max_prompt_length] entries and nothing else, so [torch.stack]
    accepts both columns; when [collate_fn] succeeds, the batch holds
    the two stacks, one slice for each index, in the order of the
    indices. *)
Theorem X23_collate_batch_of_examples {ndarray} (np_array : list pyval → result ndarray)
    (W : world) (c : config) (ds : list dict) (indices : list Z) (outs : list dict)
    (features : list (list (string * pyval))) :
  reserved_keys_free c →
  0 ≤ max_prompt_length c →
  indices ≠ [] →
  Forall2 (λ index out, RLHFDataset.__getitem__ W (RLHFDataset.mk c ds) index = Ok out)
    indices outs →
  Forall2 (λ feature out, NoDup feature.*1 ∧ list_to_map feature = out) features outs →
  ∃ idss masks,
    length idss = length indices ∧ length masks = length indices ∧
    Forall (λ ids, length ids = Z.to_nat (max_prompt_length c)) idss ∧
    Forall (λ mask, length mask = Z.to_nat (max_prompt_length c)) masks ∧
    Forall2 (λ out ids, out !! "input_ids" = Some (PTensor (T1 ids))) outs idss ∧
    Forall2 (λ out mask, out !! "attention_mask" = Some (PTensor (T1 mask))) outs masks ∧
    torch_stack (column_tensors "input_ids" features) = Ok (T1 <$> idss) ∧
    torch_stack (column_tensors "attention_mask" features) = Ok (T1 <$> masks) ∧
    (∀ batch, collate_fn np_array features = Ok batch →
       items_get "input_ids" batch = Some (Stacked (T1 <$> idss)) ∧
       items_get "attention_mask" batch = Some (Stacked (T1 <$> masks))).
Proof.
  intros Hfree HL Hne Hget Hfeat.
  assert (∃ idss masks,
            Forall2 (λ out ids, out !! "input_ids" = Some (PTensor (T1 ids))) outs idss ∧
            Forall2 (λ out mask, out !! "attention_mask" = Some (PTensor (T1 mask))) outs masks ∧
            Forall (λ ids, length ids = Z.to_nat (max_prompt_length c)) idss ∧
            Forall (λ mask, length mask = Z.to_nat (max_prompt_length c)) masks)
    as (idss & masks & Hids & Hmasks & Hlen & Hlen').
  { clear Hne Hfeat. induction Hget as [|index out indices outs Hout _ IH].
    - exists [], []. by split_and!.
    - destruct IH as (idss & masks & ? & ? & ? & ?).
      destruct (getitem_padded_ids W c ds index out Hfree HL Hout)
        as (ids & mask & ? & ? & ? & ?).
      exists (ids :: idss), (mask :: masks). split_and!; by constructor. }
  pose proof (Forall2_length _ _ _ Hget) as Hn.
  pose proof (Forall2_length _ _ _ Hids) as Hn1.
  pose proof (Forall2_length _ _ _ Hmasks) as Hn2.
  assert (Forall2 (λ feature t, assoc_get "input_ids" feature = Some (PTensor t))
            features (T1 <$> idss)) as Hc1.
  { by apply (feature_column "input_ids" features outs idss). }
  assert (Forall2 (λ feature t, assoc_get "attention_mask" feature = Some (PTensor t))
            features (T1 <$> masks)) as Hc2.
  { by apply (feature_column "attention_mask" features outs masks). }
  apply column_of_tensors in Hc1 as [Hc1 Ho1]. apply column_of_tensors in Hc2 as [Hc2 Ho2].
  assert (idss ≠ []) as Hne1 by (intros ->; destruct indices; [done | cbn in *; lia]).
  assert (masks ≠ []) as Hne2 by (intros ->; destruct indices; [done | cbn in *; lia]).
  exists idss, masks. split_and!; try done; try lia.
  - unfold torch_stack. by rewrite Hc1, (same_shape_rows _ idss Hne1 Hlen).
  - unfold torch_stack. by rewrite Hc2, (same_shape_rows _ masks Hne2 Hlen').
  - intros batch Hbatch.
    assert (dict_items features) as Hitems.
    { eapply Forall2_Forall_l; [exact Hfeat|]. apply Forall_forall. by intros out _ f [? _]. }
    split.
    + pose proof (collate_lookup np_array features batch "input_ids" Hitems Hbatch) as H.
      rewrite Ho1, Hc1 in H. rewrite H. by destruct idss.
    + pose proof (collate_lookup np_array features batch "attention_mask" Hitems Hbatch) as H.
      rewrite Ho2, Hc2 in H. rewrite H. by destruct masks.
Qed.

Lemma X23_collate_batch_of_examples_witness :
  ∃ out idss,
    RLHFDataset.__getitem__ Demo.W Demo.text_dataset 0 = Ok out ∧
    torch_stack (column_tensors "input_ids" [map_to_list out; map_to_list out])
      = Ok (T1 <$> idss) ∧
    length idss = 2%nat ∧
    Forall (λ ids, length ids = 8%nat) idss.
Proof.
  destruct (is_ok_inv (RLHFDataset.__getitem__ Demo.W Demo.text_dataset 0))
    as [out Hget]; [vm_compute; reflexivity|].
  destruct (X23_collate_batch_of_examples (λ values, Ok values) Demo.W Demo.text_cfg
              [Demo.text_record] [0; 0] [out; out] [map_to_list out; map_to_list out]
              (demo_reserved_keys_free _ _ _ _ _) ltac:(discriminate) ltac:(discriminate))
    as (idss & masks & Hn & _ & Hlen & _ & _ & _ & Hstack & _).
  - constructor; [exact Hget|]. constructor; [exact Hget|]. constructor.
  - constructor; [split; [apply NoDup_fst_map_to_list | apply list_to_map_to_list]|].
    constructor; [split; [apply NoDup_fst_map_to_list | apply list_to_map_to_list]|].
    constructor.
  - exists out, idss. split; [exact Hget|]. split; [exact Hstack|].
    split; [exact Hn | exact Hlen].
Defined.
